(** * Predictor de precios de la canasta básica: modelo y propiedades

    Shallow embedding of the price predictor
    ([src/utils/data_handler.py], [src/models/predictor.py]) and of the
    streak scan of the volatility report ([src/app/main.py]).

    Modelling conventions.
    - A Python [float] is a value of [num]: an exact rational, one of the two
      infinities, or NaN (pandas' missing value).  Arithmetic follows
      IEEE 754 on the special values; rounding error of binary64 and the
      sign of zero are not represented.
    - A timestamp of the historical series is a calendar date at midnight,
      held with nanosecond resolution (dates from 1677-09-22 to 2262-04-11).
    - Exceptions are those of the [Exception] hierarchy; output on the
      console is not represented.
    - A Python [dict] with string keys is an association list.
    - A call that may raise returns a [resultado]; [try]/[except] is the
      combinator [intentar]. *)

From Stdlib Require Import ZArith QArith Qround List String Ascii Bool Lia Lqa.
From Stdlib Require Import DecimalString.
From Stdlib Require Import Sorted Permutation.
Import ListNotations.
Local Open Scope Z_scope.

(** ** Numbers *)

Module Num.

Inductive num : Type :=
| NaN
| Inf (negativo : bool)
| Fin (q : Q).

Definition Qltb (x y : Q) : bool := negb (Qle_bool y x).
Definition Qeqb (x y : Q) : bool := Qeq_bool x y.

Definition es_nan (x : num) : bool :=
  match x with NaN => true | _ => false end.

Definition es_finito (x : num) : bool :=
  match x with Fin _ => true | _ => false end.

Definition es_inf (x : num) : bool :=
  match x with Inf _ => true | _ => false end.

Definition de_Z (z : Z) : num := Fin (inject_Z z).

Definition suma (a b : num) : num :=
  match a, b with
  | NaN, _ | _, NaN => NaN
  | Inf s, Inf t => if Bool.eqb s t then Inf s else NaN
  | Inf s, Fin _ => Inf s
  | Fin _, Inf t => Inf t
  | Fin x, Fin y => Fin (Qred (x + y))
  end.

Definition resta (a b : num) : num :=
  match a, b with
  | NaN, _ | _, NaN => NaN
  | Inf s, Inf t => if Bool.eqb s t then NaN else Inf s
  | Inf s, Fin _ => Inf s
  | Fin _, Inf t => Inf (negb t)
  | Fin x, Fin y => Fin (Qred (x - y))
  end.

Definition mult (a b : num) : num :=
  match a, b with
  | NaN, _ | _, NaN => NaN
  | Inf s, Inf t => Inf (xorb s t)
  | Inf s, Fin y | Fin y, Inf s =>
      if Qeqb y 0 then NaN else Inf (xorb s (Qltb y 0))
  | Fin x, Fin y => Fin (Qred (x * y))
  end.

(** Division never raises on floats: a zero divisor gives an infinity, or
    NaN for 0/0. *)
Definition div (a b : num) : num :=
  match a, b with
  | NaN, _ | _, NaN => NaN
  | Inf _, Inf _ => NaN
  | Inf s, Fin y => Inf (xorb s (Qltb y 0))
  | Fin _, Inf _ => Fin 0
  | Fin x, Fin y =>
      if Qeqb y 0 then (if Qeqb x 0 then NaN else Inf (Qltb x 0))
      else Fin (Qred (x / y))
  end.

(** [a < b]; every comparison with NaN is false. *)
Definition ltb (a b : num) : bool :=
  match a, b with
  | NaN, _ | _, NaN => false
  | Inf s, Inf t => s && negb t
  | Inf s, Fin _ => s
  | Fin _, Inf t => negb t
  | Fin x, Fin y => Qltb x y
  end.

Definition gtb (a b : num) : bool := ltb b a.

(** Nearest integer, ties to the even one. *)
Definition redondear_entero (q : Q) : Z :=
  let f := Qfloor q in
  let resto := (q - inject_Z f)%Q in
  if Qltb resto (1 # 2) then f
  else if Qltb (1 # 2) resto then f + 1
  else if Z.even f then f else f + 1.

(** [round(x, 2)]. *)
Definition round2 (x : num) : num :=
  match x with
  | Fin q => Fin (Qred (inject_Z (redondear_entero (q * 100)) / 100))
  | _ => x
  end.

End Num.
Export Num.

(** ** Calendar dates *)

Module Fechas.

Record fecha : Type := mk_fecha { anio : Z; mes : Z; dia : Z }.

Definition bisiesto (y : Z) : bool :=
  (y mod 4 =? 0) && (negb (y mod 100 =? 0) || (y mod 400 =? 0)).

Definition dias_en_mes (y m : Z) : Z :=
  if m =? 2 then (if bisiesto y then 29 else 28)
  else if (m =? 4) || (m =? 6) || (m =? 9) || (m =? 11) then 30
  else 31.

(** The dates [datetime] accepts. *)
Definition fecha_valida (f : fecha) : bool :=
  (1 <=? anio f) && (anio f <=? 9999) &&
  (1 <=? mes f) && (mes f <=? 12) &&
  (1 <=? dia f) && (dia f <=? dias_en_mes (anio f) (mes f)).

Definition comparar (a b : fecha) : comparison :=
  match anio a ?= anio b with
  | Eq => match mes a ?= mes b with
          | Eq => dia a ?= dia b
          | c => c
          end
  | c => c
  end.

Definition leb (a b : fecha) : bool :=
  match comparar a b with Gt => false | _ => true end.

(** Midnights a nanosecond [Timestamp] can hold:
    [Timestamp.min] is 1677-09-21 00:12:43.145224193 and
    [Timestamp.max] is 2262-04-11 23:47:16.854775807. *)
Definition Timestamp_min : fecha := mk_fecha 1677 9 22.
Definition Timestamp_max : fecha := mk_fecha 2262 4 11.

Definition en_rango_Timestamp (f : fecha) : bool :=
  fecha_valida f && leb Timestamp_min f && leb f Timestamp_max.

Definition dias_antes_de_anio (y : Z) : Z :=
  let p := y - 1 in p * 365 + p / 4 - p / 100 + p / 400.

Definition dias_antes_de_mes (y m : Z) : Z :=
  fold_right (fun k acc => dias_en_mes y k + acc) 0
             (map Z.of_nat (seq 1 (Z.to_nat (m - 1)))).

Definition dayofyear (f : fecha) : Z :=
  dias_antes_de_mes (anio f) (mes f) + dia f.

Definition toordinal (f : fecha) : Z :=
  dias_antes_de_anio (anio f) + dayofyear f.

Definition quarter (f : fecha) : Z := (mes f - 1) / 3 + 1.

Definition indice_mes (f : fecha) : Z := anio f * 12 + (mes f - 1).

(** [f - pd.DateOffset(months=m)]: the month index moves back by [m], the
    day is clipped to the length of the month reached, and the result has
    to be a [Timestamp] again. *)
Definition restar_meses (f : fecha) (m : Z) : option fecha :=
  let idx := indice_mes f - m in
  let y := idx / 12 in
  let mo := idx mod 12 + 1 in
  let r := mk_fecha y mo (Z.min (dia f) (dias_en_mes y mo)) in
  if en_rango_Timestamp r then Some r else None.

Fixpoint maximo_desde (m : fecha) (l : list fecha) : fecha :=
  match l with
  | [] => m
  | f :: l' => maximo_desde (if leb m f then f else m) l'
  end.

Fixpoint minimo_desde (m : fecha) (l : list fecha) : fecha :=
  match l with
  | [] => m
  | f :: l' => minimo_desde (if leb f m then f else m) l'
  end.

(** [Series.max()] and [Series.min()] of a date column; [None] is [NaT],
    the answer on an empty column. *)
Definition maximo (l : list fecha) : option fecha :=
  match l with [] => None | f :: l' => Some (maximo_desde f l') end.

Definition minimo (l : list fecha) : option fecha :=
  match l with [] => None | f :: l' => Some (minimo_desde f l') end.

(** The day after [f]. *)
Definition siguiente_dia (f : fecha) : fecha :=
  if dia f <? dias_en_mes (anio f) (mes f)
  then mk_fecha (anio f) (mes f) (dia f + 1)
  else if mes f <? 12 then mk_fecha (anio f) (mes f + 1) 1
  else mk_fecha (anio f + 1) 1 1.

(** The date [n] days after [f]. *)
Fixpoint sumar_dias (f : fecha) (n : nat) : fecha :=
  match n with
  | O => f
  | S n' => sumar_dias (siguiente_dia f) n'
  end.

End Fechas.
Export Fechas.

(** ** Python values, exceptions and records *)

Module Python.

Inductive clase_excepcion : Type :=
| Exception_
| ValueError
| OutOfBoundsDatetime
| KeyError
| IndexError
| TypeError
| AttributeError
| FileNotFoundError.

(** [mensaje] is what [str(e)] gives.  For an exception raised inside a
    library the text abbreviates the library's wording. *)
Record excepcion : Type := mk_excepcion {
  clase : clase_excepcion;
  mensaje : string
}.

Definition clase_eqb (a b : clase_excepcion) : bool :=
  match a, b with
  | Exception_, Exception_ | ValueError, ValueError
  | OutOfBoundsDatetime, OutOfBoundsDatetime | KeyError, KeyError
  | IndexError, IndexError | TypeError, TypeError
  | AttributeError, AttributeError
  | FileNotFoundError, FileNotFoundError => true
  | _, _ => false
  end.

(** [issubclass(c, base)] over the classes above. *)
Definition es_subclase (c base : clase_excepcion) : bool :=
  match base with
  | Exception_ => true
  | ValueError =>
      match c with ValueError | OutOfBoundsDatetime => true | _ => false end
  | _ => clase_eqb c base
  end.

Inductive resultado (A : Type) : Type :=
| Retorna (a : A)
| Lanza (e : excepcion).
Arguments Retorna {A} a.
Arguments Lanza {A} e.

Definition ligar {A B : Type} (r : resultado A) (k : A -> resultado B)
  : resultado B :=
  match r with
  | Retorna a => k a
  | Lanza e => Lanza e
  end.

Definition lanzar {A : Type} (c : clase_excepcion) (m : string) : resultado A :=
  Lanza (mk_excepcion c m).

(** A handler list reads as the [except] clauses of one [try], in order. *)
Definition manejador (A : Type) : Type :=
  (clase_excepcion * (excepcion -> resultado A))%type.

Fixpoint despachar {A : Type} (e : excepcion) (hs : list (manejador A))
  : resultado A :=
  match hs with
  | [] => Lanza e
  | (c, h) :: hs' => if es_subclase (clase e) c then h e else despachar e hs'
  end.

Definition intentar {A : Type} (cuerpo : resultado A) (hs : list (manejador A))
  : resultado A :=
  match cuerpo with
  | Retorna a => Retorna a
  | Lanza e => despachar e hs
  end.

Inductive pyval : Type :=
| PStr (s : string)
| PInt (z : Z)
| PFloat (x : num)
| PBool (b : bool)
| PLista (l : list string).

Definition dict : Type := list (string * pyval).

Fixpoint obtener (d : dict) (k : string) : option pyval :=
  match d with
  | [] => None
  | (k', v) :: d' => if String.eqb k k' then Some v else obtener d' k
  end.

Definition tiene_clave (d : dict) (k : string) : bool :=
  match obtener d k with Some _ => true | None => false end.

(** [{'error': prefijo + str(e)}] *)
Definition registro_error (texto : string) : dict :=
  [("error"%string, PStr texto)].

Definition es_registro_error (d : dict) : bool :=
  match d with
  | [(k, PStr _)] => String.eqb k "error"
  | _ => false
  end.

End Python.
Export Python.

Declare Scope py_scope.
Notation "x <- c ;; k" := (ligar c (fun x => k))
  (at level 61, c at next level, right associativity) : py_scope.
Local Open Scope py_scope.

(** ** [datetime]: parsing and the wall clock *)

Module Tiempo.

Definition es_digito (c : ascii) : bool :=
  let n := nat_of_ascii c in (48 <=? n)%nat && (n <=? 57)%nat.

Definition valor_digito (c : ascii) : Z := Z.of_nat (nat_of_ascii c) - 48.

Definition entre (a b : Z) (c : ascii) : bool :=
  es_digito c && (a <=? valor_digito c) && (valor_digito c <=? b).

(** [%m] is [1[0-2]|0[1-9]|[1-9]], and the format wants a dash after it. *)
Definition leer_mes (l : list ascii) : option (Z * list ascii) :=
  match l with
  | a :: b :: "-"%char :: r =>
      if (entre 1 1 a && entre 0 2 b) || (entre 0 0 a && entre 1 9 b)
      then Some (10 * valor_digito a + valor_digito b, r)
      else None
  | a :: "-"%char :: r =>
      if entre 1 9 a then Some (valor_digito a, r) else None
  | _ => None
  end.

(** [%d] is [3[01]|[12]\d|0[1-9]|[1-9]| [1-9]], alternatives tried in
    that order. *)
Definition leer_dia (l : list ascii) : option (Z * list ascii) :=
  let uno :=
    match l with
    | a :: r =>
        if entre 1 9 a then Some (valor_digito a, r)
        else match l with
             | " "%char :: b :: r' =>
                 if entre 1 9 b then Some (valor_digito b, r') else None
             | _ => None
             end
    | [] => None
    end in
  match l with
  | a :: b :: r =>
      if (entre 3 3 a && entre 0 1 b) || (entre 1 2 a && es_digito b)
         || (entre 0 0 a && entre 1 9 b)
      then Some (10 * valor_digito a + valor_digito b, r)
      else uno
  | _ => uno
  end.

(** [datetime.strptime(s, '%Y-%m-%d')], time of day dropped (it is
    midnight). *)
Definition strptime (s : string) : resultado fecha :=
  let no_coincide : resultado fecha :=
    lanzar ValueError "time data does not match format '%Y-%m-%d'" in
  match list_ascii_of_string s with
  | y1 :: y2 :: y3 :: y4 :: "-"%char :: r =>
      if es_digito y1 && es_digito y2 && es_digito y3 && es_digito y4 then
        match leer_mes r with
        | Some (m, r') =>
            match leer_dia r' with
            | Some (d, []) =>
                let y := 1000 * valor_digito y1 + 100 * valor_digito y2
                         + 10 * valor_digito y3 + valor_digito y4 in
                if y =? 0 then lanzar ValueError "year 0 is out of range"
                else if d <=? dias_en_mes y m then Retorna (mk_fecha y m d)
                else lanzar ValueError "day is out of range for month"
            | Some (_, _ :: _) =>
                lanzar ValueError "unconverted data remains"
            | None => no_coincide
            end
        | None => no_coincide
        end
      else no_coincide
  | _ => no_coincide
  end.

(** The wall clock: [lecturas k] is what the [k]-th call of
    [datetime.now().strftime('%Y-%m-%d %H:%M')] gives, [pos] counts the
    calls made so far. *)
Record Reloj : Type := mk_reloj { lecturas : nat -> string; pos : nat }.

Definition datetime_now (r : Reloj) : string * Reloj :=
  (lecturas r (pos r), mk_reloj (lecturas r) (S (pos r))).

(** [d.strftime('%Y-%m-%d')] *)
Definition dos_digitos (z : Z) : string :=
  String (ascii_of_nat (48 + Z.to_nat (z / 10 mod 10)))
    (String (ascii_of_nat (48 + Z.to_nat (z mod 10))) EmptyString).

Definition strftime (f : fecha) : string :=
  (dos_digitos (anio f / 100) ++ dos_digitos (anio f) ++ "-"
     ++ dos_digitos (mes f) ++ "-" ++ dos_digitos (dia f))%string.

End Tiempo.
Export Tiempo.

(** ** numpy's transcendental functions

    [np.sin], [np.cos] and the square root under [std()] have no exact
    rational value; the model takes them as given. *)

Record Numpy : Type := mk_numpy {
  np_sin : num -> num;
  np_cos : num -> num;
  np_sqrt : num -> num
}.

(** [np.pi], the binary64 number 3.141592653589793. *)
Definition np_pi : num := Fin (884279719003555 # 281474976710656).

(** ** Series and frames *)

Module Pandas.

(** One row of the two-column historical frame. *)
Record fila : Type := mk_fila {
  Fecha_Pub_DOF : fecha;
  Precio_promedio : num
}.

(** A frame whose column labels are not known in advance. *)
Record DataFrame : Type := mk_df {
  columnas : list string;
  filas : list fila
}.

Definition tiene_columna (df : DataFrame) (c : string) : bool :=
  existsb (String.eqb c) (columnas df).

(** What a file on disk holds for the reader. *)
Inductive archivo (A : Type) : Type :=
| NoExiste
| Ilegible (e : excepcion)
| Contiene (a : A).
Arguments NoExiste {A}.
Arguments Ilegible {A} e.
Arguments Contiene {A} a.

(** [sort_values('Fecha_Pub_DOF')], ascending.  Rows with the same date
    keep their order here; pandas' default sort leaves the order of ties
    open. *)
Fixpoint insertar (r : fila) (l : list fila) : list fila :=
  match l with
  | [] => [r]
  | x :: l' =>
      if Fechas.leb (Fecha_Pub_DOF r) (Fecha_Pub_DOF x) then r :: x :: l'
      else x :: insertar r l'
  end.

Fixpoint sort_values (l : list fila) : list fila :=
  match l with
  | [] => []
  | r :: l' => insertar r (sort_values l')
  end.

(** [s.iloc[0]] and [s.iloc[-1]] *)
Definition iloc_primero {A : Type} (l : list A) : resultado A :=
  match l with
  | [] => lanzar IndexError "single positional indexer is out-of-bounds"
  | x :: _ => Retorna x
  end.

Fixpoint ultimo {A : Type} (l : list A) : option A :=
  match l with
  | [] => None
  | [x] => Some x
  | _ :: l' => ultimo l'
  end.

Definition iloc_ultimo {A : Type} (l : list A) : resultado A :=
  match ultimo l with
  | None => lanzar IndexError "single positional indexer is out-of-bounds"
  | Some x => Retorna x
  end.

Definition dropna (xs : list num) : list num :=
  filter (fun x => negb (es_nan x)) xs.

Definition sumar (xs : list num) : num := fold_left suma xs (Fin 0).

Definition n_de (xs : list num) : num := de_Z (Z.of_nat (List.length xs)).

(** [Series.mean()], [max()], [min()], [std()], [median()]: missing values
    are skipped. *)
Definition media (xs : list num) : num :=
  match dropna xs with
  | [] => NaN
  | v => div (sumar v) (n_de v)
  end.

Definition maximo_num (xs : list num) : num :=
  match dropna xs with
  | [] => NaN
  | x :: v => fold_left (fun m y => if Num.ltb m y then y else m) v x
  end.

Definition minimo_num (xs : list num) : num :=
  match dropna xs with
  | [] => NaN
  | x :: v => fold_left (fun m y => if Num.ltb y m then y else m) v x
  end.

Definition cuadrado (x : num) : num := mult x x.

(** Sample variance (divisor [n - 1]) of values that are all present. *)
Definition varianza_muestral (v : list num) : num :=
  match v with
  | [] | [_] => NaN
  | _ =>
      let m := div (sumar v) (n_de v) in
      div (sumar (map (fun x => cuadrado (resta x m)) v))
          (de_Z (Z.of_nat (List.length v) - 1))
  end.

Definition std (np : Numpy) (xs : list num) : num :=
  np_sqrt np (varianza_muestral (dropna xs)).

Fixpoint insertar_num (x : num) (l : list num) : list num :=
  match l with
  | [] => [x]
  | y :: l' => if Num.ltb y x then y :: insertar_num x l' else x :: y :: l'
  end.

Definition ordenar_num (l : list num) : list num :=
  fold_right insertar_num [] l.

Definition mediana (xs : list num) : num :=
  let v := ordenar_num (dropna xs) in
  let n := List.length v in
  match n with
  | O => NaN
  | _ =>
      if Nat.even n
      then div (suma (nth (n / 2 - 1) v NaN) (nth (n / 2) v NaN)) (Fin 2)
      else nth (n / 2) v NaN
  end.

(** [s.shift(k)] at position [i] *)
Definition shift (k : nat) (xs : list num) (i : nat) : num :=
  if (i <? k)%nat then NaN else nth (i - k) xs NaN.

(** [s.diff(k)] at position [i] *)
Definition diff (k : nat) (xs : list num) (i : nat) : num :=
  resta (nth i xs NaN) (shift k xs i).

(** The rolling machinery reads infinities as missing. *)
Definition preparar (xs : list num) : list num :=
  map (fun x => if es_inf x then NaN else x) xs.

(** The [w] values ending at position [i]; with the default
    [min_periods] a statistic exists only when the window is full and
    holds no missing value. *)
Definition ventana (w : nat) (xs : list num) (i : nat) : option (list num) :=
  if (i + 1 <? w)%nat then None
  else
    let v := firstn w (skipn (i + 1 - w) (preparar xs)) in
    if existsb es_nan v then None else Some v.

(** [s.rolling(window=w).mean()] at position [i] *)
Definition rolling_mean (w : nat) (xs : list num) (i : nat) : num :=
  match ventana w xs i with
  | None => NaN
  | Some v => div (sumar v) (de_Z (Z.of_nat w))
  end.

(** [s.rolling(window=w).std()] at position [i] *)
Definition rolling_std (np : Numpy) (w : nat) (xs : list num) (i : nat) : num :=
  match ventana w xs i with
  | None => NaN
  | Some v => np_sqrt np (varianza_muestral v)
  end.

End Pandas.
Export Pandas.

(** ** [src/utils/data_handler.py] *)

Module DataHandler.

(** [cargar_datos_historicos(ruta_archivo)]: the file is read, its date
    column converted, and the rows sorted by date.  [Contiene] is a file
    that parses into the two documented columns. *)
Definition cargar_datos_historicos (ruta_archivo : string)
    (csv : archivo (list fila)) : resultado (list fila) :=
  intentar
    (df <- match csv with
           | NoExiste => lanzar FileNotFoundError "No such file or directory"
           | Ilegible e => Lanza e
           | Contiene rows => Retorna rows
           end ;;
     Retorna (sort_values df))
    [ (FileNotFoundError,
        fun _ => lanzar FileNotFoundError
                   ("No se encontró el archivo: " ++ ruta_archivo)%string);
      (Exception_,
        fun e => lanzar Exception_
                   ("Error al cargar los datos: " ++ mensaje e)%string) ].

(** A cell of a frame. *)
Inductive celda : Type :=
| CFecha (f : fecha)
| CEntero (z : Z)
| CNum (x : num).

(** One row of the frame [crear_caracteristicas_temporales] returns. *)
Record FilaCaracteristicas : Type := mk_fc {
  fc_fecha : fecha;
  fc_precio : num;
  year : Z;
  month : Z;
  day_of_year : Z;
  quarter_ : Z;
  month_sin : num;
  month_cos : num;
  day_sin : num;
  day_cos : num;
  days_since_start : Z;
  precio_lag1 : num;
  precio_lag2 : num;
  precio_lag3 : num;
  precio_ma3 : num;
  precio_ma6 : num;
  precio_std3 : num;
  precio_diff1 : num;
  precio_diff2 : num
}.

Section Caracteristicas.

Variable np : Numpy.

(** [2 * np.pi * k / n] *)
Definition angulo (k : Z) (n : Z) : num :=
  div (mult (mult (Fin 2) np_pi) (de_Z k)) (de_Z n).

Definition caracteristicas_de_fila (inicio : option fecha)
    (precios : list num) (i : nat) (r : fila) : FilaCaracteristicas :=
  let f := Fecha_Pub_DOF r in
  {| fc_fecha := f;
     fc_precio := Precio_promedio r;
     year := anio f;
     month := mes f;
     day_of_year := dayofyear f;
     quarter_ := quarter f;
     month_sin := np_sin np (angulo (mes f) 12);
     month_cos := np_cos np (angulo (mes f) 12);
     day_sin := np_sin np (angulo (dayofyear f) 365);
     day_cos := np_cos np (angulo (dayofyear f) 365);
     days_since_start :=
       match inicio with
       | Some f0 => toordinal f - toordinal f0
       | None => 0
       end;
     precio_lag1 := shift 1 precios i;
     precio_lag2 := shift 2 precios i;
     precio_lag3 := shift 3 precios i;
     precio_ma3 := rolling_mean 3 precios i;
     precio_ma6 := rolling_mean 6 precios i;
     precio_std3 := rolling_std np 3 precios i;
     precio_diff1 := diff 1 precios i;
     precio_diff2 := diff 2 precios i |}.

(** [crear_caracteristicas_temporales(df)] on a frame with the columns
    'Fecha_Pub_DOF' and 'Precio promedio'.  This is the frame the function
    returns; the subtraction behind 'days_since_start' is done on
    nanosecond counts and raises [OverflowError] when the dates span more
    than 2^63 nanoseconds (about 292 years), a case left out here. *)
Definition crear_caracteristicas_temporales (df : list fila)
  : list FilaCaracteristicas :=
  let inicio := minimo (map Fecha_Pub_DOF df) in
  let precios := map Precio_promedio df in
  map (fun ir => caracteristicas_de_fila inicio precios (fst ir) (snd ir))
      (combine (seq 0 (List.length df)) df).

(** [obtener_estadisticas_datos(df)] *)
Definition obtener_estadisticas_datos (df : DataFrame) : resultado dict :=
  if negb (tiene_columna df "Precio promedio") then
    lanzar ValueError
      "El DataFrame debe contener la columna 'Precio promedio'"
  else
    let precios := map Precio_promedio (filas df) in
    fechas <- (if tiene_columna df "Fecha_Pub_DOF"
               then Retorna (map Fecha_Pub_DOF (filas df))
               else lanzar KeyError "'Fecha_Pub_DOF'") ;;
    inicio <- match minimo fechas with
              | Some f => Retorna (strftime f)
              | None => lanzar ValueError "NaTType does not support strftime"
              end ;;
    fin <- match maximo fechas with
           | Some f => Retorna (strftime f)
           | None => lanzar ValueError "NaTType does not support strftime"
           end ;;
    Retorna
      [ ("total_registros", PInt (Z.of_nat (List.length (filas df))));
        ("fecha_inicio", PStr inicio);
        ("fecha_fin", PStr fin);
        ("precio_promedio", PFloat (media precios));
        ("precio_minimo", PFloat (minimo_num precios));
        ("precio_maximo", PFloat (maximo_num precios));
        ("desviacion_estandar", PFloat (std np precios));
        ("mediana", PFloat (mediana precios)) ]%string.

End Caracteristicas.

(** [fila[c]]: the cell under column label [c], if the frame built above
    has that column. *)
Definition valor_columna (r : FilaCaracteristicas) (c : string) : option celda :=
  if String.eqb c "Fecha_Pub_DOF" then Some (CFecha (fc_fecha r))
  else if String.eqb c "Precio promedio" then Some (CNum (fc_precio r))
  else if String.eqb c "year" then Some (CEntero (year r))
  else if String.eqb c "month" then Some (CEntero (month r))
  else if String.eqb c "day_of_year" then Some (CEntero (day_of_year r))
  else if String.eqb c "quarter" then Some (CEntero (quarter_ r))
  else if String.eqb c "month_sin" then Some (CNum (month_sin r))
  else if String.eqb c "month_cos" then Some (CNum (month_cos r))
  else if String.eqb c "day_sin" then Some (CNum (day_sin r))
  else if String.eqb c "day_cos" then Some (CNum (day_cos r))
  else if String.eqb c "days_since_start" then Some (CEntero (days_since_start r))
  else if String.eqb c "precio_lag1" then Some (CNum (precio_lag1 r))
  else if String.eqb c "precio_lag2" then Some (CNum (precio_lag2 r))
  else if String.eqb c "precio_lag3" then Some (CNum (precio_lag3 r))
  else if String.eqb c "precio_ma3" then Some (CNum (precio_ma3 r))
  else if String.eqb c "precio_ma6" then Some (CNum (precio_ma6 r))
  else if String.eqb c "precio_std3" then Some (CNum (precio_std3 r))
  else if String.eqb c "precio_diff1" then Some (CNum (precio_diff1 r))
  else if String.eqb c "precio_diff2" then Some (CNum (precio_diff2 r))
  else None.

(** A cell that [fillna] replaces. *)
Definition celda_faltante (c : celda) : bool :=
  match c with
  | CNum x => es_nan x
  | _ => false
  end.

(** [fillna(v)] on one cell *)
Definition fillna (v : num) (c : celda) : celda :=
  if celda_faltante c then CNum v else c.

(** [', '.join(l)] *)
Fixpoint unir (l : list string) : string :=
  match l with
  | [] => ""
  | [x] => x
  | x :: l' => (x ++ ", " ++ unir l')%string
  end.

(** [validar_archivo_datos(ruta_archivo)], given what the path holds.  The
    check reads the column labels, the number of rows and the price cells;
    the date cells are not looked at. *)
Definition validar_archivo_datos (ruta_archivo : string)
    (csv : archivo DataFrame) : bool * string :=
  match csv with
  | NoExiste => (false, ("El archivo no existe: " ++ ruta_archivo)%string)
  | Ilegible e => (false, ("Error al leer el archivo: " ++ mensaje e)%string)
  | Contiene df =>
      let columnas_requeridas := ["Fecha_Pub_DOF"; "Precio promedio"]%string in
      let columnas_faltantes :=
        filter (fun col => negb (tiene_columna df col)) columnas_requeridas in
      match columnas_faltantes with
      | _ :: _ =>
          (false, ("Faltan las columnas: " ++ unir columnas_faltantes)%string)
      | [] =>
          if (List.length (filas df) =? 0)%nat then
            (false, "El archivo está vacío"%string)
          else if forallb es_nan (map Precio_promedio (filas df)) then
            (false, "No hay datos de precios válidos"%string)
          else (true, "Archivo válido"%string)
      end
  end.

(** [fecha_base + timedelta(days=dias)]: past the year 9999 the addition
    raises [OverflowError], a class outside [ValueError] that stands here
    as its base [Exception_]. *)
Definition mas_dias (fecha_base : fecha) (dias : Z) : resultado fecha :=
  let r := sumar_dias fecha_base (Z.to_nat dias) in
  if anio r <=? 9999 then Retorna r
  else lanzar Exception_ "date value out of range".

(** The loop of [generar_fechas_futuras] over the values of [i] left, with
    the list built so far. *)
Fixpoint bucle_futuras (fecha_base : fecha) (indices : list nat)
    (fechas_futuras : list string) : resultado (list string) :=
  match indices with
  | [] => Retorna fechas_futuras
  | i :: indices' =>
      nueva_fecha <- mas_dias fecha_base (30 * (Z.of_nat i + 1)) ;;
      bucle_futuras fecha_base indices'
        (fechas_futuras ++ [strftime nueva_fecha])
  end.

(** [generar_fechas_futuras(fecha_inicio, num_meses)]; [range(num_meses)]
    is empty when [num_meses] is not positive. *)
Definition generar_fechas_futuras (fecha_inicio : string) (num_meses : Z)
  : resultado (list string) :=
  intentar
    (fecha_base <- strptime fecha_inicio ;;
     bucle_futuras fecha_base (seq 0 (Z.to_nat num_meses)) [])
    [ (ValueError,
        fun e => lanzar ValueError
          ("Formato de fecha inválido. Use 'YYYY-MM-DD': " ++ mensaje e)%string) ].

End DataHandler.
Export DataHandler.

(** ** [src/models/predictor.py] *)

Module Predictor.

(** The artifacts are opaque objects: what is known of them is the
    methods the predictor calls, any of which may raise. *)
Record ModeloSVM : Type := mk_svm {
  predict : list num -> resultado (list num);
  kernel : option pyval;
  param_C : option pyval;
  gamma : option pyval;
  epsilon : option pyval
}.

Record Escalador : Type := mk_escalador {
  transform : list celda -> resultado (list num);
  inverse_transform : list num -> resultado (list num)
}.

(** The attributes of a [PredictorAguacate]; [None] is Python's [None]. *)
Record PredictorAguacate : Type := mk_predictor {
  modelo_svm : option ModeloSVM;
  scaler_x : option Escalador;
  scaler_y : option Escalador;
  columnas_caracteristicas : option (list string);
  datos_historicos : option (list fila);
  modelo_cargado : bool
}.

Definition con_modelo_svm (v : option ModeloSVM) (p : PredictorAguacate) :=
  mk_predictor v (scaler_x p) (scaler_y p)
    (columnas_caracteristicas p) (datos_historicos p) (modelo_cargado p).
Definition con_scaler_x (v : option Escalador) (p : PredictorAguacate) :=
  mk_predictor (modelo_svm p) v (scaler_y p)
    (columnas_caracteristicas p) (datos_historicos p) (modelo_cargado p).
Definition con_scaler_y (v : option Escalador) (p : PredictorAguacate) :=
  mk_predictor (modelo_svm p) (scaler_x p) v
    (columnas_caracteristicas p) (datos_historicos p) (modelo_cargado p).
Definition con_columnas (v : option (list string)) (p : PredictorAguacate) :=
  mk_predictor (modelo_svm p) (scaler_x p) (scaler_y p)
    v (datos_historicos p) (modelo_cargado p).
Definition con_datos (v : list fila) (p : PredictorAguacate) :=
  mk_predictor (modelo_svm p) (scaler_x p) (scaler_y p)
    (columnas_caracteristicas p) (Some v) (modelo_cargado p).
Definition con_cargado (b : bool) (p : PredictorAguacate) :=
  mk_predictor (modelo_svm p) (scaler_x p) (scaler_y p)
    (columnas_caracteristicas p) (datos_historicos p) b.

(** The four files of the model directory.  A file that deserializes
    gives what was stored in it: the artifact, or Python's [None] when
    that is what was pickled ([joblib.load] returns it without raising). *)
Record DirectorioModelos : Type := mk_directorio {
  best_svm_mejorado_pkl : archivo (option ModeloSVM);
  scaler_X_pkl : archivo (option Escalador);
  scaler_y_pkl : archivo (option Escalador);
  feature_columns_pkl : archivo (option (list string))
}.

Definition existe {A : Type} (a : archivo A) : bool :=
  match a with NoExiste => false | _ => true end.

Definition joblib_load {A : Type} (a : archivo A) : resultado A :=
  match a with
  | Contiene x => Retorna x
  | Ilegible e => Lanza e
  | NoExiste => lanzar FileNotFoundError "No such file or directory"
  end.

(** [_cargar_modelo]: the new attributes and the value returned.  All four
    files must exist before any is loaded; the loads then assign one
    attribute after the other, whatever the file gave, and the first that
    raises ends the method with [modelo_cargado = False]. *)
Definition _cargar_modelo (self : PredictorAguacate) (d : DirectorioModelos)
    : PredictorAguacate * bool :=
  if negb (existe (best_svm_mejorado_pkl d) && existe (scaler_X_pkl d)
           && existe (scaler_y_pkl d) && existe (feature_columns_pkl d))
  then (con_cargado false self, false)
  else
    match joblib_load (best_svm_mejorado_pkl d) with
    | Lanza _ => (con_cargado false self, false)
    | Retorna m =>
        let self := con_modelo_svm m self in
        match joblib_load (scaler_X_pkl d) with
        | Lanza _ => (con_cargado false self, false)
        | Retorna sx =>
            let self := con_scaler_x sx self in
            match joblib_load (scaler_y_pkl d) with
            | Lanza _ => (con_cargado false self, false)
            | Retorna sy =>
                let self := con_scaler_y sy self in
                match joblib_load (feature_columns_pkl d) with
                | Lanza _ => (con_cargado false self, false)
                | Retorna cols =>
                    (con_cargado true (con_columnas cols self), true)
                end
            end
        end
    end.

(** [_cargar_datos_historicos] *)
Definition _cargar_datos_historicos (self : PredictorAguacate)
    (ruta_datos : string) (csv : archivo (list fila))
    : PredictorAguacate * bool :=
  match cargar_datos_historicos ruta_datos csv with
  | Retorna df => (con_datos df self, true)
  | Lanza _ => (self, false)
  end.

(** [PredictorAguacate(ruta_modelos, ruta_datos)], given what the two
    paths hold. *)
Definition __init__ (d : DirectorioModelos) (ruta_datos : string)
    (csv : archivo (list fila)) : PredictorAguacate :=
  let self := mk_predictor None None None None None false in
  let self := fst (_cargar_modelo self d) in
  fst (_cargar_datos_historicos self ruta_datos csv).



(** The direction label of a percentage change. *)
Definition direccion_tendencia (cambio_porcentual : num) : string :=
  if gtb cambio_porcentual (Fin 5) then "Alcista"
  else if Num.ltb cambio_porcentual (Fin (-5)) then "Bajista"
  else "Estable".

(** [str(n)] of an integer *)
Definition str_int (n : Z) : string := NilZero.string_of_int (Z.to_int n).

Definition de_opcion {A : Type} (o : option A) (c : clase_excepcion)
    (m : string) : resultado A :=
  match o with
  | Some a => Retorna a
  | None => lanzar c m
  end.

Section ConNumpy.

Variable np : Numpy.

(** Lines 124-137: the frame whose last row is fed to the model. *)
Definition df_features_para (hist : list fila) (fecha_obj : fecha)
  : list FilaCaracteristicas :=
  let df_temp := [mk_fila fecha_obj NaN] in
  let df_completo := sort_values (hist ++ df_temp) in
  crear_caracteristicas_temporales np df_completo.

(** [df_features[columnas].iloc[-1:]]: the cells of the last row under
    the requested labels; an unknown label is a [KeyError]. *)
Fixpoint seleccionar (r : FilaCaracteristicas) (cols : list string)
  : resultado (list celda) :=
  match cols with
  | [] => Retorna []
  | c :: cols' =>
      v <- de_opcion (valor_columna r c) KeyError "not in index" ;;
      vs <- seleccionar r cols' ;;
      Retorna (v :: vs)
  end.

(** Lines 140-142: [X_pred]. *)
Definition X_pred_de (self : PredictorAguacate) (hist : list fila)
    (fecha_obj : fecha) : resultado (list celda) :=
  let df_features := df_features_para hist fecha_obj in
  cols <- de_opcion (columnas_caracteristicas self) KeyError "None" ;;
  r <- iloc_ultimo df_features ;;
  sel <- seleccionar r cols ;;
  relleno <- iloc_ultimo (map Precio_promedio hist) ;;
  Retorna (map (fillna relleno) sel).

(** Lines 122-151: the body of the [try] up to the predicted price.  A
    requested date outside the nanosecond range stays a plain object in the
    merged frame, and the [.dt] accessor of the synthesizer refuses it. *)
Definition precio_predicho_de (self : PredictorAguacate) (fecha : string)
  : resultado num :=
  fecha_obj <- strptime fecha ;;
  hist <- de_opcion (datos_historicos self) TypeError
            "'NoneType' object is not subscriptable" ;;
  _ <- (if en_rango_Timestamp fecha_obj then Retorna tt
        else lanzar AttributeError
               "Can only use .dt accessor with datetimelike values") ;;
  X_pred <- X_pred_de self hist fecha_obj ;;
  sx <- de_opcion (scaler_x self) AttributeError
          "'NoneType' object has no attribute 'transform'" ;;
  X_pred_scaled <- transform sx X_pred ;;
  svm <- de_opcion (modelo_svm self) AttributeError
           "'NoneType' object has no attribute 'predict'" ;;
  pred_scaled <- predict svm X_pred_scaled ;;
  sy <- de_opcion (scaler_y self) AttributeError
          "'NoneType' object has no attribute 'inverse_transform'" ;;
  inv <- inverse_transform sy pred_scaled ;;
  match inv with
  | [] => lanzar IndexError "index 0 is out of bounds"
  | x :: _ => Retorna x
  end.

(** [predecir_precio_fecha(fecha)]; the clock is read once, on
    success. *)
Definition predecir_precio_fecha (self : PredictorAguacate)
    (fecha : string) (reloj : Reloj) : resultado (dict * Reloj) :=
  if negb (modelo_cargado self) then
    Retorna (registro_error "El modelo no está cargado correctamente", reloj)
  else
    intentar
      (precio_predicho <- precio_predicho_de self fecha ;;
       let (ahora, reloj') := datetime_now reloj in
       Retorna
         ([ ("fecha", PStr fecha);
            ("precio", PFloat (round2 precio_predicho));
            ("moneda", PStr "MXN");
            ("unidad", PStr "kg");
            ("fecha_prediccion", PStr ahora);
            ("modelo_usado", PStr "SVM con kernel RBF") ]%string,
          reloj'))
      [ (ValueError,
          fun e => Retorna
            (registro_error ("Formato de fecha inválido: " ++ mensaje e),
             reloj));
        (Exception_,
          fun e => Retorna
            (registro_error ("Error en la predicción: " ++ mensaje e),
             reloj)) ]%string.

(** [predecir_multiples_fechas(fechas)]: the loop, with the list
    [resultados] built so far. *)
Fixpoint bucle_fechas (self : PredictorAguacate) (fechas : list string)
    (resultados : list dict) (reloj : Reloj)
  : resultado (list dict * Reloj) :=
  match fechas with
  | [] => Retorna (resultados, reloj)
  | fecha :: fechas' =>
      rr <- predecir_precio_fecha self fecha reloj ;;
      bucle_fechas self fechas' (resultados ++ [fst rr]) (snd rr)
  end.

Definition predecir_multiples_fechas (self : PredictorAguacate)
    (fechas : list string) (reloj : Reloj)
  : resultado (list dict * Reloj) :=
  bucle_fechas self fechas [] reloj.

(** Lines 217-218: [cambio_porcentual], from the first and the last price
    of the window. *)
Definition cambio_porcentual_de (precio_inicial precio_final : num) : num :=
  mult (div (resta precio_final precio_inicial) precio_inicial) (Fin 100).

(** Lines 212-239: the summary of a window of prices. *)
Definition resumen_tendencia (ultimos_meses : Z) (precios : list num)
  : resultado dict :=
  precio_inicial <- iloc_primero precios ;;
  precio_final <- iloc_ultimo precios ;;
  let cambio_absoluto := resta precio_final precio_inicial in
  let cambio_porcentual := mult (div cambio_absoluto precio_inicial) (Fin 100) in
  let direccion := direccion_tendencia cambio_porcentual in
  Retorna
    [ ("periodo_analizado", PStr (str_int ultimos_meses ++ " meses"));
      ("precio_inicial", PFloat (round2 precio_inicial));
      ("precio_final", PFloat (round2 precio_final));
      ("cambio_absoluto", PFloat (round2 cambio_absoluto));
      ("cambio_porcentual", PFloat (round2 cambio_porcentual));
      ("direccion_tendencia", PStr direccion);
      ("precio_promedio_periodo", PFloat (round2 (media precios)));
      ("precio_maximo_periodo", PFloat (round2 (maximo_num precios)));
      ("precio_minimo_periodo", PFloat (round2 (minimo_num precios)));
      ("volatilidad", PFloat (round2 (std np precios))) ]%string.

(** Lines 204-207: the rows of the last [ultimos_meses] months.  On an
    empty frame the maximum is [NaT], so is the limit, and no row
    compares as later. *)
Definition datos_recientes_de (hist : list fila) (ultimos_meses : Z)
  : resultado (list fila) :=
  match maximo (map Fecha_Pub_DOF hist) with
  | None => Retorna []
  | Some fmax =>
      fecha_limite <- de_opcion (restar_meses fmax ultimos_meses)
                        OutOfBoundsDatetime "Out of bounds nanosecond timestamp" ;;
      Retorna (filter (fun r => Fechas.leb fecha_limite (Fecha_Pub_DOF r)) hist)
  end.

(** [obtener_tendencia_historica(ultimos_meses)] *)
Definition obtener_tendencia_historica (self : PredictorAguacate)
    (ultimos_meses : Z) : resultado dict :=
  match datos_historicos self with
  | None => Retorna (registro_error "No hay datos históricos cargados")
  | Some hist =>
      intentar
        (datos_recientes <- datos_recientes_de hist ultimos_meses ;;
         if (List.length datos_recientes =? 0)%nat then
           Retorna (registro_error "No hay suficientes datos para la tendencia")
         else
           resumen_tendencia ultimos_meses
             (map Precio_promedio datos_recientes))
        [ (Exception_,
            fun e => Retorna
              (registro_error ("Error al calcular tendencia: " ++ mensaje e)%string)) ]
  end.

(** [obtener_info_modelo] *)
Definition getattr (o : option ModeloSVM) (campo : ModeloSVM -> option pyval)
  : pyval :=
  match o with
  | Some m => match campo m with
              | Some v => v
              | None => PStr "No disponible"
              end
  | None => PStr "No disponible"
  end.

Definition obtener_info_modelo (self : PredictorAguacate) : resultado dict :=
  if negb (modelo_cargado self) then
    Retorna (registro_error "Modelo no cargado")
  else
    intentar
      (let cols := match columnas_caracteristicas self with
                   | Some (c :: cs) => c :: cs
                   | _ => []
                   end in
       let info :=
         [ ("tipo_modelo", PStr "Support Vector Regression (SVR)");
           ("kernel", getattr (modelo_svm self) kernel);
           ("parametro_C", getattr (modelo_svm self) param_C);
           ("parametro_gamma", getattr (modelo_svm self) gamma);
           ("parametro_epsilon", getattr (modelo_svm self) epsilon);
           ("num_caracteristicas", PInt (Z.of_nat (List.length cols)));
           ("caracteristicas_usadas", PLista cols);
           ("escalador_usado", PStr "MinMaxScaler");
           ("datos_historicos_disponibles",
             PInt (match datos_historicos self with
                   | Some h => Z.of_nat (List.length h)
                   | None => 0
                   end)) ]%string in
       match datos_historicos self with
       | None => Retorna info
       | Some h =>
           let fechas := map Fecha_Pub_DOF h in
           inicio <- de_opcion (minimo fechas) ValueError
                       "NaTType does not support strftime" ;;
           fin <- de_opcion (maximo fechas) ValueError
                    "NaTType does not support strftime" ;;
           Retorna (info ++ [ ("fecha_inicio_datos", PStr (strftime inicio));
                              ("fecha_fin_datos", PStr (strftime fin)) ]%string)
       end)
      [ (Exception_,
          fun e => Retorna
            (registro_error
               ("Error al obtener información del modelo: " ++ mensaje e)%string)) ].

End ConNumpy.

End Predictor.
Export Predictor.

(** ** [src/app/main.py]: the streak scan of [analizar_volatilidad] *)

Module Main.

Inductive tipo : Type := alcista | bajista.

Definition tipo_eqb (a b : tipo) : bool :=
  match a, b with
  | alcista, alcista | bajista, bajista => true
  | _, _ => false
  end.

(** The four variables of the loop. *)
Record estado_rachas : Type := mk_estado {
  rachas_alcistas : nat;
  rachas_bajistas : nat;
  racha_actual : nat;
  tipo_racha : option tipo
}.

Definition estado_inicial : estado_rachas := mk_estado 0 0 0 None.

Definition es_tipo (t : tipo) (o : option tipo) : bool :=
  match o with
  | Some t' => tipo_eqb t t'
  | None => false
  end.

(** One turn of [for cambio in cambios.dropna()]. *)
Definition paso (e : estado_rachas) (cambio : num) : estado_rachas :=
  if gtb cambio (Fin 0) then
    if negb (es_tipo alcista (tipo_racha e)) then
      mk_estado (S (rachas_alcistas e)) (rachas_bajistas e) 1 (Some alcista)
    else
      mk_estado (rachas_alcistas e) (rachas_bajistas e)
                (S (racha_actual e)) (tipo_racha e)
  else if Num.ltb cambio (Fin 0) then
    if negb (es_tipo bajista (tipo_racha e)) then
      mk_estado (rachas_alcistas e) (S (rachas_bajistas e)) 1 (Some bajista)
    else
      mk_estado (rachas_alcistas e) (rachas_bajistas e)
                (S (racha_actual e)) (tipo_racha e)
  else e.

(** The scan over a column of differences. *)
Definition contar_rachas (cambios : list num) : nat * nat :=
  let e := fold_left paso (dropna cambios) estado_inicial in
  (rachas_alcistas e, rachas_bajistas e).

(** [precios.diff()] *)
Definition diferencias (precios : list num) : list num :=
  map (diff 1 precios) (seq 0 (List.length precios)).

(** The streak counts [analizar_volatilidad] reports for a price column. *)
Definition rachas_de_precios (precios : list num) : nat * nat :=
  contar_rachas (diferencias precios).

(** Lines 868-876 of [analizar_volatilidad]: the coefficient of variation of
    the price column, in percent, and the level the report gives it. *)
Definition coeficiente_variacion (np : Numpy) (precios : list num) : num :=
  mult (div (std np precios) (media precios)) (Fin 100).

Definition nivel_volatilidad (cv : num) : string :=
  if Num.ltb cv (Fin 15) then "Baja... Mercado relativamente estable"
  else if Num.ltb cv (Fin 30) then
    "Moderada... Volatilidad típica de commodities"
  else if Num.ltb cv (Fin 50) then
    "Alta... Mercado con fluctuaciones significativas"
  else "Muy alta.. Mercado extremadamente volátil".

End Main.
Export Main.

(** ** Streaks as the specification words them

    A streak is a maximal run of consecutive differences of one sign, once
    the differences that are zero (or missing) are left out. *)

Module Rachas.

Inductive signo : Type := Positivo | Negativo.

Definition signo_eqb (a b : signo) : bool :=
  match a, b with
  | Positivo, Positivo | Negativo, Negativo => true
  | _, _ => false
  end.

Definition signo_de (c : num) : option signo :=
  if gtb c (Fin 0) then Some Positivo
  else if Num.ltb c (Fin 0) then Some Negativo
  else None.

(** The signs of the differences that have one. *)
Fixpoint signos (cambios : list num) : list signo :=
  match cambios with
  | [] => []
  | c :: cs =>
      match signo_de c with
      | Some s => s :: signos cs
      | None => signos cs
      end
  end.

(** Maximal runs, each with its sign and its length. *)
Fixpoint tramos (l : list signo) : list (signo * nat) :=
  match l with
  | [] => []
  | s :: l' =>
      match tramos l' with
      | (s', n) :: t =>
          if signo_eqb s s' then (s, S n) :: t else (s, 1%nat) :: (s', n) :: t
      | [] => [(s, 1%nat)]
      end
  end.

Definition numero_de_rachas (s : signo) (cambios : list num) : nat :=
  List.length (filter (fun t => signo_eqb s (fst t)) (tramos (signos cambios))).

(** The price differences of a series: each price less the one before it,
    from the second price on. *)
Fixpoint diferencias_consecutivas (precios : list num) : list num :=
  match precios with
  | anterior :: ((actual :: _) as resto) =>
      resta actual anterior :: diferencias_consecutivas resto
  | _ => []
  end.

End Rachas.
Export Rachas.

(** ** A rational numpy, to run the model on data

    Sine and cosine by their Taylor polynomials of degree 41 and 40,
    evaluated in fixed point with eighteen decimals; the square root cut
    after twelve decimals. *)

Module NumpyRacional.

Definition escala : Z := 10 ^ 18.

Definition a_fijo (q : Q) : Z := Qfloor (q * inject_Z escala).

Definition de_fijo (z : Z) : num := Fin (Qred (Qmake z (Z.to_pos escala))).

Fixpoint serie (x2 termino : Z) (k : Z) (n : nat) : Z :=
  match n with
  | O => 0
  | S n' =>
      termino
      + serie x2 (- (termino * x2 / escala) / ((k + 1) * (k + 2))) (k + 2) n'
  end.

Definition seno (x : num) : num :=
  match x with
  | Fin q => let z := a_fijo q in de_fijo (serie (z * z / escala) z 1 21)
  | _ => NaN
  end.

Definition coseno (x : num) : num :=
  match x with
  | Fin q => let z := a_fijo q in de_fijo (serie (z * z / escala) escala 0 21)
  | _ => NaN
  end.

Definition raiz (x : num) : num :=
  match x with
  | Fin q =>
      if Qltb q 0 then NaN
      else Fin (Qred (Z.sqrt (Qfloor (q * inject_Z (10 ^ 24))) # 10 ^ 12))
  | Inf false => Inf false
  | _ => NaN
  end.

Definition numpy_racional : Numpy := mk_numpy seno coseno raiz.

End NumpyRacional.
Export NumpyRacional.

(** ** Concrete data used by the examples *)

Definition serie_ejemplo : list fila :=
  [ mk_fila (mk_fecha 2024 1 1) (Fin 50);
    mk_fila (mk_fecha 2024 2 1) (Fin 55);
    mk_fila (mk_fecha 2024 3 1) (Fin 60);
    mk_fila (mk_fecha 2024 4 1) (Fin 58);
    mk_fila (mk_fecha 2024 5 1) (Fin 62);
    mk_fila (mk_fecha 2024 6 1) (Fin 65) ].

(** A predictor that holds only the historical series. *)
Definition solo_datos (hist : list fila) : PredictorAguacate :=
  mk_predictor None None None None (Some hist) false.

(** ** Definitions used to state the properties *)

(** Streaks: the type the scan tracks for a sign, the counter it feeds,
    and the number of maximal runs of a sign. *)

Definition tipo_de (s : signo) : tipo :=
  match s with Positivo => alcista | Negativo => bajista end.

Definition racha_de (s : signo) (e : estado_rachas) : nat :=
  match s with
  | Positivo => rachas_alcistas e
  | Negativo => rachas_bajistas e
  end.

Definition cuenta (s : signo) (l : list signo) : nat :=
  List.length (filter (fun t => signo_eqb s (fst t)) (tramos l)).

(** 1 when the first sign of [l] prolongs a streak of type [t] that is
    already counted. *)
Definition continua (s : signo) (t : option tipo) (l : list signo) : nat :=
  match l with
  | x :: _ => if signo_eqb s x && es_tipo (tipo_de s) t then 1 else 0
  | [] => 0
  end.

(** Records. *)

Definition claves (d : dict) : list string := map fst d.

Definition claves_prediccion : list string :=
  [ "fecha"; "precio"; "moneda"; "unidad"; "fecha_prediccion";
    "modelo_usado" ]%string.

Definition claves_tendencia : list string :=
  [ "periodo_analizado"; "precio_inicial"; "precio_final"; "cambio_absoluto";
    "cambio_porcentual"; "direccion_tendencia"; "precio_promedio_periodo";
    "precio_maximo_periodo"; "precio_minimo_periodo"; "volatilidad" ]%string.

(** A record of a prediction: the error record or the six-key result. *)
Definition registro_de_prediccion (d : dict) : Prop :=
  es_registro_error d = true \/
  (claves d = claves_prediccion /\ tiene_clave d "error" = false).

(** Every row of [l] is dated no later than [u]. *)
Definition cota_superior (u : fila) (l : list fila) : Prop :=
  forall x, In x l -> Fechas.leb (Fecha_Pub_DOF x) (Fecha_Pub_DOF u) = true.

(** Rows in ascending order of date. *)
Definition antes_o_igual (a b : fila) : Prop :=
  Fechas.leb (Fecha_Pub_DOF a) (Fecha_Pub_DOF b) = true.

Definition ordenada_por_fecha (l : list fila) : Prop :=
  StronglySorted antes_o_igual l.

(** An example predictor. *)

Definition celda_a_num (c : celda) : resultado num :=
  match c with
  | CNum x => Retorna x
  | CEntero z => Retorna (de_Z z)
  | CFecha _ => lanzar TypeError "float() argument must be a real number"
  end.

Fixpoint transformar (cs : list celda) : resultado (list num) :=
  match cs with
  | [] => Retorna []
  | c :: cs' =>
      x <- celda_a_num c ;;
      xs <- transformar cs' ;;
      Retorna (x :: xs)
  end.

(** A scaler that leaves the numbers as they are, and a model that adds up
    its inputs. *)
Definition escalador_ejemplo : Escalador :=
  mk_escalador transformar (fun v => Retorna v).

Definition svm_ejemplo : ModeloSVM :=
  mk_svm (fun xs => Retorna [sumar xs]) (Some (PStr "rbf")) None None None.

Definition columnas_ejemplo : list string :=
  [ "month"; "day_of_year"; "precio_lag1"; "precio_ma3"; "precio_ma6" ]%string.

Definition directorio_ejemplo : DirectorioModelos :=
  mk_directorio (Contiene (Some svm_ejemplo))
                (Contiene (Some escalador_ejemplo))
                (Contiene (Some escalador_ejemplo))
                (Contiene (Some columnas_ejemplo)).

Definition predictor_ejemplo : PredictorAguacate :=
  __init__ directorio_ejemplo "data/aguacate.csv" (Contiene serie_ejemplo).

Definition reloj_ejemplo : Reloj :=
  mk_reloj (fun _ => "2024-06-15 12:00"%string) 0.

(** A predictor whose input scaler refuses its input, as a fitted scaler
    does when the number of features is not the one it was fitted on. *)
Definition escalador_que_rechaza : Escalador :=
  mk_escalador
    (fun _ => lanzar ValueError
       "X has 5 features, but MinMaxScaler is expecting 17 features as input")
    (fun v => Retorna v).

Definition predictor_rechaza : PredictorAguacate :=
  mk_predictor (Some svm_ejemplo) (Some escalador_que_rechaza)
    (Some escalador_ejemplo) (Some columnas_ejemplo) (Some serie_ejemplo) true.

(** The number of records of a batch that are not error records. *)
Definition exitos (ds : list dict) : nat :=
  List.length (filter (fun d => negb (es_registro_error d)) ds).

(** The fourth row of the feature frame of the example series, and of the
    series cut after its fourth row. *)
Definition fila_ejemplo_completa : FilaCaracteristicas :=
  caracteristicas_de_fila numpy_racional
    (minimo (map Fecha_Pub_DOF serie_ejemplo))
    (map Precio_promedio serie_ejemplo) 3
    (mk_fila (mk_fecha 2024 4 1) (Fin 58)).

Definition fila_ejemplo_prefijo : FilaCaracteristicas :=
  caracteristicas_de_fila numpy_racional
    (minimo (map Fecha_Pub_DOF (firstn 4 serie_ejemplo)))
    (map Precio_promedio (firstn 4 serie_ejemplo)) 3
    (mk_fila (mk_fecha 2024 4 1) (Fin 58)).

(** The example series with the price of its second row missing, and the
    fourth row of its feature frame. *)
Definition serie_con_hueco : list fila :=
  [ mk_fila (mk_fecha 2024 1 1) (Fin 50);
    mk_fila (mk_fecha 2024 2 1) NaN;
    mk_fila (mk_fecha 2024 3 1) (Fin 60);
    mk_fila (mk_fecha 2024 4 1) (Fin 58);
    mk_fila (mk_fecha 2024 5 1) (Fin 62);
    mk_fila (mk_fecha 2024 6 1) (Fin 65) ].

Definition fila_con_hueco : FilaCaracteristicas :=
  caracteristicas_de_fila numpy_racional
    (minimo (map Fecha_Pub_DOF serie_con_hueco))
    (map Precio_promedio serie_con_hueco) 3
    (mk_fila (mk_fecha 2024 4 1) (Fin 58)).

(** The counters of a scan in which streaks of the two kinds alternate. *)
Definition alternan (e : estado_rachas) : Prop :=
  match tipo_racha e with
  | None => rachas_alcistas e = 0%nat /\ rachas_bajistas e = 0%nat
  | Some alcista =>
      rachas_alcistas e = rachas_bajistas e \/
      rachas_alcistas e = S (rachas_bajistas e)
  | Some bajista =>
      rachas_bajistas e = rachas_alcistas e \/
      rachas_bajistas e = S (rachas_alcistas e)
  end.

(** A date of the calendar, in any year. *)
Definition fecha_civil (f : fecha) : Prop :=
  1 <= mes f <= 12 /\ 1 <= dia f <= dias_en_mes (anio f) (mes f).

(** A file that deserializes, and what a file gave to the attribute it was
    loaded into: [None] both when it could not be loaded and when [None] is
    what it stored. *)
Definition legible {A : Type} (a : archivo A) : bool :=
  match a with Contiene _ => true | _ => false end.

Definition contenido {A : Type} (a : archivo (option A)) : option A :=
  match a with Contiene v => v | _ => None end.

Definition todos_existen (d : DirectorioModelos) : bool :=
  existe (best_svm_mejorado_pkl d) && existe (scaler_X_pkl d)
  && existe (scaler_y_pkl d) && existe (feature_columns_pkl d).


(** A series whose latest row has no price, an earlier price being
    known. *)
Definition serie_sin_ultimo_precio : list fila :=
  [ mk_fila (mk_fecha 2024 1 1) (Fin 50);
    mk_fila (mk_fecha 2024 2 1) NaN ].

(** * Properties *)

(** ** Dates *)

Section LemasFechas.

Lemma maximo_desde_In (l : list fecha) :
  forall m, maximo_desde m l = m \/ In (maximo_desde m l) l.
Proof.
  induction l as [|f l IH]; intros m; simpl.
  - now left.
  - destruct (IH (if Fechas.leb m f then f else m)) as [H|H].
    + rewrite H. destruct (Fechas.leb m f); auto.
    + auto.
Qed.

Lemma maximo_In (l : list fecha) (f : fecha) :
  maximo l = Some f -> In f l.
Proof.
  destruct l as [|x l]; simpl; [discriminate|].
  intros [= <-]. destruct (maximo_desde_In l x) as [->|H]; auto.
Qed.

Lemma leb_refl (f : fecha) : Fechas.leb f f = true.
Proof.
  unfold Fechas.leb, comparar. now rewrite !Z.compare_refl.
Qed.

Lemma restar_meses_anterior (f r : fecha) (m : Z) :
  fecha_valida f = true -> 0 <= m ->
  restar_meses f m = Some r -> Fechas.leb r f = true.
Proof.
  unfold fecha_valida, restar_meses, indice_mes.
  intros V Hm.
  repeat (apply andb_prop in V; destruct V as [V ?]).
  set (idx := anio f * 12 + (mes f - 1) - m).
  destruct (en_rango_Timestamp _); [|discriminate].
  intros [= <-].
  assert (Hdiv := Z.div_mod idx 12 ltac:(lia)).
  assert (Hmod := Z.mod_pos_bound idx 12 ltac:(lia)).
  unfold Fechas.leb, comparar; simpl.
  destruct (Z.compare_spec (idx / 12) (anio f)) as [E|L|G]; try reflexivity.
  - destruct (Z.compare_spec (idx mod 12 + 1) (mes f)) as [E'|L'|G'];
      try reflexivity.
    + destruct (Z.compare_spec
                  (Z.min (dia f) (dias_en_mes (idx / 12) (idx mod 12 + 1)))
                  (dia f)); try reflexivity; lia.
    + subst idx; lia.
  - subst idx; lia.
Qed.

End LemasFechas.

(** ** The trend summary *)

Section Tendencia.

Variable np : Numpy.

Lemma ultimo_no_vacio {A : Type} (l : list A) :
  l <> [] -> exists x, ultimo l = Some x.
Proof.
  induction l as [|a l IH]; [congruence|]. intros _.
  destruct l as [|b l]; [now exists a|].
  destruct IH as [x Hx]; [discriminate|]. exists x. exact Hx.
Qed.

(** On a window with at least one row the summary is a success record. *)
Lemma resumen_tendencia_exito (m : Z) (precios : list num) :
  precios <> [] ->
  exists inicial final,
    iloc_primero precios = Retorna inicial /\
    iloc_ultimo precios = Retorna final /\
    resumen_tendencia np m precios =
      Retorna
        [ ("periodo_analizado", PStr (str_int m ++ " meses"));
          ("precio_inicial", PFloat (round2 inicial));
          ("precio_final", PFloat (round2 final));
          ("cambio_absoluto", PFloat (round2 (resta final inicial)));
          ("cambio_porcentual",
            PFloat (round2 (cambio_porcentual_de inicial final)));
          ("direccion_tendencia",
            PStr (direccion_tendencia (cambio_porcentual_de inicial final)));
          ("precio_promedio_periodo", PFloat (round2 (media precios)));
          ("precio_maximo_periodo", PFloat (round2 (maximo_num precios)));
          ("precio_minimo_periodo", PFloat (round2 (minimo_num precios)));
          ("volatilidad", PFloat (round2 (std np precios))) ]%string.
Proof.
  intros Hne.
  destruct (ultimo_no_vacio precios Hne) as [final Hf].
  destruct precios as [|inicial resto]; [congruence|].
  exists inicial, final. unfold resumen_tendencia, iloc_ultimo.
  rewrite Hf. simpl. auto.
Qed.

(** What the method returns once the window is known. *)
Lemma tendencia_con_ventana (self : PredictorAguacate) (hist v : list fila)
    (m : Z) :
  datos_historicos self = Some hist ->
  datos_recientes_de hist m = Retorna v ->
  v <> [] ->
  obtener_tendencia_historica np self m =
    resumen_tendencia np m (map Precio_promedio v).
Proof.
  intros Hh Hv Hne. unfold obtener_tendencia_historica.
  rewrite Hh, Hv. simpl.
  destruct v as [|r v]; [congruence|]. simpl Nat.eqb. cbv iota.
  destruct (resumen_tendencia_exito m (map Precio_promedio (r :: v)))
    as (i & f & _ & _ & E); [discriminate|].
  rewrite E. reflexivity.
Qed.

Lemma direccion_tendencia_casos (pct : num) :
  (direccion_tendencia pct = "Alcista"%string <-> gtb pct (Fin 5) = true) /\
  (direccion_tendencia pct = "Bajista"%string
     <-> Num.ltb pct (Fin (-5)) = true) /\
  (direccion_tendencia pct = "Estable"%string <->
     gtb pct (Fin 5) = false /\ Num.ltb pct (Fin (-5)) = false).
Proof.
  unfold direccion_tendencia.
  assert (X : gtb pct (Fin 5) = true -> Num.ltb pct (Fin (-5)) = true -> False).
  { unfold gtb, Num.ltb. destruct pct as [|s|q]; try discriminate.
    - destruct s; discriminate.
    - unfold Qltb. rewrite !negb_true_iff.
      intros H1 H2.
      apply not_true_iff_false in H1, H2.
      rewrite Qle_bool_iff in H1, H2. lra. }
  destruct (gtb pct (Fin 5)) eqn:G, (Num.ltb pct (Fin (-5))) eqn:L; simpl;
    repeat split; intros; try discriminate; try reflexivity; auto;
    try (exfalso; now apply X); intuition discriminate.
Qed.

Lemma umbral_estricto (q : Q) :
  (q == 5 \/ q == -5)%Q -> direccion_tendencia (Fin q) = "Estable"%string.
Proof.
  intros H. unfold direccion_tendencia, gtb, Num.ltb, Qltb.
  assert (A : Qle_bool q 5 = true) by (apply Qle_bool_iff; lra).
  assert (B : Qle_bool (-5) q = true) by (apply Qle_bool_iff; lra).
  now rewrite A, B.
Qed.

End Tendencia.

(** C1 (amended): on the six-row series of the specification,
    [obtener_tendencia_historica(3)] keeps the rows dated 2024-03-01 or
    later (the limit 2024-06-01 minus three calendar months is 2024-03-01,
    and the comparison is inclusive), so it reports a first price of 60, a
    last price of 65, an absolute change of 5, a percentage change of 8.33
    and the direction 'Alcista'. *)
Theorem tendencia_ejemplo_tres_meses :
  forall (np : Numpy) (svm : option ModeloSVM) (sx sy : option Escalador)
         (cols : option (list string)) (cargado : bool),
  exists d,
    obtener_tendencia_historica np
      (mk_predictor svm sx sy cols (Some serie_ejemplo) cargado) 3 = Retorna d /\
    datos_recientes_de serie_ejemplo 3 = Retorna (skipn 2 serie_ejemplo) /\
    obtener d "precio_inicial" = Some (PFloat (Fin 60)) /\
    obtener d "precio_final" = Some (PFloat (Fin 65)) /\
    obtener d "cambio_absoluto" = Some (PFloat (Fin 5)) /\
    obtener d "cambio_porcentual" = Some (PFloat (Fin (833 # 100))) /\
    obtener d "direccion_tendencia" = Some (PStr "Alcista").
Proof.
  intros. eexists. split.
  - erewrite tendencia_con_ventana with (v := skipn 2 serie_ejemplo);
      [ | reflexivity | reflexivity | discriminate ].
    destruct (resumen_tendencia_exito np 3
                (map Precio_promedio (skipn 2 serie_ejemplo)))
      as (i & f & Hi & Hf & E); [discriminate|].
    injection Hi as <-. injection Hf as <-. exact E.
  - repeat split; reflexivity.
Qed.

(** C1, as stated, fails: the first price of the window is 60, not 58, the
    absolute change 5, not 7, and the percentage change 8.33, not 12.07. *)
Lemma tendencia_ejemplo_no_empieza_en_58 :
  exists d,
    obtener_tendencia_historica numpy_racional (solo_datos serie_ejemplo) 3
      = Retorna d /\
    restar_meses (mk_fecha 2024 6 1) 3 = Some (mk_fecha 2024 3 1) /\
    obtener d "precio_inicial" = Some (PFloat (Fin 60)) /\
    obtener d "cambio_absoluto" = Some (PFloat (Fin 5)) /\
    obtener d "cambio_porcentual" = Some (PFloat (Fin (833 # 100))) /\
    obtener d "precio_inicial" <> Some (PFloat (Fin 58)) /\
    obtener d "cambio_absoluto" <> Some (PFloat (Fin 7)) /\
    obtener d "cambio_porcentual" <> Some (PFloat (Fin (1207 # 100))).
Proof.
  eexists. split; [vm_compute; reflexivity|].
  repeat split; try reflexivity; discriminate.
Qed.

(** C5: whenever the filtered window has a row, the direction in the
    returned record is 'Alcista' exactly when the percentage change the
    method computes is above 5, 'Bajista' exactly when it is below -5, and
    'Estable' otherwise; a change of exactly 5 or -5 gives 'Estable'. *)
Theorem direccion_por_umbral_estricto :
  forall (np : Numpy) (self : PredictorAguacate) (hist ventana : list fila)
         (ultimos_meses : Z),
    datos_historicos self = Some hist ->
    datos_recientes_de hist ultimos_meses = Retorna ventana ->
    ventana <> [] ->
    exists d inicial final dir,
      obtener_tendencia_historica np self ultimos_meses = Retorna d /\
      iloc_primero (map Precio_promedio ventana) = Retorna inicial /\
      iloc_ultimo (map Precio_promedio ventana) = Retorna final /\
      obtener d "direccion_tendencia" = Some (PStr dir) /\
      let pct := cambio_porcentual_de inicial final in
      (dir = "Alcista"%string <-> gtb pct (Fin 5) = true) /\
      (dir = "Bajista"%string <-> Num.ltb pct (Fin (-5)) = true) /\
      (dir = "Estable"%string <->
         gtb pct (Fin 5) = false /\ Num.ltb pct (Fin (-5)) = false) /\
      (forall q, pct = Fin q -> (q == 5 \/ q == -5)%Q -> dir = "Estable"%string).
Proof.
  intros np self hist v m Hh Hv Hne.
  destruct (resumen_tendencia_exito np m (map Precio_promedio v))
    as (i & f & Hi & Hf & E).
  { destruct v; [congruence|discriminate]. }
  eexists. exists i, f, (direccion_tendencia (cambio_porcentual_de i f)).
  split; [rewrite (tendencia_con_ventana np self hist v m Hh Hv Hne); exact E|].
  split; [exact Hi|]. split; [exact Hf|]. split; [reflexivity|].
  cbv zeta.
  destruct (direccion_tendencia_casos (cambio_porcentual_de i f)) as (A & B & C).
  split; [exact A|]. split; [exact B|]. split; [exact C|].
  intros q -> Hq. now apply umbral_estricto.
Qed.

(** C5 on the example series and a window of three months. *)
Lemma direccion_por_umbral_estricto_testigo :
  exists d inicial final dir,
    obtener_tendencia_historica numpy_racional (solo_datos serie_ejemplo) 3
      = Retorna d /\
    iloc_primero (map Precio_promedio (skipn 2 serie_ejemplo)) = Retorna inicial /\
    iloc_ultimo (map Precio_promedio (skipn 2 serie_ejemplo)) = Retorna final /\
    obtener d "direccion_tendencia" = Some (PStr dir) /\
    let pct := cambio_porcentual_de inicial final in
    (dir = "Alcista"%string <-> gtb pct (Fin 5) = true) /\
    (dir = "Bajista"%string <-> Num.ltb pct (Fin (-5)) = true) /\
    (dir = "Estable"%string <->
       gtb pct (Fin 5) = false /\ Num.ltb pct (Fin (-5)) = false) /\
    (forall q, pct = Fin q -> (q == 5 \/ q == -5)%Q -> dir = "Estable"%string).
Proof.
  apply (direccion_por_umbral_estricto numpy_racional (solo_datos serie_ejemplo)
           serie_ejemplo (skipn 2 serie_ejemplo) 3);
    [reflexivity | reflexivity | discriminate].
Defined.

(** C10 (amended): when the historical series has at least one row, its
    dates are calendar dates, the month count is not negative and the limit
    date is representable, the row with the latest date passes the filter,
    so [obtener_tendencia_historica] does not return the insufficient-data
    record. *)
Theorem tendencia_con_meses_no_negativos :
  forall (np : Numpy) (self : PredictorAguacate) (hist : list fila)
         (ultimos_meses : Z) (fmax limite : fecha),
    datos_historicos self = Some hist ->
    hist <> [] ->
    Forall (fun r => fecha_valida (Fecha_Pub_DOF r) = true) hist ->
    0 <= ultimos_meses ->
    maximo (map Fecha_Pub_DOF hist) = Some fmax ->
    restar_meses fmax ultimos_meses = Some limite ->
    exists ventana r,
      datos_recientes_de hist ultimos_meses = Retorna ventana /\
      In r ventana /\ Fecha_Pub_DOF r = fmax /\
      obtener_tendencia_historica np self ultimos_meses
        <> Retorna (registro_error "No hay suficientes datos para la tendencia").
Proof.
  intros np self hist m fmax limite Hh _ Hval Hm Hmax Hlim.
  destruct (proj1 (in_map_iff _ _ _) (maximo_In _ _ Hmax)) as (r & Hr & Hin).
  assert (Hle : Fechas.leb limite (Fecha_Pub_DOF r) = true).
  { rewrite Hr. apply restar_meses_anterior with (m := m); auto.
    rewrite Forall_forall in Hval. rewrite <- Hr. now apply Hval. }
  assert (Hv : datos_recientes_de hist m =
               Retorna (filter (fun x => Fechas.leb limite (Fecha_Pub_DOF x)) hist)).
  { unfold datos_recientes_de. rewrite Hmax, Hlim. reflexivity. }
  assert (Hf : In r (filter (fun x => Fechas.leb limite (Fecha_Pub_DOF x)) hist)).
  { apply filter_In. now split. }
  eexists. exists r. split; [exact Hv|]. split; [exact Hf|]. split; [exact Hr|].
  rewrite (tendencia_con_ventana np self hist _ m Hh Hv).
  - destruct (resumen_tendencia_exito np m
                (map Precio_promedio
                     (filter (fun x => Fechas.leb limite (Fecha_Pub_DOF x)) hist)))
      as (i & f & _ & _ & E).
    + intros E. apply map_eq_nil in E. rewrite E in Hf. destruct Hf.
    + rewrite E. discriminate.
  - intros E. rewrite E in Hf. destruct Hf.
Qed.

(** C10 (amended) on the example series and a window of three months. *)
Lemma tendencia_con_meses_no_negativos_testigo :
  exists ventana r,
    datos_recientes_de serie_ejemplo 3 = Retorna ventana /\
    In r ventana /\ Fecha_Pub_DOF r = mk_fecha 2024 6 1 /\
    obtener_tendencia_historica numpy_racional (solo_datos serie_ejemplo) 3
      <> Retorna (registro_error "No hay suficientes datos para la tendencia").
Proof.
  apply (tendencia_con_meses_no_negativos numpy_racional
           (solo_datos serie_ejemplo) serie_ejemplo 3
           (mk_fecha 2024 6 1) (mk_fecha 2024 3 1)).
  - reflexivity.
  - discriminate.
  - repeat constructor.
  - lia.
  - reflexivity.
  - reflexivity.
Defined.

(** C10, as stated, fails for a negative month count: the limit then lies
    after the latest date, no row passes the filter, and the method returns
    the insufficient-data record. *)
Lemma tendencia_meses_negativos_sin_datos :
  fecha_valida (mk_fecha 2024 6 1) = true /\
  restar_meses (mk_fecha 2024 6 1) (-1) = Some (mk_fecha 2024 7 1) /\
  datos_recientes_de [mk_fila (mk_fecha 2024 6 1) (Fin 65)] (-1) = Retorna [] /\
  obtener_tendencia_historica numpy_racional
    (solo_datos [mk_fila (mk_fecha 2024 6 1) (Fin 65)]) (-1)
    = Retorna (registro_error "No hay suficientes datos para la tendencia").
Proof.
  repeat split.
Qed.

(** ** Streaks *)

Section LemasRachas.

Lemma signos_dropna (cs : list num) : signos (dropna cs) = signos cs.
Proof.
  induction cs as [|c cs IH]; [reflexivity|].
  unfold dropna in *. simpl.
  destruct c as [|s|q]; simpl; rewrite ?IH; reflexivity.
Qed.

Lemma tramos_cabeza (x : signo) (l : list signo) :
  exists n t, tramos (x :: l) = (x, n) :: t.
Proof.
  simpl. destruct (tramos l) as [|[s' n] t]; [now eexists; eexists|].
  destruct (signo_eqb x s'); eexists; eexists; reflexivity.
Qed.

Lemma cuenta_cons (s x : signo) (l : list signo) :
  cuenta s (x :: l) =
    ((if signo_eqb s x
      then match l with
           | y :: _ => if signo_eqb x y then 0 else 1
           | [] => 1
           end
      else 0) + cuenta s l)%nat.
Proof.
  unfold cuenta. destruct l as [|y l].
  - simpl. destruct (signo_eqb s x); reflexivity.
  - destruct (tramos_cabeza y l) as (n & t & E).
    change (tramos (x :: y :: l)) with
      (match tramos (y :: l) with
       | (s', n) :: t =>
           if signo_eqb x s' then (x, S n) :: t else (x, 1%nat) :: (s', n) :: t
       | [] => [(x, 1%nat)]
       end).
    rewrite E.
    destruct s, x, y; simpl; reflexivity.
Qed.

Lemma paso_sin_signo (e : estado_rachas) (c : num) :
  signo_de c = None -> paso e c = e.
Proof.
  unfold signo_de, paso.
  destruct (gtb c (Fin 0)); [discriminate|].
  destruct (Num.ltb c (Fin 0)); [discriminate|]. reflexivity.
Qed.

Lemma paso_con_signo (e : estado_rachas) (c : num) (x : signo) :
  signo_de c = Some x ->
  tipo_racha (paso e c) = Some (tipo_de x) /\
  forall s,
    racha_de s (paso e c) =
      (racha_de s e
       + (if signo_eqb s x && negb (es_tipo (tipo_de x) (tipo_racha e))
          then 1 else 0))%nat.
Proof.
  unfold signo_de, paso.
  destruct (gtb c (Fin 0)).
  - intros [= <-].
    destruct (tipo_racha e) as [[|]|] eqn:T; simpl; rewrite ?T;
      (split; [reflexivity|]); intros [|]; simpl; lia.
  - destruct (Num.ltb c (Fin 0)); [|discriminate].
    intros [= <-].
    destruct (tipo_racha e) as [[|]|] eqn:T; simpl; rewrite ?T;
      (split; [reflexivity|]); intros [|]; simpl; lia.
Qed.

(** The loop invariant: what the scan adds to a counter is the number of
    maximal runs of that sign, less the first run when it prolongs the
    streak the scan is already in. *)
Lemma bucle_rachas (s : signo) (cs : list num) :
  forall e,
    (racha_de s (fold_left paso cs e) + continua s (tipo_racha e) (signos cs)
     = racha_de s e + cuenta s (signos cs))%nat.
Proof.
  induction cs as [|c cs IH]; intros e.
  - simpl. unfold cuenta. simpl. lia.
  - simpl fold_left. simpl signos.
    destruct (signo_de c) as [x|] eqn:S.
    + destruct (paso_con_signo e c x S) as [T R].
      specialize (IH (paso e c)). rewrite T, (R s) in IH.
      rewrite cuenta_cons. unfold continua at 1.
      unfold continua in IH.
      destruct (signos cs) as [|y l].
      * destruct s, x, (tipo_racha e) as [[|]|]; simpl in *; lia.
      * destruct s, x, y, (tipo_racha e) as [[|]|]; simpl in *; lia.
    + rewrite (paso_sin_signo e c S). apply IH.
Qed.

Lemma contar_rachas_tramos (cambios : list num) :
  contar_rachas cambios =
    (numero_de_rachas Positivo cambios, numero_de_rachas Negativo cambios).
Proof.
  unfold contar_rachas, numero_de_rachas.
  pose proof (bucle_rachas Positivo (dropna cambios) estado_inicial) as P.
  pose proof (bucle_rachas Negativo (dropna cambios) estado_inicial) as N.
  rewrite signos_dropna in P, N. unfold cuenta in P, N.
  assert (C : forall s l, continua s None l = 0%nat).
  { intros s [|x l]; simpl; [reflexivity|]. now rewrite andb_false_r. }
  rewrite C in P, N. cbn [racha_de rachas_alcistas rachas_bajistas estado_inicial] in P, N.
  rewrite Nat.add_0_r in P, N. cbn [Nat.add] in P, N.
  now rewrite P, N.
Qed.

(** [precios.diff()] is a missing value followed by the price differences
    of the series. *)
Lemma diferencias_consecutivas_nth (precios : list num) :
  diferencias_consecutivas precios =
    map (fun i => resta (nth (S i) precios NaN) (nth i precios NaN))
        (seq 0 (List.length precios - 1)).
Proof.
  induction precios as [|x [|y r] IH]; try reflexivity.
  change (diferencias_consecutivas (x :: y :: r))
    with (resta y x :: diferencias_consecutivas (y :: r)).
  rewrite IH.
  change (List.length (x :: y :: r) - 1)%nat with (S (List.length r)).
  change (List.length (y :: r) - 1)%nat with (List.length r - 0)%nat.
  rewrite Nat.sub_0_r. cbn [seq map nth]. f_equal.
  rewrite <- seq_shift, map_map. reflexivity.
Qed.

Lemma diferencias_de_precios (x : num) (precios : list num) :
  diferencias (x :: precios) =
    NaN :: diferencias_consecutivas (x :: precios).
Proof.
  rewrite diferencias_consecutivas_nth. unfold diferencias.
  replace (List.length (x :: precios) - 1)%nat with (List.length precios)
    by (cbn [List.length]; lia).
  cbn [List.length seq map]. f_equal.
  - unfold diff, shift. cbn. destruct x; reflexivity.
  - rewrite <- seq_shift, !map_map.
    apply map_ext. intros i. unfold diff, shift.
    change (S i <? 1)%nat with false. cbv iota.
    replace (S i - 1)%nat with i by lia. reflexivity.
Qed.

Lemma rachas_de_precios_tramos (precios : list num) :
  rachas_de_precios precios =
    (numero_de_rachas Positivo (diferencias_consecutivas precios),
     numero_de_rachas Negativo (diferencias_consecutivas precios)).
Proof.
  unfold rachas_de_precios. rewrite contar_rachas_tramos.
  destruct precios as [|x precios]; [reflexivity|].
  rewrite diferencias_de_precios. reflexivity.
Qed.

End LemasRachas.

(** C3: the two streak counts of the volatility report are the numbers of
    maximal runs of positive and of negative price differences, a price
    difference being a price less the price before it, and runs being taken
    over the differences that have a sign (a zero difference is skipped: it
    neither starts, nor extends, nor ends a run).  On the differences +2,
    +1, 0, -3, -1, +4, which are those of the prices 10, 12, 13, 13, 10, 9,
    13, the counts are 2 and 1; on the falling prices 10, 9, 8 they are 0
    and 1. *)
Theorem rachas_son_tramos_maximales :
  (forall precios : list num,
     rachas_de_precios precios =
       (numero_de_rachas Positivo (diferencias_consecutivas precios),
        numero_de_rachas Negativo (diferencias_consecutivas precios))) /\
  (forall cambios : list num,
     contar_rachas cambios =
       (numero_de_rachas Positivo cambios, numero_de_rachas Negativo cambios)) /\
  contar_rachas [Fin 2; Fin 1; Fin 0; Fin (-3); Fin (-1); Fin 4] = (2%nat, 1%nat) /\
  tramos (signos [Fin 2; Fin 1; Fin 0; Fin (-3); Fin (-1); Fin 4]) =
    [(Positivo, 2%nat); (Negativo, 2%nat); (Positivo, 1%nat)] /\
  diferencias_consecutivas
    [Fin 10; Fin 12; Fin 13; Fin 13; Fin 10; Fin 9; Fin 13] =
    [Fin 2; Fin 1; Fin 0; Fin (-3); Fin (-1); Fin 4] /\
  rachas_de_precios [Fin 10; Fin 12; Fin 13; Fin 13; Fin 10; Fin 9; Fin 13] =
    (2%nat, 1%nat) /\
  rachas_de_precios [Fin 10; Fin 9; Fin 8] = (0%nat, 1%nat).
Proof.
  split; [apply rachas_de_precios_tramos|].
  split; [apply contar_rachas_tramos|].
  repeat split; reflexivity.
Qed.

(** ** Loading and validation *)

Section LemasCarga.

(** After [_cargar_modelo] on a fresh object: the flag is set exactly when
    the four files deserialize, and an attribute holds what its file gave
    when all four files exist and that file and those before it
    deserialize. *)
Lemma _cargar_modelo_componentes (d : DirectorioModelos) :
  let self := fst (_cargar_modelo
                     (mk_predictor None None None None None false) d) in
  datos_historicos self = None /\
  modelo_cargado self =
    legible (best_svm_mejorado_pkl d) && legible (scaler_X_pkl d)
    && legible (scaler_y_pkl d) && legible (feature_columns_pkl d) /\
  modelo_svm self =
    (if todos_existen d && legible (best_svm_mejorado_pkl d)
     then contenido (best_svm_mejorado_pkl d) else None) /\
  scaler_x self =
    (if todos_existen d && legible (best_svm_mejorado_pkl d)
        && legible (scaler_X_pkl d)
     then contenido (scaler_X_pkl d) else None) /\
  scaler_y self =
    (if todos_existen d && legible (best_svm_mejorado_pkl d)
        && legible (scaler_X_pkl d) && legible (scaler_y_pkl d)
     then contenido (scaler_y_pkl d) else None) /\
  columnas_caracteristicas self =
    (if todos_existen d && legible (best_svm_mejorado_pkl d)
        && legible (scaler_X_pkl d) && legible (scaler_y_pkl d)
        && legible (feature_columns_pkl d)
     then contenido (feature_columns_pkl d) else None).
Proof.
  unfold _cargar_modelo, todos_existen.
  destruct d as [[|e1|m] [|e2|sx] [|e3|sy] [|e4|cols]]; simpl;
    repeat split; reflexivity.
Qed.

Lemma _cargar_datos_historicos_marco (self : PredictorAguacate)
    (ruta : string) (csv : archivo (list fila)) :
  let self' := fst (_cargar_datos_historicos self ruta csv) in
  modelo_svm self' = modelo_svm self /\
  scaler_x self' = scaler_x self /\
  scaler_y self' = scaler_y self /\
  columnas_caracteristicas self' = columnas_caracteristicas self /\
  modelo_cargado self' = modelo_cargado self.
Proof.
  unfold _cargar_datos_historicos.
  destruct (cargar_datos_historicos ruta csv); simpl; repeat split.
Qed.

End LemasCarga.



(** ** The boundary of the public operations *)

Section Frontera.

Variable np : Numpy.

Lemma despachar_todo {A : Type} (e : excepcion) (h1 h2 : excepcion -> resultado A) :
  despachar e [(ValueError, h1); (Exception_, h2)] =
    if es_subclase (clase e) ValueError then h1 e else h2 e.
Proof.
  simpl. destruct (es_subclase (clase e) ValueError); reflexivity.
Qed.

Lemma predecir_precio_fecha_retorna (self : PredictorAguacate)
    (fecha : string) (reloj : Reloj) :
  exists d reloj',
    predecir_precio_fecha np self fecha reloj = Retorna (d, reloj') /\
    registro_de_prediccion d.
Proof.
  unfold predecir_precio_fecha, registro_de_prediccion.
  destruct (modelo_cargado self); cbn [negb].
  - destruct (precio_predicho_de np self fecha) as [x|e];
      cbn [ligar intentar].
    + do 2 eexists. split; [reflexivity|]. right. split; reflexivity.
    + rewrite despachar_todo.
      destruct (es_subclase (clase e) ValueError);
        do 2 eexists; (split; [reflexivity|]); left; reflexivity.
  - do 2 eexists. split; [reflexivity|]. left; reflexivity.
Qed.

(** The loop of [predecir_multiples_fechas], from any list built so far. *)
Lemma bucle_fechas_retorna (self : PredictorAguacate) (fechas : list string) :
  forall (resultados : list dict) (reloj : Reloj),
  exists ds reloj',
    bucle_fechas np self fechas resultados reloj
      = Retorna (resultados ++ ds, reloj') /\
    List.length ds = List.length fechas /\
    Forall registro_de_prediccion ds.
Proof.
  induction fechas as [|f fechas IH]; intros res reloj; simpl.
  - exists [], reloj. rewrite app_nil_r. repeat split; constructor.
  - destruct (predecir_precio_fecha_retorna self f reloj) as (d & r1 & E & Hd).
    rewrite E. simpl.
    destruct (IH (res ++ [d]) r1) as (ds & r2 & E2 & L & F).
    exists (d :: ds), r2. rewrite E2, <- app_assoc. simpl.
    repeat split; [now rewrite L | now constructor].
Qed.

Lemma obtener_tendencia_historica_retorna (self : PredictorAguacate) (m : Z) :
  exists d,
    obtener_tendencia_historica np self m = Retorna d /\
    (es_registro_error d = true \/
     (claves d = claves_tendencia /\ tiene_clave d "error" = false)).
Proof.
  unfold obtener_tendencia_historica.
  destruct (datos_historicos self) as [hist|];
    [|eexists; split; [reflexivity|left; reflexivity]].
  destruct (datos_recientes_de hist m) as [v|e]; simpl;
    [|eexists; split; [reflexivity|left; reflexivity]].
  destruct v as [|r v]; simpl Nat.eqb; cbv iota;
    [eexists; split; [reflexivity|left; reflexivity]|].
  destruct (resumen_tendencia_exito np m (map Precio_promedio (r :: v)))
    as (i & f & _ & _ & E); [discriminate|].
  rewrite E. eexists. split; [reflexivity|]. right. split; reflexivity.
Qed.

Lemma obtener_info_modelo_retorna (self : PredictorAguacate) :
  exists d,
    obtener_info_modelo self = Retorna d /\
    (es_registro_error d = true \/ tiene_clave d "error" = false).
Proof.
  unfold obtener_info_modelo.
  destruct (modelo_cargado self); simpl;
    [|eexists; split; [reflexivity|left; reflexivity]].
  destruct (datos_historicos self) as [h|]; simpl;
    [|eexists; split; [reflexivity|right; reflexivity]].
  destruct (minimo (map Fecha_Pub_DOF h)) as [a|]; simpl;
    [|eexists; split; [reflexivity|left; reflexivity]].
  destruct (maximo (map Fecha_Pub_DOF h)) as [b|]; simpl;
    [|eexists; split; [reflexivity|left; reflexivity]].
  eexists; split; [reflexivity|right; reflexivity].
Qed.

End Frontera.

(** C7 (amended): the four operations of the predictor never let an
    exception out: [predecir_precio_fecha], [obtener_tendencia_historica]
    and [obtener_info_modelo] return a success record or a record with the
    single key 'error', and [predecir_multiples_fechas] a list of such
    records.  [obtener_estadisticas_datos] has no such boundary: on a frame
    without the column 'Precio promedio' it raises [ValueError]. *)
Theorem frontera_de_operaciones :
  forall (np : Numpy) (self : PredictorAguacate),
    (forall fecha reloj, exists d reloj',
        predecir_precio_fecha np self fecha reloj = Retorna (d, reloj') /\
        registro_de_prediccion d) /\
    (forall fechas reloj, exists ds reloj',
        predecir_multiples_fechas np self fechas reloj = Retorna (ds, reloj') /\
        Forall registro_de_prediccion ds) /\
    (forall ultimos_meses, exists d,
        obtener_tendencia_historica np self ultimos_meses = Retorna d /\
        (es_registro_error d = true \/
         (claves d = claves_tendencia /\ tiene_clave d "error" = false))) /\
    (exists d,
        obtener_info_modelo self = Retorna d /\
        (es_registro_error d = true \/ tiene_clave d "error" = false)) /\
    (forall df,
        tiene_columna df "Precio promedio" = false ->
        obtener_estadisticas_datos np df =
          Lanza (mk_excepcion ValueError
                   "El DataFrame debe contener la columna 'Precio promedio'")).
Proof.
  intros np self.
  split; [intros; apply predecir_precio_fecha_retorna|].
  split.
  { intros fechas reloj.
    destruct (bucle_fechas_retorna np self fechas [] reloj)
      as (ds & r & E & _ & F).
    exists ds, r. split; [exact E|exact F]. }
  split; [intros; apply obtener_tendencia_historica_retorna|].
  split; [apply obtener_info_modelo_retorna|].
  intros df H. unfold obtener_estadisticas_datos. now rewrite H.
Qed.

(** C7, as stated, fails for [obtener_estadisticas_datos]: given a frame
    that has dates but no 'Precio promedio' column, it raises. *)
Lemma obtener_estadisticas_datos_lanza :
  obtener_estadisticas_datos numpy_racional
    (mk_df ["Fecha_Pub_DOF"%string] [mk_fila (mk_fecha 2024 6 1) NaN])
  = Lanza (mk_excepcion ValueError
             "El DataFrame debe contener la columna 'Precio promedio'").
Proof. reflexivity. Qed.

(** ** Batch prediction *)

Section Lote.

Variable np : Numpy.

Lemma bucle_fechas_posicional (self : PredictorAguacate)
    (fechas : list string) :
  forall (resultados : list dict) (reloj : Reloj),
  exists ds reloj',
    bucle_fechas np self fechas resultados reloj
      = Retorna (resultados ++ ds, reloj') /\
    List.length ds = List.length fechas /\
    forall i fecha,
      nth_error fechas i = Some fecha ->
      exists reloj_i d r,
        bucle_fechas np self (firstn i fechas) resultados reloj
          = Retorna (resultados ++ firstn i ds, reloj_i) /\
        predecir_precio_fecha np self fecha reloj_i = Retorna (d, r) /\
        nth_error ds i = Some d.
Proof.
  induction fechas as [|f fechas IH]; intros res reloj.
  - exists [], reloj. simpl. rewrite app_nil_r.
    repeat split. intros [|i] fecha H; discriminate.
  - destruct (predecir_precio_fecha_retorna np self f reloj)
      as (d & r1 & E & _).
    destruct (IH (res ++ [d]) r1) as (ds & r2 & E2 & L & P).
    exists (d :: ds), r2. split; [|split].
    + simpl. rewrite E. simpl. rewrite E2, <- app_assoc. reflexivity.
    + simpl. now rewrite L.
    + intros [|i] fecha H.
      * injection H as <-. exists reloj, d, r1. simpl.
        rewrite app_nil_r. repeat split. exact E.
      * destruct (P i fecha H) as (ri & d' & r & B & Pd & N).
        exists ri, d', r. split; [|split; assumption].
        simpl. rewrite E. simpl. rewrite B, <- app_assoc. reflexivity.
Qed.

End Lote.

(** C8: [predecir_multiples_fechas] returns a list as long as its input
    whose [i]-th element is what [predecir_precio_fecha] returns for the
    [i]-th date, called when the dates before it have been handled; every
    element is a prediction or an error record, so a failure at one
    position leaves the other positions as they are. *)
Theorem predecir_multiples_fechas_posicional :
  forall (np : Numpy) (self : PredictorAguacate) (fechas : list string)
         (reloj : Reloj),
  exists ds reloj',
    predecir_multiples_fechas np self fechas reloj = Retorna (ds, reloj') /\
    List.length ds = List.length fechas /\
    Forall registro_de_prediccion ds /\
    forall i fecha,
      nth_error fechas i = Some fecha ->
      exists reloj_i d r,
        predecir_multiples_fechas np self (firstn i fechas) reloj
          = Retorna (firstn i ds, reloj_i) /\
        predecir_precio_fecha np self fecha reloj_i = Retorna (d, r) /\
        nth_error ds i = Some d.
Proof.
  intros np self fechas reloj. unfold predecir_multiples_fechas.
  destruct (bucle_fechas_posicional np self fechas [] reloj)
    as (ds & r & E & L & P).
  destruct (bucle_fechas_retorna np self fechas [] reloj)
    as (ds' & r' & E' & _ & F).
  rewrite E in E'. injection E' as <- <-.
  exists ds, r. repeat split; assumption.
Qed.

(** ** Feature synthesis *)

Section LemasCaracteristicas.

Variable np : Numpy.

Lemma nth_error_combine_seq {A : Type} (l : list A) :
  forall (a i : nat),
    nth_error (combine (seq a (List.length l)) l) i =
      option_map (fun x => ((a + i)%nat, x)) (nth_error l i).
Proof.
  induction l as [|x l IH]; intros a i; simpl.
  - destruct i; reflexivity.
  - destruct i as [|i]; simpl.
    + now rewrite Nat.add_0_r.
    + rewrite IH. now rewrite Nat.add_succ_r.
Qed.

(** Row [i] of the feature frame is computed from row [i] of the input
    and the whole price column. *)
Lemma fila_de_caracteristicas (df : list fila) (i : nat)
    (r : FilaCaracteristicas) :
  nth_error (crear_caracteristicas_temporales np df) i = Some r ->
  exists f,
    nth_error df i = Some f /\
    r = caracteristicas_de_fila np (minimo (map Fecha_Pub_DOF df))
          (map Precio_promedio df) i f.
Proof.
  unfold crear_caracteristicas_temporales.
  rewrite nth_error_map, nth_error_combine_seq.
  destruct (nth_error df i) as [f|]; simpl; [|discriminate].
  intros [= <-]. now exists f.
Qed.






End LemasCaracteristicas.



(** ** Sorting by date *)

Section LemasOrden.

Lemma leb_total (a b : fecha) :
  Fechas.leb a b = false -> Fechas.leb b a = true.
Proof.
  unfold Fechas.leb, comparar.
  destruct (Z.compare_spec (anio a) (anio b)),
           (Z.compare_spec (anio b) (anio a)); try lia; try discriminate;
    try reflexivity.
  destruct (Z.compare_spec (mes a) (mes b)),
           (Z.compare_spec (mes b) (mes a)); try lia; try discriminate;
    try reflexivity.
  destruct (Z.compare_spec (dia a) (dia b)),
           (Z.compare_spec (dia b) (dia a)); try lia; try discriminate;
    reflexivity.
Qed.

Lemma leb_trans (a b c : fecha) :
  Fechas.leb a b = true -> Fechas.leb b c = true -> Fechas.leb a c = true.
Proof.
  unfold Fechas.leb, comparar.
  destruct (Z.compare_spec (anio a) (anio b)),
           (Z.compare_spec (anio b) (anio c)),
           (Z.compare_spec (anio a) (anio c));
    try lia; try discriminate; try reflexivity;
  destruct (Z.compare_spec (mes a) (mes b)),
           (Z.compare_spec (mes b) (mes c)),
           (Z.compare_spec (mes a) (mes c));
    try lia; try discriminate; try reflexivity;
  destruct (Z.compare_spec (dia a) (dia b)),
           (Z.compare_spec (dia b) (dia c)),
           (Z.compare_spec (dia a) (dia c));
    try lia; try discriminate; reflexivity.
Qed.

Lemma insertar_In (r x : fila) (l : list fila) :
  In x (insertar r l) <-> x = r \/ In x l.
Proof.
  induction l as [|y l IH]; simpl.
  - intuition.
  - destruct (Fechas.leb (Fecha_Pub_DOF r) (Fecha_Pub_DOF y)); simpl.
    + intuition.
    + rewrite IH. intuition.
Qed.

Lemma ultimo_In {A : Type} (l : list A) (u : A) : ultimo l = Some u -> In u l.
Proof.
  induction l as [|a l IH]; [discriminate|].
  destruct l as [|b l]; simpl in *.
  - intros [= ->]. now left.
  - intros H. right. now apply IH.
Qed.

Lemma ultimo_cons {A : Type} (a : A) (l : list A) (u : A) :
  ultimo l = Some u -> ultimo (a :: l) = Some u.
Proof. destruct l; [discriminate|]. trivial. Qed.

(** Inserting a row keeps a last row that bounds the list a last row that
    bounds the list. *)
Lemma insertar_ultimo (r : fila) (l : list fila) :
  forall u,
    ultimo l = Some u -> cota_superior u l ->
    exists u',
      ultimo (insertar r l) = Some u' /\ cota_superior u' (insertar r l).
Proof.
  induction l as [|y l IH]; intros u Hu Hc; [discriminate|].
  simpl insertar.
  destruct (Fechas.leb (Fecha_Pub_DOF r) (Fecha_Pub_DOF y)) eqn:E.
  - exists u. split; [now apply ultimo_cons|].
    intros x [<-|Hx]; [|now apply Hc].
    apply leb_trans with (b := Fecha_Pub_DOF y); [exact E|].
    apply Hc. now left.
  - destruct l as [|z l].
    + simpl in Hu. injection Hu as <-. simpl.
      exists r. split; [reflexivity|].
      intros x [<-|[<-|[]]]; [now apply leb_total|apply leb_refl].
    + assert (Hu' : ultimo (z :: l) = Some u) by exact Hu.
      destruct (IH u Hu') as (u' & U & C).
      { intros x Hx. apply Hc. now right. }
      exists u'. split; [now apply ultimo_cons|].
      intros x [<-|Hx]; [|now apply C].
      apply leb_trans with (b := Fecha_Pub_DOF u).
      * apply Hc. now left.
      * apply C. apply insertar_In. right. now apply ultimo_In.
Qed.

(** The last row of a sorted frame has the latest date. *)
Lemma sort_values_ultimo (l : list fila) (u : fila) :
  ultimo (sort_values l) = Some u -> cota_superior u (sort_values l).
Proof.
  revert u. induction l as [|r l IH]; intros u; [discriminate|].
  simpl. destruct (sort_values l) as [|y s] eqn:S.
  - simpl. intros [= <-] x [<-|[]]. apply leb_refl.
  - destruct (ultimo_no_vacio (y :: s)) as (u0 & U0); [discriminate|].
    destruct (insertar_ultimo r (y :: s) u0 U0 (IH u0 U0)) as (u' & U & C).
    intros H. rewrite U in H. injection H as <-. exact C.
Qed.

(** A row dated on or after every row of [l], appended to [l], is still
    the last one after sorting. *)
Lemma insertar_conserva_ultimo (r : fila) (l : list fila) (u : fila) :
  ultimo l = Some u ->
  Fechas.leb (Fecha_Pub_DOF r) (Fecha_Pub_DOF u) = true ->
  ultimo (insertar r l) = Some u.
Proof.
  induction l as [|y l IH]; intros Hu Hr; [discriminate|].
  simpl insertar.
  destruct (Fechas.leb (Fecha_Pub_DOF r) (Fecha_Pub_DOF y)) eqn:E.
  - now apply ultimo_cons.
  - destruct l as [|z l].
    + simpl in Hu. injection Hu as <-. congruence.
    + apply ultimo_cons. apply IH; [exact Hu|exact Hr].
Qed.

Lemma sort_values_fila_final (hist : list fila) (x : fila) :
  cota_superior x hist ->
  ultimo (sort_values (hist ++ [x])) = Some x.
Proof.
  induction hist as [|r hist IH]; intros C; [reflexivity|].
  simpl. apply insertar_conserva_ultimo.
  - apply IH. intros y Hy. apply C. now right.
  - apply C. now left.
Qed.

End LemasOrden.

(** ** The model input *)

Section Entrada.

Variable np : Numpy.

Lemma seleccionar_posicional (r : FilaCaracteristicas) (cols : list string) :
  forall sel,
    seleccionar r cols = Retorna sel ->
    List.length sel = List.length cols /\
    forall j c,
      nth_error cols j = Some c ->
      exists v, valor_columna r c = Some v /\ nth_error sel j = Some v.
Proof.
  induction cols as [|c cols IH]; intros sel; simpl.
  - intros [= <-]. split; [reflexivity|]. intros [|j] c H; discriminate.
  - destruct (valor_columna r c) as [v|] eqn:V; simpl; [|discriminate].
    destruct (seleccionar r cols) as [vs|e]; simpl; [|discriminate].
    intros [= <-]. destruct (IH vs eq_refl) as [L P].
    split; [simpl; now rewrite L|].
    intros [|j] c' H; simpl in *.
    + injection H as <-. now exists v.
    + now apply P.
Qed.

Lemma ultimo_map {A B : Type} (f : A -> B) (l : list A) :
  ultimo (map f l) = option_map f (ultimo l).
Proof.
  induction l as [|a l IH]; [reflexivity|].
  destruct l as [|b l]; [reflexivity|]. exact IH.
Qed.

(** The frame the loader returns is sorted. *)
Lemma cargar_datos_historicos_ordena (ruta : string)
    (csv : archivo (list fila)) (hist : list fila) :
  cargar_datos_historicos ruta csv = Retorna hist ->
  exists rows, csv = Contiene rows /\ hist = sort_values rows.
Proof.
  unfold cargar_datos_historicos.
  destruct csv as [|[c m]|rows].
  - discriminate.
  - destruct c; discriminate.
  - intros [= <-]. now exists rows.
Qed.

Lemma __init__datos (d : DirectorioModelos) (ruta : string)
    (csv : archivo (list fila)) (hist : list fila) :
  datos_historicos (__init__ d ruta csv) = Some hist ->
  cargar_datos_historicos ruta csv = Retorna hist.
Proof.
  unfold __init__, _cargar_datos_historicos.
  destruct (cargar_datos_historicos ruta csv) as [df|e]; simpl.
  - now intros [= <-].
  - destruct (_cargar_modelo_componentes d) as [E _]. cbv zeta in E.
    rewrite E. discriminate.
Qed.

(** The row fed to the model is the synthetic one when the requested date
    is no earlier than any date of the series. *)
Lemma fila_final_de_fecha_futura (hist : list fila) (fecha_obj : fecha) :
  (forall x, In x hist ->
     Fechas.leb (Fecha_Pub_DOF x) fecha_obj = true) ->
  exists r,
    iloc_ultimo (df_features_para np hist fecha_obj) = Retorna r /\
    fc_fecha r = fecha_obj /\ fc_precio r = NaN.
Proof.
  intros C. unfold df_features_para, iloc_ultimo, crear_caracteristicas_temporales.
  rewrite ultimo_map.
  set (df := sort_values (hist ++ [mk_fila fecha_obj NaN])).
  assert (U : ultimo df = Some (mk_fila fecha_obj NaN)).
  { apply sort_values_fila_final. exact C. }
  assert (E : forall a, exists i,
               ultimo (combine (seq a (List.length df)) df)
               = Some (i, mk_fila fecha_obj NaN)).
  { clear -U. induction df as [|x df IH]; [discriminate|].
    intros a. destruct df as [|y df].
    - simpl in *. injection U as <-. now exists a.
    - destruct (IH U (S a)) as (i & Hi). exists i. exact Hi. }
  destruct (E 0%nat) as (i & Hi). rewrite Hi. simpl.
  eexists. split; [reflexivity|]. split; reflexivity.
Qed.

End Entrada.

(** C4 (amended): for a predictor built by [__init__], every cell of the
    row handed to the scaler sits under the feature name at the same
    position of the artifact's list, and a cell the synthesizer left missing
    holds the price of the last row of the historical series, which is a row
    with the latest date; the other cells are the synthesized values.  The
    fill value is that price whatever it is: when it is itself missing the
    cell stays missing, even if an earlier price is known. *)
Theorem relleno_con_ultimo_precio :
  forall (np : Numpy) (d : DirectorioModelos) (ruta_datos : string)
         (csv : archivo (list fila)) (fecha_obj : fecha)
         (hist : list fila) (X : list celda),
    let self := __init__ d ruta_datos csv in
    datos_historicos self = Some hist ->
    X_pred_de np self hist fecha_obj = Retorna X ->
    exists cols r u,
      columnas_caracteristicas self = Some cols /\
      iloc_ultimo (df_features_para np hist fecha_obj) = Retorna r /\
      ultimo hist = Some u /\
      (forall x, In x hist ->
         Fechas.leb (Fecha_Pub_DOF x) (Fecha_Pub_DOF u) = true) /\
      List.length X = List.length cols /\
      forall j c,
        nth_error cols j = Some c ->
        exists v,
          valor_columna r c = Some v /\
          nth_error X j =
            Some (if celda_faltante v then CNum (Precio_promedio u) else v).
Proof.
  intros np d ruta csv fecha_obj hist X self Hh HX.
  destruct (cargar_datos_historicos_ordena ruta csv hist
              (__init__datos d ruta csv hist Hh)) as (rows & _ & Hs).
  unfold X_pred_de in HX.
  destruct (columnas_caracteristicas self) as [cols|]; [|discriminate].
  cbn [de_opcion ligar] in HX.
  destruct (iloc_ultimo (df_features_para np hist fecha_obj)) as [r|e];
    [|discriminate].
  cbn [ligar] in HX.
  destruct (seleccionar r cols) as [sel|e] eqn:S; [|discriminate].
  cbn [ligar] in HX.
  unfold iloc_ultimo in HX. rewrite ultimo_map in HX.
  destruct (ultimo hist) as [u|] eqn:U; [|discriminate].
  cbn [option_map ligar] in HX. injection HX as <-.
  destruct (seleccionar_posicional r cols sel S) as [L P].
  exists cols, r, u.
  split; [reflexivity|]. split; [reflexivity|]. split; [reflexivity|].
  split.
  { subst hist. intros x Hx. now apply (sort_values_ultimo rows u U). }
  split; [now rewrite length_map|].
  intros j c Hc. destruct (P j c Hc) as (v & V & N).
  exists v. split; [exact V|].
  rewrite nth_error_map, N. reflexivity.
Qed.

(** C4 on the example predictor, asked for 2024-07-01: the two rolling
    means are missing and take the last price, 65. *)
Lemma relleno_con_ultimo_precio_testigo :
  exists cols r u,
    columnas_caracteristicas predictor_ejemplo = Some cols /\
    iloc_ultimo (df_features_para numpy_racional serie_ejemplo
                   (mk_fecha 2024 7 1)) = Retorna r /\
    ultimo serie_ejemplo = Some u /\
    (forall x, In x serie_ejemplo ->
       Fechas.leb (Fecha_Pub_DOF x) (Fecha_Pub_DOF u) = true) /\
    List.length [CEntero 7; CEntero 183; CNum (Fin 65); CNum (Fin 65);
                 CNum (Fin 65)] = List.length cols /\
    forall j c,
      nth_error cols j = Some c ->
      exists v,
        valor_columna r c = Some v /\
        nth_error [CEntero 7; CEntero 183; CNum (Fin 65); CNum (Fin 65);
                   CNum (Fin 65)] j =
          Some (if celda_faltante v then CNum (Precio_promedio u) else v).
Proof.
  apply (relleno_con_ultimo_precio numpy_racional directorio_ejemplo
           "data/aguacate.csv" (Contiene serie_ejemplo) (mk_fecha 2024 7 1)
           serie_ejemplo).
  - reflexivity.
  - vm_compute. reflexivity.
Defined.

(** C4, as first stated, fails when the latest row has no price: asked for
    2024-03-01 on a series whose rows are (2024-01-01, 50) and (2024-02-01,
    missing), the three price cells of the row handed to the scaler stay
    missing although the price 50 is known. *)
Lemma relleno_sin_ultimo_precio :
  datos_historicos
    (__init__ directorio_ejemplo "data/aguacate.csv"
       (Contiene serie_sin_ultimo_precio)) = Some serie_sin_ultimo_precio /\
  In (mk_fila (mk_fecha 2024 1 1) (Fin 50)) serie_sin_ultimo_precio /\
  X_pred_de numpy_racional
    (__init__ directorio_ejemplo "data/aguacate.csv"
       (Contiene serie_sin_ultimo_precio))
    serie_sin_ultimo_precio (mk_fecha 2024 3 1) =
    Retorna [CEntero 3; CEntero 61; CNum NaN; CNum NaN; CNum NaN].
Proof.
  split; [reflexivity|]. split; [left; reflexivity|]. vm_compute. reflexivity.
Qed.


(** C2, at a date inside the series: asked for 2024-01-15, the predictor
    feeds the model the last row of the merged frame, which is the
    historical row of 2024-06-01, and not the row of the requested date
    (the second of the frame). *)
Theorem prediccion_de_fecha_pasada :
  strptime "2024-01-15" = Retorna (mk_fecha 2024 1 15) /\
  (exists r,
     iloc_ultimo (df_features_para numpy_racional serie_ejemplo
                    (mk_fecha 2024 1 15)) = Retorna r /\
     fc_fecha r = mk_fecha 2024 6 1 /\ fc_precio r = Fin 65) /\
  (exists r,
     nth_error (df_features_para numpy_racional serie_ejemplo
                  (mk_fecha 2024 1 15)) 1 = Some r /\
     fc_fecha r = mk_fecha 2024 1 15 /\ fc_precio r = NaN /\
     seleccionar r columnas_ejemplo =
       Retorna [CEntero 1; CEntero 15; CNum (Fin 50); CNum NaN; CNum NaN]) /\
  X_pred_de numpy_racional predictor_ejemplo serie_ejemplo (mk_fecha 2024 1 15) =
    Retorna [CEntero 6; CEntero 153; CNum (Fin 62); CNum (Fin (185 # 3));
             CNum (Fin 65)] /\
  predecir_precio_fecha numpy_racional predictor_ejemplo "2024-01-15"
    reloj_ejemplo =
    Retorna
      ([ ("fecha", PStr "2024-01-15");
         ("precio", PFloat (Fin (34767 # 100)));
         ("moneda", PStr "MXN");
         ("unidad", PStr "kg");
         ("fecha_prediccion", PStr "2024-06-15 12:00");
         ("modelo_usado", PStr "SVM con kernel RBF") ]%string,
       mk_reloj (lecturas reloj_ejemplo) 1).
Proof.
  split; [reflexivity|].
  split; [eexists; split; [vm_compute; reflexivity|split; reflexivity]|].
  split; [eexists; split; [vm_compute; reflexivity|repeat split; reflexivity]|].
  split; vm_compute; reflexivity.
Qed.

(** * Further properties of the code *)

(** ** The loader *)

Section Cargador.

Lemma insertar_permutacion (r : fila) (l : list fila) :
  Permutation (r :: l) (insertar r l).
Proof.
  induction l as [|x l IH]; simpl; [reflexivity|].
  destruct (Fechas.leb (Fecha_Pub_DOF r) (Fecha_Pub_DOF x)); [reflexivity|].
  rewrite perm_swap. now apply perm_skip.
Qed.

Lemma sort_values_permutacion (l : list fila) : Permutation l (sort_values l).
Proof.
  induction l as [|r l IH]; simpl; [constructor|].
  rewrite <- insertar_permutacion. now apply perm_skip.
Qed.

Lemma insertar_ordenada (r : fila) (l : list fila) :
  ordenada_por_fecha l -> ordenada_por_fecha (insertar r l).
Proof.
  unfold ordenada_por_fecha.
  induction 1 as [|x l Hl IH Hx]; simpl.
  - repeat constructor.
  - destruct (Fechas.leb (Fecha_Pub_DOF r) (Fecha_Pub_DOF x)) eqn:E.
    + constructor; [now constructor|].
      constructor; [exact E|].
      rewrite Forall_forall in *. intros y Hy.
      unfold antes_o_igual in *.
      apply leb_trans with (b := Fecha_Pub_DOF x); auto.
    + constructor; [exact IH|].
      rewrite Forall_forall in *. intros y Hy.
      apply insertar_In in Hy. destruct Hy as [->|Hy]; [|now apply Hx].
      now apply leb_total.
Qed.

Lemma sort_values_ordenada (l : list fila) : ordenada_por_fecha (sort_values l).
Proof.
  induction l as [|r l IH]; simpl; [constructor|].
  now apply insertar_ordenada.
Qed.

(** Sorting a sorted frame changes nothing. *)
Lemma insertar_cabeza (r : fila) (l : list fila) :
  Forall (antes_o_igual r) l -> insertar r l = r :: l.
Proof.
  destruct 1 as [|x l Hx _]; simpl; [reflexivity|].
  unfold antes_o_igual in Hx. now rewrite Hx.
Qed.

Lemma sort_values_de_ordenada (l : list fila) :
  ordenada_por_fecha l -> sort_values l = l.
Proof.
  induction 1 as [|x l Hl IH Hx]; simpl; [reflexivity|].
  rewrite IH. now apply insertar_cabeza.
Qed.

End Cargador.

(** X1: when [cargar_datos_historicos] returns, the frame holds exactly the
    rows of the file, in ascending order of date. *)
Theorem cargar_datos_historicos_ordenados :
  forall (ruta : string) (csv : archivo (list fila)) (hist : list fila),
    cargar_datos_historicos ruta csv = Retorna hist ->
    exists rows,
      csv = Contiene rows /\
      Permutation rows hist /\
      ordenada_por_fecha hist.
Proof.
  intros ruta csv hist H.
  destruct (cargar_datos_historicos_ordena ruta csv hist H) as (rows & E & ->).
  exists rows. split; [exact E|]. split.
  - apply sort_values_permutacion.
  - apply sort_values_ordenada.
Qed.

Lemma cargar_datos_historicos_ordenados_testigo :
  exists rows,
    Contiene (rev serie_ejemplo) = Contiene rows /\
    Permutation rows serie_ejemplo /\
    ordenada_por_fecha serie_ejemplo.
Proof.
  apply (cargar_datos_historicos_ordenados "data/aguacate.csv"
           (Contiene (rev serie_ejemplo)) serie_ejemplo).
  reflexivity.
Defined.

(** X2: whatever goes wrong, [cargar_datos_historicos] raises either
    [FileNotFoundError], with the path in its message, or a plain
    [Exception] whose message wraps the original one; the class of any
    other error is not kept. *)
Theorem cargar_datos_historicos_errores :
  forall (ruta : string) (csv : archivo (list fila)) (e : excepcion),
    cargar_datos_historicos ruta csv = Lanza e ->
    (clase e = FileNotFoundError /\
     mensaje e = ("No se encontró el archivo: " ++ ruta)%string) \/
    (clase e = Exception_ /\
     exists e0,
       csv = Ilegible e0 /\
       es_subclase (clase e0) FileNotFoundError = false /\
       mensaje e = ("Error al cargar los datos: " ++ mensaje e0)%string).
Proof.
  intros ruta csv e. unfold cargar_datos_historicos.
  destruct csv as [|[c m]|rows].
  - intros [= <-]. left. split; reflexivity.
  - destruct c; intros [= <-];
      first [ left; split; reflexivity
            | right; split; [reflexivity|]; eexists; repeat split ].
  - discriminate.
Qed.

Lemma cargar_datos_historicos_errores_testigo :
  (clase (mk_excepcion Exception_ "Error al cargar los datos: 'Fecha_Pub_DOF'")
     = FileNotFoundError /\
   mensaje (mk_excepcion Exception_ "Error al cargar los datos: 'Fecha_Pub_DOF'")
     = ("No se encontró el archivo: " ++ "data/aguacate.csv")%string) \/
  (clase (mk_excepcion Exception_ "Error al cargar los datos: 'Fecha_Pub_DOF'")
     = Exception_ /\
   exists e0,
     @Ilegible (list fila) (mk_excepcion KeyError "'Fecha_Pub_DOF'")
       = Ilegible e0 /\
     es_subclase (clase e0) FileNotFoundError = false /\
     mensaje (mk_excepcion Exception_ "Error al cargar los datos: 'Fecha_Pub_DOF'")
       = ("Error al cargar los datos: " ++ mensaje e0)%string).
Proof.
  apply (cargar_datos_historicos_errores "data/aguacate.csv"
           (Ilegible (mk_excepcion KeyError "'Fecha_Pub_DOF'"))).
  reflexivity.
Defined.

(** ** Construction of the predictor *)

(** X3: if any of the four model files does not exist, [__init__] leaves all
    four artifacts unset and [modelo_cargado] false, whatever the other
    files hold: existence is checked for all files before any is loaded. *)
Theorem archivo_faltante_no_carga_nada :
  forall (d : DirectorioModelos) (ruta_datos : string)
         (csv : archivo (list fila)),
    existe (best_svm_mejorado_pkl d) = false \/
    existe (scaler_X_pkl d) = false \/
    existe (scaler_y_pkl d) = false \/
    existe (feature_columns_pkl d) = false ->
    let self := __init__ d ruta_datos csv in
    modelo_svm self = None /\ scaler_x self = None /\ scaler_y self = None /\
    columnas_caracteristicas self = None /\ modelo_cargado self = false.
Proof.
  intros d ruta csv H self.
  destruct (_cargar_datos_historicos_marco
              (fst (_cargar_modelo
                      (mk_predictor None None None None None false) d))
              ruta csv) as (E1 & E2 & E3 & E4 & E5).
  cbv zeta in E1, E2, E3, E4, E5.
  fold (__init__ d ruta csv) in E1, E2, E3, E4, E5.
  fold self in E1, E2, E3, E4, E5.
  rewrite E1, E2, E3, E4, E5. revert H. clear.
  unfold _cargar_modelo.
  destruct d as [a b c e]; simpl.
  intros [H|[H|[H|H]]]; rewrite H; rewrite ?andb_false_r; simpl;
    repeat split.
Qed.

Lemma archivo_faltante_no_carga_nada_testigo :
  let self :=
    __init__ (mk_directorio (Contiene (Some svm_ejemplo))
                            (Contiene (Some escalador_ejemplo))
                            (Contiene (Some escalador_ejemplo)) NoExiste)
             "data/aguacate.csv" (Contiene serie_ejemplo) in
  modelo_svm self = None /\ scaler_x self = None /\ scaler_y self = None /\
  columnas_caracteristicas self = None /\ modelo_cargado self = false.
Proof.
  apply (archivo_faltante_no_carga_nada
           (mk_directorio (Contiene (Some svm_ejemplo))
                          (Contiene (Some escalador_ejemplo))
                          (Contiene (Some escalador_ejemplo)) NoExiste)
           "data/aguacate.csv" (Contiene serie_ejemplo)).
  right; right; right; reflexivity.
Defined.

(** X4: when the four files exist, each attribute holds what its file gave
    exactly when that file and the files before it (in the order model,
    input scaler, output scaler, feature names) deserialize, and [None]
    otherwise; [modelo_cargado] is set exactly when all four deserialize.
    So a load that fails, at whichever of the four files, leaves the
    attributes assigned before it as they are and the later ones unset:
    the [except] clause resets the flag and nothing else. *)
Theorem carga_parcial_en_orden :
  forall (d : DirectorioModelos) (ruta_datos : string)
         (csv : archivo (list fila)),
    todos_existen d = true ->
    let self := __init__ d ruta_datos csv in
    modelo_svm self = contenido (best_svm_mejorado_pkl d) /\
    scaler_x self =
      (if legible (best_svm_mejorado_pkl d)
       then contenido (scaler_X_pkl d) else None) /\
    scaler_y self =
      (if legible (best_svm_mejorado_pkl d) && legible (scaler_X_pkl d)
       then contenido (scaler_y_pkl d) else None) /\
    columnas_caracteristicas self =
      (if legible (best_svm_mejorado_pkl d) && legible (scaler_X_pkl d)
          && legible (scaler_y_pkl d)
       then contenido (feature_columns_pkl d) else None) /\
    modelo_cargado self =
      legible (best_svm_mejorado_pkl d) && legible (scaler_X_pkl d)
      && legible (scaler_y_pkl d) && legible (feature_columns_pkl d).
Proof.
  intros d ruta csv H self.
  destruct (_cargar_datos_historicos_marco
              (fst (_cargar_modelo
                      (mk_predictor None None None None None false) d))
              ruta csv) as (E1 & E2 & E3 & E4 & E5).
  cbv zeta in E1, E2, E3, E4, E5.
  fold (__init__ d ruta csv) in E1, E2, E3, E4, E5.
  fold self in E1, E2, E3, E4, E5.
  rewrite E1, E2, E3, E4, E5. revert H. clear.
  unfold _cargar_modelo, todos_existen.
  destruct d as [[|e1|m] [|e2|sx] [|e3|sy] [|e4|cols]]; simpl;
    intros H; try discriminate H; repeat split.
Qed.

Lemma carga_parcial_en_orden_testigo :
  let self :=
    __init__ (mk_directorio (Contiene (Some svm_ejemplo))
                            (Contiene (Some escalador_ejemplo))
                            (Ilegible (mk_excepcion Exception_ "invalid load key"))
                            (Contiene (Some columnas_ejemplo)))
             "data/aguacate.csv" (Contiene serie_ejemplo) in
  modelo_svm self = Some svm_ejemplo /\
  scaler_x self = Some escalador_ejemplo /\
  scaler_y self = None /\
  columnas_caracteristicas self = None /\
  modelo_cargado self = false.
Proof.
  exact (carga_parcial_en_orden
           (mk_directorio (Contiene (Some svm_ejemplo))
                          (Contiene (Some escalador_ejemplo))
                          (Ilegible (mk_excepcion Exception_ "invalid load key"))
                          (Contiene (Some columnas_ejemplo)))
           "data/aguacate.csv" (Contiene serie_ejemplo) eq_refl).
Defined.

(** X5: the two loads of [__init__] do not interfere: the historical frame
    depends on the data file alone, being its rows sorted by date or
    [None], and the artifacts and [modelo_cargado] depend on the model
    directory alone. *)
Theorem cargas_independientes :
  forall (d d' : DirectorioModelos) (ruta ruta' : string)
         (csv csv' : archivo (list fila)),
    datos_historicos (__init__ d ruta csv) =
      match csv with
      | Contiene rows => Some (sort_values rows)
      | _ => None
      end /\
    datos_historicos (__init__ d ruta csv)
      = datos_historicos (__init__ d' ruta' csv) /\
    modelo_svm (__init__ d ruta csv) = modelo_svm (__init__ d ruta' csv') /\
    scaler_x (__init__ d ruta csv) = scaler_x (__init__ d ruta' csv') /\
    scaler_y (__init__ d ruta csv) = scaler_y (__init__ d ruta' csv') /\
    columnas_caracteristicas (__init__ d ruta csv)
      = columnas_caracteristicas (__init__ d ruta' csv') /\
    modelo_cargado (__init__ d ruta csv)
      = modelo_cargado (__init__ d ruta' csv').
Proof.
  intros d d' ruta ruta' csv csv'.
  assert (D : forall d0 r0,
             datos_historicos (__init__ d0 r0 csv) =
               match csv with
               | Contiene rows => Some (sort_values rows)
               | _ => None
               end).
  { intros d0 r0. unfold __init__, _cargar_datos_historicos.
    destruct (_cargar_modelo_componentes d0) as [E _]. cbv zeta in E.
    destruct csv as [|[c m]|rows]; simpl.
    - exact E.
    - destruct c; simpl; exact E.
    - reflexivity. }
  split; [apply D|]. split; [now rewrite !D|].
  destruct (_cargar_datos_historicos_marco
              (fst (_cargar_modelo
                      (mk_predictor None None None None None false) d))
              ruta csv) as (E1 & E2 & E3 & E4 & E5).
  destruct (_cargar_datos_historicos_marco
              (fst (_cargar_modelo
                      (mk_predictor None None None None None false) d))
              ruta' csv') as (F1 & F2 & F3 & F4 & F5).
  cbv zeta in *.
  fold (__init__ d ruta csv) in E1, E2, E3, E4, E5.
  fold (__init__ d ruta' csv') in F1, F2, F3, F4, F5.
  repeat split; congruence.
Qed.

(** ** Errors and the clock in prediction *)

Section ErroresPrediccion.

Variable np : Numpy.

Lemma strptime_lanza_ValueError (s : string) (e : excepcion) :
  strptime s = Lanza e -> clase e = ValueError.
Proof.
  unfold strptime.
  repeat match goal with
         | |- context [match ?x with _ => _ end] => destruct x
         | |- context [if ?b then _ else _] => destruct b
         end;
    try discriminate; intros [= <-]; reflexivity.
Qed.

(** What [predecir_precio_fecha] returns when the body of its [try]
    raises. *)
Lemma predecir_precio_fecha_error (self : PredictorAguacate) (fecha : string)
    (reloj : Reloj) (e : excepcion) :
  modelo_cargado self = true ->
  precio_predicho_de np self fecha = Lanza e ->
  predecir_precio_fecha np self fecha reloj =
    Retorna
      (registro_error
         ((if es_subclase (clase e) ValueError
           then "Formato de fecha inválido: "
           else "Error en la predicción: ") ++ mensaje e)%string,
       reloj).
Proof.
  intros Hc He. unfold predecir_precio_fecha. rewrite Hc, He.
  cbn [negb ligar intentar]. rewrite despachar_todo.
  destruct (es_subclase (clase e) ValueError); reflexivity.
Qed.

End ErroresPrediccion.

(** X6: with the model loaded, a date string that [strptime] rejects gives
    the error record 'Formato de fecha inválido: ...' and leaves the clock
    unread. *)
Theorem fecha_mal_formada :
  forall (np : Numpy) (self : PredictorAguacate) (fecha : string)
         (reloj : Reloj) (e : excepcion),
    modelo_cargado self = true ->
    strptime fecha = Lanza e ->
    predecir_precio_fecha np self fecha reloj =
      Retorna
        (registro_error ("Formato de fecha inválido: " ++ mensaje e)%string,
         reloj).
Proof.
  intros np self fecha reloj e Hc He.
  rewrite (predecir_precio_fecha_error np self fecha reloj e Hc).
  - now rewrite (strptime_lanza_ValueError fecha e He).
  - unfold precio_predicho_de. now rewrite He.
Qed.

Lemma fecha_mal_formada_testigo :
  predecir_precio_fecha numpy_racional predictor_ejemplo "2024/01/15"
    reloj_ejemplo =
    Retorna
      (registro_error
         ("Formato de fecha inválido: "
          ++ mensaje (mk_excepcion ValueError
                        "time data does not match format '%Y-%m-%d'"))%string,
       reloj_ejemplo).
Proof.
  apply (fecha_mal_formada numpy_racional predictor_ejemplo "2024/01/15"
           reloj_ejemplo).
  - reflexivity.
  - reflexivity.
Defined.

(** X7: a [ValueError] raised by the input scaler on a well-formed date is
    reported under the same label as a malformed date, 'Formato de fecha
    inválido: ...'; only exceptions outside [ValueError] get the label
    'Error en la predicción: ...'. *)
Theorem error_del_escalador :
  forall (np : Numpy) (self : PredictorAguacate) (fecha : string)
         (reloj : Reloj) (fecha_obj : Fechas.fecha) (hist : list fila)
         (X : list celda) (sx : Escalador) (e : excepcion),
    modelo_cargado self = true ->
    strptime fecha = Retorna fecha_obj ->
    datos_historicos self = Some hist ->
    en_rango_Timestamp fecha_obj = true ->
    X_pred_de np self hist fecha_obj = Retorna X ->
    scaler_x self = Some sx ->
    transform sx X = Lanza e ->
    predecir_precio_fecha np self fecha reloj =
      Retorna
        (registro_error
           ((if es_subclase (clase e) ValueError
             then "Formato de fecha inválido: "
             else "Error en la predicción: ") ++ mensaje e)%string,
         reloj).
Proof.
  intros np self fecha reloj f hist X sx e Hc Hf Hh Hr HX Hsx He.
  apply predecir_precio_fecha_error; [exact Hc|].
  unfold precio_predicho_de.
  rewrite Hf, Hh. cbn [ligar de_opcion]. rewrite Hr. cbn [ligar].
  rewrite HX. cbn [ligar]. rewrite Hsx. cbn [ligar de_opcion].
  now rewrite He.
Qed.

Lemma error_del_escalador_testigo :
  predecir_precio_fecha numpy_racional predictor_rechaza "2024-07-01"
    reloj_ejemplo =
    Retorna
      (registro_error
         ((if es_subclase
                (clase (mk_excepcion ValueError
                          "X has 5 features, but MinMaxScaler is expecting 17 features as input"))
                ValueError
           then "Formato de fecha inválido: "
           else "Error en la predicción: ")
          ++ mensaje (mk_excepcion ValueError
                        "X has 5 features, but MinMaxScaler is expecting 17 features as input"))%string,
       reloj_ejemplo).
Proof.
  apply (error_del_escalador numpy_racional predictor_rechaza "2024-07-01"
           reloj_ejemplo (mk_fecha 2024 7 1) serie_ejemplo
           [CEntero 7; CEntero 183; CNum (Fin 65); CNum (Fin 65); CNum (Fin 65)]
           escalador_que_rechaza).
  - reflexivity.
  - reflexivity.
  - reflexivity.
  - reflexivity.
  - vm_compute. reflexivity.
  - reflexivity.
  - reflexivity.
Defined.

(** X8: [predecir_precio_fecha] reads the clock exactly once when it
    succeeds, and puts that reading and the date string it was given in the
    record; when it returns an error record the clock is not read. *)
Theorem prediccion_y_reloj :
  forall (np : Numpy) (self : PredictorAguacate) (fecha : string)
         (reloj reloj' : Reloj) (d : dict),
    predecir_precio_fecha np self fecha reloj = Retorna (d, reloj') ->
    (es_registro_error d = true /\ reloj' = reloj) \/
    (claves d = claves_prediccion /\
     lecturas reloj' = lecturas reloj /\
     pos reloj' = S (pos reloj) /\
     obtener d "fecha_prediccion" = Some (PStr (lecturas reloj (pos reloj))) /\
     obtener d "fecha" = Some (PStr fecha)).
Proof.
  intros np self fecha reloj reloj' d.
  unfold predecir_precio_fecha.
  destruct (modelo_cargado self); cbn [negb].
  - destruct (precio_predicho_de np self fecha) as [x|e]; cbn [ligar intentar].
    + intros [= <- <-]. right. repeat split.
    + rewrite despachar_todo.
      destruct (es_subclase (clase e) ValueError);
        intros [= <- <-]; left; split; reflexivity.
  - intros [= <- <-]. left; split; reflexivity.
Qed.

Lemma prediccion_y_reloj_testigo :
  (es_registro_error
     [ ("fecha", PStr "2024-01-15");
       ("precio", PFloat (Fin (34767 # 100)));
       ("moneda", PStr "MXN");
       ("unidad", PStr "kg");
       ("fecha_prediccion", PStr "2024-06-15 12:00");
       ("modelo_usado", PStr "SVM con kernel RBF") ]%string = true /\
   mk_reloj (lecturas reloj_ejemplo) 1 = reloj_ejemplo) \/
  (claves
     [ ("fecha", PStr "2024-01-15");
       ("precio", PFloat (Fin (34767 # 100)));
       ("moneda", PStr "MXN");
       ("unidad", PStr "kg");
       ("fecha_prediccion", PStr "2024-06-15 12:00");
       ("modelo_usado", PStr "SVM con kernel RBF") ]%string
     = claves_prediccion /\
   lecturas (mk_reloj (lecturas reloj_ejemplo) 1) = lecturas reloj_ejemplo /\
   pos (mk_reloj (lecturas reloj_ejemplo) 1) = S (pos reloj_ejemplo) /\
   obtener
     [ ("fecha", PStr "2024-01-15");
       ("precio", PFloat (Fin (34767 # 100)));
       ("moneda", PStr "MXN");
       ("unidad", PStr "kg");
       ("fecha_prediccion", PStr "2024-06-15 12:00");
       ("modelo_usado", PStr "SVM con kernel RBF") ]%string "fecha_prediccion"
     = Some (PStr (lecturas reloj_ejemplo (pos reloj_ejemplo))) /\
   obtener
     [ ("fecha", PStr "2024-01-15");
       ("precio", PFloat (Fin (34767 # 100)));
       ("moneda", PStr "MXN");
       ("unidad", PStr "kg");
       ("fecha_prediccion", PStr "2024-06-15 12:00");
       ("modelo_usado", PStr "SVM con kernel RBF") ]%string "fecha"
     = Some (PStr "2024-01-15")).
Proof.
  apply (prediccion_y_reloj numpy_racional predictor_ejemplo "2024-01-15"
           reloj_ejemplo).
  vm_compute. reflexivity.
Defined.

Section LoteReloj.

Variable np : Numpy.

Lemma bucle_fechas_acumulador (self : PredictorAguacate) (fechas : list string) :
  forall (res0 res : list dict) (reloj : Reloj),
    bucle_fechas np self fechas (res0 ++ res) reloj =
      (r <- bucle_fechas np self fechas res reloj ;;
       Retorna (res0 ++ fst r, snd r)).
Proof.
  induction fechas as [|f fechas IH]; intros res0 res reloj; simpl.
  - reflexivity.
  - destruct (predecir_precio_fecha np self f reloj) as [[d r1]|e]; simpl.
    + rewrite <- app_assoc. apply IH.
    + reflexivity.
Qed.

Lemma bucle_fechas_app (self : PredictorAguacate) (a b : list string) :
  forall (res : list dict) (reloj : Reloj),
    bucle_fechas np self (a ++ b) res reloj =
      (r <- bucle_fechas np self a res reloj ;;
       bucle_fechas np self b (fst r) (snd r)).
Proof.
  induction a as [|f a IH]; intros res reloj; simpl.
  - reflexivity.
  - destruct (predecir_precio_fecha np self f reloj) as [[d r1]|e]; simpl.
    + apply IH.
    + reflexivity.
Qed.

Lemma exitos_app (a b : list dict) : exitos (a ++ b) = (exitos a + exitos b)%nat.
Proof. unfold exitos. now rewrite filter_app, length_app. Qed.

(** A call reads the clock once when its record is a prediction, and not at
    all when it is an error record. *)
Lemma predecir_precio_fecha_lee_reloj (self : PredictorAguacate)
    (fecha : string) (reloj reloj' : Reloj) (d : dict) :
  predecir_precio_fecha np self fecha reloj = Retorna (d, reloj') ->
  (es_registro_error d = true /\ reloj' = reloj) \/
  (es_registro_error d = false /\
   lecturas reloj' = lecturas reloj /\ pos reloj' = S (pos reloj)).
Proof.
  unfold predecir_precio_fecha.
  destruct (modelo_cargado self); cbn [negb].
  - destruct (precio_predicho_de np self fecha) as [x|e]; cbn [ligar intentar].
    + intros [= <- <-]. right. repeat split.
    + rewrite despachar_todo.
      destruct (es_subclase (clase e) ValueError);
        intros [= <- <-]; left; split; reflexivity.
  - intros [= <- <-]. left; split; reflexivity.
Qed.

Lemma bucle_fechas_reloj (self : PredictorAguacate) (fechas : list string) :
  forall (res ds : list dict) (reloj reloj' : Reloj),
    bucle_fechas np self fechas res reloj = Retorna (ds, reloj') ->
    lecturas reloj' = lecturas reloj /\
    (pos reloj' + exitos res = pos reloj + exitos ds)%nat.
Proof.
  induction fechas as [|f fechas IH]; intros res ds reloj reloj'; simpl.
  - intros [= <- <-]. split; reflexivity.
  - destruct (predecir_precio_fecha np self f reloj) as [[d r1]|e] eqn:E;
      simpl; [|discriminate].
    intros H. destruct (IH _ _ _ _ H) as [L P].
    rewrite exitos_app in P.
    destruct (predecir_precio_fecha_lee_reloj self f reloj r1 d E)
      as [[He ->]|(He & L1 & P1)].
    + split; [exact L|]. unfold exitos at 2 in P. simpl in P.
      rewrite He in P. simpl in P. lia.
    + split; [congruence|].
      unfold exitos at 2 in P. simpl in P. rewrite He in P. simpl in P. lia.
Qed.

End LoteReloj.

(** X9: after [predecir_multiples_fechas] the clock has been read once per
    successful prediction of the batch, and never for a failed one. *)
Theorem lote_lecturas_del_reloj :
  forall (np : Numpy) (self : PredictorAguacate) (fechas : list string)
         (reloj reloj' : Reloj) (ds : list dict),
    predecir_multiples_fechas np self fechas reloj = Retorna (ds, reloj') ->
    lecturas reloj' = lecturas reloj /\
    pos reloj' = (pos reloj + exitos ds)%nat.
Proof.
  intros np self fechas reloj reloj' ds H.
  destruct (bucle_fechas_reloj np self fechas [] ds reloj reloj' H) as [L P].
  split; [exact L|]. unfold exitos at 1 in P. simpl in P. lia.
Qed.

Lemma lote_lecturas_del_reloj_testigo :
  lecturas (mk_reloj (lecturas reloj_ejemplo) 2) = lecturas reloj_ejemplo /\
  pos (mk_reloj (lecturas reloj_ejemplo) 2) =
    (pos reloj_ejemplo
     + exitos
         [ [ ("fecha", PStr "2024-07-01");
             ("precio", PFloat (Fin 385));
             ("moneda", PStr "MXN");
             ("unidad", PStr "kg");
             ("fecha_prediccion", PStr "2024-06-15 12:00");
             ("modelo_usado", PStr "SVM con kernel RBF") ];
           registro_error
             "Formato de fecha inválido: day is out of range for month";
           [ ("fecha", PStr "2024-01-15");
             ("precio", PFloat (Fin (34767 # 100)));
             ("moneda", PStr "MXN");
             ("unidad", PStr "kg");
             ("fecha_prediccion", PStr "2024-06-15 12:00");
             ("modelo_usado", PStr "SVM con kernel RBF") ] ]%string)%nat.
Proof.
  apply (lote_lecturas_del_reloj numpy_racional predictor_ejemplo
           ["2024-07-01"; "2024-02-30"; "2024-01-15"]%string reloj_ejemplo).
  vm_compute. reflexivity.
Defined.

(** X10: a batch over two lists of dates, one after the other, is the batch
    over the first list followed by the batch over the second, started with
    the clock the first one left. *)
Theorem lote_concatenado :
  forall (np : Numpy) (self : PredictorAguacate) (a b : list string)
         (reloj : Reloj),
    predecir_multiples_fechas np self (a ++ b) reloj =
      (r1 <- predecir_multiples_fechas np self a reloj ;;
       r2 <- predecir_multiples_fechas np self b (snd r1) ;;
       Retorna (fst r1 ++ fst r2, snd r2)).
Proof.
  intros np self a b reloj. unfold predecir_multiples_fechas.
  rewrite bucle_fechas_app.
  destruct (bucle_fechas np self a [] reloj) as [[ds1 r1]|e]; simpl;
    [|reflexivity].
  rewrite <- (app_nil_r ds1) at 1.
  apply bucle_fechas_acumulador.
Qed.

(** ** The trend window *)

Section VentanaTendencia.

Lemma leb_antisimetrica (a b : fecha) :
  Fechas.leb a b = true -> Fechas.leb b a = true -> a = b.
Proof.
  destruct a as [ya ma da], b as [yb mb db].
  unfold Fechas.leb, comparar; simpl.
  destruct (Z.compare_spec ya yb), (Z.compare_spec yb ya);
    try lia; try discriminate;
  destruct (Z.compare_spec ma mb), (Z.compare_spec mb ma);
    try lia; try discriminate;
  destruct (Z.compare_spec da db), (Z.compare_spec db da);
    try lia; try discriminate.
  intros _ _. congruence.
Qed.

Lemma maximo_desde_cota (l : list fecha) :
  forall m,
    Fechas.leb m (maximo_desde m l) = true /\
    forall x, In x l -> Fechas.leb x (maximo_desde m l) = true.
Proof.
  induction l as [|f l IH]; intros m; simpl.
  - split; [apply leb_refl|intros x []].
  - destruct (IH (if Fechas.leb m f then f else m)) as [A B].
    destruct (Fechas.leb m f) eqn:E.
    + split; [now apply leb_trans with (b := f)|].
      intros x [<-|Hx]; auto.
    + split; [exact A|].
      intros x [<-|Hx]; auto.
      apply leb_trans with (b := m); [now apply leb_total|exact A].
Qed.

Lemma maximo_cota (l : list fecha) (fmax : fecha) :
  maximo l = Some fmax -> forall x, In x l -> Fechas.leb x fmax = true.
Proof.
  destruct l as [|f l]; [discriminate|]. simpl. intros [= <-].
  destruct (maximo_desde_cota l f) as [A B].
  intros x [<-|Hx]; auto.
Qed.

(** Going further back never gives a later limit. *)
Lemma restar_meses_monotona (f l l' : fecha) (m m' : Z) :
  restar_meses f m = Some l -> restar_meses f m' = Some l' ->
  m <= m' -> Fechas.leb l' l = true.
Proof.
  unfold restar_meses.
  set (idx := indice_mes f - m). set (idx' := indice_mes f - m').
  destruct (en_rango_Timestamp _); [|discriminate].
  destruct (en_rango_Timestamp _); [|discriminate].
  intros [= <-] [= <-] Hm.
  assert (Hi : idx' <= idx) by (subst idx idx'; lia).
  pose proof (Z.div_mod idx 12 ltac:(lia)).
  pose proof (Z.mod_pos_bound idx 12 ltac:(lia)).
  pose proof (Z.div_mod idx' 12 ltac:(lia)).
  pose proof (Z.mod_pos_bound idx' 12 ltac:(lia)).
  destruct (Z.eq_dec idx' idx) as [E|N].
  - rewrite E. apply leb_refl.
  - unfold Fechas.leb, comparar; simpl.
    destruct (Z.compare_spec (idx' / 12) (idx / 12)); try reflexivity; [|lia].
    destruct (Z.compare_spec (idx' mod 12 + 1) (idx mod 12 + 1));
      try reflexivity; lia.
Qed.

Lemma filter_incl_longitud {A : Type} (p q : A -> bool) (l : list A) :
  (forall x, p x = true -> q x = true) ->
  incl (filter p l) (filter q l) /\
  (List.length (filter p l) <= List.length (filter q l))%nat.
Proof.
  intros H. split.
  - intros x Hx. apply filter_In in Hx. apply filter_In.
    split; [tauto|]. apply H; tauto.
  - induction l as [|a l IH]; simpl; [lia|].
    destruct (p a) eqn:P.
    + rewrite (H a P). simpl. lia.
    + destruct (q a); simpl; lia.
Qed.

Lemma ultimo_filter {A : Type} (p : A -> bool) (l : list A) (u : A) :
  ultimo l = Some u -> p u = true -> ultimo (filter p l) = Some u.
Proof.
  induction l as [|a l IH]; [discriminate|].
  destruct l as [|b l].
  - simpl. intros [= ->] ->. reflexivity.
  - intros Hu Hp. specialize (IH Hu Hp).
    change (filter p (a :: b :: l))
      with (if p a then a :: filter p (b :: l) else filter p (b :: l)).
    destruct (p a); [|exact IH].
    now apply ultimo_cons.
Qed.

End VentanaTendencia.

(** X11: a longer look-back never drops a row: the window of
    [obtener_tendencia_historica] for [m] months is contained in the window
    for any [m' >= m] months. *)
Theorem ventana_crece_con_los_meses :
  forall (hist v v' : list fila) (m m' : Z),
    datos_recientes_de hist m = Retorna v ->
    datos_recientes_de hist m' = Retorna v' ->
    m <= m' ->
    incl v v' /\ (List.length v <= List.length v')%nat.
Proof.
  intros hist v v' m m'. unfold datos_recientes_de.
  destruct (maximo (map Fecha_Pub_DOF hist)) as [fmax|].
  - destruct (restar_meses fmax m) as [l|] eqn:L; [|discriminate].
    destruct (restar_meses fmax m') as [l'|] eqn:L'; [|discriminate].
    cbn [de_opcion ligar]. intros [= <-] [= <-] Hm.
    apply filter_incl_longitud. intros x Hx.
    apply leb_trans with (b := l); [|exact Hx].
    now apply (restar_meses_monotona fmax l l' m m').
  - intros [= <-] [= <-] _. split; [apply incl_refl|reflexivity].
Qed.

Lemma ventana_crece_con_los_meses_testigo :
  incl (skipn 2 serie_ejemplo) serie_ejemplo /\
  (List.length (skipn 2 serie_ejemplo) <= List.length serie_ejemplo)%nat.
Proof.
  apply (ventana_crece_con_los_meses serie_ejemplo (skipn 2 serie_ejemplo)
           serie_ejemplo 3 12).
  - reflexivity.
  - reflexivity.
  - lia.
Defined.

(** X12: for a predictor built by [__init__], a month count that is not
    negative and a representable limit, the 'precio_final' of the trend is
    the price of the last row of the historical frame, rounded to two
    decimals, whatever the month count. *)
Theorem precio_final_es_el_ultimo :
  forall (np : Numpy) (d : DirectorioModelos) (ruta_datos : string)
         (csv : archivo (list fila)) (hist : list fila) (u : fila)
         (ultimos_meses : Z) (limite : fecha),
    let self := __init__ d ruta_datos csv in
    datos_historicos self = Some hist ->
    ultimo hist = Some u ->
    fecha_valida (Fecha_Pub_DOF u) = true ->
    0 <= ultimos_meses ->
    restar_meses (Fecha_Pub_DOF u) ultimos_meses = Some limite ->
    exists r,
      obtener_tendencia_historica np self ultimos_meses = Retorna r /\
      obtener r "precio_final" = Some (PFloat (round2 (Precio_promedio u))).
Proof.
  intros np d ruta csv hist u m limite self Hh Hu Hv Hm Hl.
  destruct (cargar_datos_historicos_ordena ruta csv hist
              (__init__datos d ruta csv hist Hh)) as (rows & _ & Hs).
  assert (C : cota_superior u hist).
  { subst hist. now apply sort_values_ultimo. }
  destruct (maximo (map Fecha_Pub_DOF hist)) as [fmax|] eqn:M.
  2:{ destruct hist; [discriminate|discriminate]. }
  assert (E : fmax = Fecha_Pub_DOF u).
  { apply leb_antisimetrica.
    - destruct (proj1 (in_map_iff _ _ _) (maximo_In _ _ M)) as (x & <- & Hx).
      now apply C.
    - apply (maximo_cota _ _ M). apply in_map. now apply ultimo_In. }
  subst fmax.
  set (p := fun r => Fechas.leb limite (Fecha_Pub_DOF r)).
  assert (Hv' : datos_recientes_de hist m = Retorna (filter p hist)).
  { unfold datos_recientes_de. rewrite M, Hl. reflexivity. }
  assert (Hp : p u = true).
  { unfold p. now apply (restar_meses_anterior _ _ m). }
  assert (Hf : ultimo (filter p hist) = Some u) by now apply ultimo_filter.
  assert (Hne : filter p hist <> []).
  { intros N. rewrite N in Hf. discriminate. }
  rewrite (tendencia_con_ventana np self hist _ m Hh Hv' Hne).
  destruct (resumen_tendencia_exito np m (map Precio_promedio (filter p hist)))
    as (i & f & _ & Hfin & R).
  { intros N. apply map_eq_nil in N. contradiction. }
  rewrite R. eexists. split; [reflexivity|].
  unfold iloc_ultimo in Hfin. rewrite ultimo_map, Hf in Hfin.
  simpl in Hfin. injection Hfin as <-. reflexivity.
Qed.

Lemma precio_final_es_el_ultimo_testigo :
  exists r,
    obtener_tendencia_historica numpy_racional predictor_ejemplo 12 = Retorna r /\
    obtener r "precio_final" =
      Some (PFloat (round2 (Precio_promedio
                              (mk_fila (mk_fecha 2024 6 1) (Fin 65))))).
Proof.
  apply (precio_final_es_el_ultimo numpy_racional directorio_ejemplo
           "data/aguacate.csv" (Contiene serie_ejemplo) serie_ejemplo
           (mk_fila (mk_fecha 2024 6 1) (Fin 65)) 12 (mk_fecha 2023 6 1)).
  - reflexivity.
  - reflexivity.
  - reflexivity.
  - lia.
  - reflexivity.
Defined.

(** X13: when the first or the last price of the window is missing, the
    trend is still a success record: its percentage change is missing and
    its direction is 'Estable'. *)
Theorem tendencia_con_precio_faltante :
  forall (np : Numpy) (self : PredictorAguacate) (hist ventana : list fila)
         (ultimos_meses : Z) (inicial final : num),
    datos_historicos self = Some hist ->
    datos_recientes_de hist ultimos_meses = Retorna ventana ->
    iloc_primero (map Precio_promedio ventana) = Retorna inicial ->
    iloc_ultimo (map Precio_promedio ventana) = Retorna final ->
    inicial = NaN \/ final = NaN ->
    exists r,
      obtener_tendencia_historica np self ultimos_meses = Retorna r /\
      claves r = claves_tendencia /\
      obtener r "cambio_porcentual" = Some (PFloat NaN) /\
      obtener r "direccion_tendencia" = Some (PStr "Estable").
Proof.
  intros np self hist v m i f Hh Hv Hi Hf Hnan.
  assert (Hne : v <> []) by (intros ->; discriminate).
  rewrite (tendencia_con_ventana np self hist v m Hh Hv Hne).
  destruct (resumen_tendencia_exito np m (map Precio_promedio v))
    as (i' & f' & Hi' & Hf' & R).
  { intros N. apply map_eq_nil in N. contradiction. }
  rewrite Hi in Hi'. rewrite Hf in Hf'.
  injection Hi' as <-. injection Hf' as <-.
  rewrite R. eexists. split; [reflexivity|]. split; [reflexivity|].
  assert (P : cambio_porcentual_de i f = NaN).
  { unfold cambio_porcentual_de.
    destruct Hnan as [-> | ->]; [destruct f as [|s|q]|destruct i as [|s|q]];
      reflexivity. }
  cbn [obtener String.eqb Ascii.eqb Bool.eqb]. rewrite P.
  split; reflexivity.
Qed.

Lemma tendencia_con_precio_faltante_testigo :
  exists r,
    obtener_tendencia_historica numpy_racional
      (solo_datos [mk_fila (mk_fecha 2024 5 1) NaN;
                   mk_fila (mk_fecha 2024 6 1) (Fin 65)]) 3 = Retorna r /\
    claves r = claves_tendencia /\
    obtener r "cambio_porcentual" = Some (PFloat NaN) /\
    obtener r "direccion_tendencia" = Some (PStr "Estable").
Proof.
  apply (tendencia_con_precio_faltante numpy_racional
           (solo_datos [mk_fila (mk_fecha 2024 5 1) NaN;
                        mk_fila (mk_fecha 2024 6 1) (Fin 65)])
           [mk_fila (mk_fecha 2024 5 1) NaN;
            mk_fila (mk_fecha 2024 6 1) (Fin 65)]
           [mk_fila (mk_fecha 2024 5 1) NaN;
            mk_fila (mk_fecha 2024 6 1) (Fin 65)]
           3 NaN (Fin 65)).
  - reflexivity.
  - reflexivity.
  - reflexivity.
  - reflexivity.
  - left; reflexivity.
Defined.

(** X14: a first price of zero raises nothing.  With a last price that is
    not zero the division gives an infinite percentage change, and the
    direction is 'Alcista' when it is the positive infinity and 'Bajista'
    when it is the negative one, never 'Estable'; with a last price of zero
    as well the change is missing and the direction 'Estable'. *)
Theorem tendencia_con_precio_inicial_cero :
  forall (np : Numpy) (self : PredictorAguacate) (hist ventana : list fila)
         (ultimos_meses : Z) (q0 q : Q),
    datos_historicos self = Some hist ->
    datos_recientes_de hist ultimos_meses = Retorna ventana ->
    iloc_primero (map Precio_promedio ventana) = Retorna (Fin q0) ->
    iloc_ultimo (map Precio_promedio ventana) = Retorna (Fin q) ->
    (q0 == 0)%Q ->
    exists r,
      obtener_tendencia_historica np self ultimos_meses = Retorna r /\
      claves r = claves_tendencia /\
      (~ (q == 0)%Q ->
         exists negativo : bool,
           obtener r "cambio_porcentual" = Some (PFloat (Inf negativo)) /\
           obtener r "direccion_tendencia" =
             Some (PStr (if negativo then "Bajista" else "Alcista"))) /\
      ((q == 0)%Q ->
         obtener r "cambio_porcentual" = Some (PFloat NaN) /\
         obtener r "direccion_tendencia" = Some (PStr "Estable")).
Proof.
  intros np self hist v m q0 q Hh Hv Hi Hf Hz.
  assert (Hne : v <> []) by (intros ->; discriminate).
  rewrite (tendencia_con_ventana np self hist v m Hh Hv Hne).
  destruct (resumen_tendencia_exito np m (map Precio_promedio v))
    as (i' & f' & Hi' & Hf' & R).
  { intros N. apply map_eq_nil in N. contradiction. }
  rewrite Hi in Hi'. rewrite Hf in Hf'.
  injection Hi' as <-. injection Hf' as <-.
  rewrite R. eexists. split; [reflexivity|]. split; [reflexivity|].
  cbn [obtener String.eqb Ascii.eqb Bool.eqb].
  assert (Z0 : Qeqb q0 0 = true) by (apply Qeq_bool_iff; exact Hz).
  assert (HS : (Qred (q - q0) == q)%Q) by (rewrite Qred_correct; lra).
  split.
  - intros Hq. exists (Qltb (Qred (q - q0)) 0).
    assert (Hn : Qeqb (Qred (q - q0)) 0 = false).
    { apply not_true_iff_false. intros E. apply Qeq_bool_iff in E.
      rewrite HS in E. contradiction. }
    assert (D : cambio_porcentual_de (Fin q0) (Fin q)
                = Inf (Qltb (Qred (q - q0)) 0)).
    { unfold cambio_porcentual_de, resta, div. rewrite Z0, Hn.
      unfold mult. simpl. now rewrite xorb_false_r. }
    rewrite D. destruct (Qltb (Qred (q - q0)) 0); split; reflexivity.
  - intros Hq.
    assert (Z1 : Qeqb (Qred (q - q0)) 0 = true).
    { apply Qeq_bool_iff. rewrite HS. exact Hq. }
    assert (D : cambio_porcentual_de (Fin q0) (Fin q) = NaN).
    { unfold cambio_porcentual_de, resta, div. now rewrite Z0, Z1. }
    rewrite D. split; reflexivity.
Qed.

Lemma tendencia_con_precio_inicial_cero_testigo :
  exists r,
    obtener_tendencia_historica numpy_racional
      (solo_datos [mk_fila (mk_fecha 2024 5 1) (Fin 0);
                   mk_fila (mk_fecha 2024 6 1) (Fin 65)]) 3 = Retorna r /\
    claves r = claves_tendencia /\
    (~ (65 == 0)%Q ->
       exists negativo : bool,
         obtener r "cambio_porcentual" = Some (PFloat (Inf negativo)) /\
         obtener r "direccion_tendencia" =
           Some (PStr (if negativo then "Bajista" else "Alcista"))) /\
    ((65 == 0)%Q ->
       obtener r "cambio_porcentual" = Some (PFloat NaN) /\
       obtener r "direccion_tendencia" = Some (PStr "Estable")).
Proof.
  apply (tendencia_con_precio_inicial_cero numpy_racional
           (solo_datos [mk_fila (mk_fecha 2024 5 1) (Fin 0);
                        mk_fila (mk_fecha 2024 6 1) (Fin 65)])
           [mk_fila (mk_fecha 2024 5 1) (Fin 0);
            mk_fila (mk_fecha 2024 6 1) (Fin 65)]
           [mk_fila (mk_fecha 2024 5 1) (Fin 0);
            mk_fila (mk_fecha 2024 6 1) (Fin 65)]
           3 0%Q 65%Q).
  - reflexivity.
  - reflexivity.
  - reflexivity.
  - reflexivity.
  - reflexivity.
Defined.

(** ** The feature frame *)

Section MarcoCaracteristicas.

Variable np : Numpy.

Lemma crear_caracteristicas_longitud (df : list fila) :
  List.length (crear_caracteristicas_temporales np df) = List.length df.
Proof.
  unfold crear_caracteristicas_temporales.
  rewrite length_map, length_combine, length_seq. apply Nat.min_id.
Qed.

Lemma dias_antes_de_mes_cota (y m : Z) :
  1 <= m <= 12 -> 0 <= dias_antes_de_mes y m /\
  dias_antes_de_mes y m + dias_en_mes y m <= 366.
Proof.
  intros H.
  assert (C : m = 1 \/ m = 2 \/ m = 3 \/ m = 4 \/ m = 5 \/ m = 6 \/ m = 7 \/
              m = 8 \/ m = 9 \/ m = 10 \/ m = 11 \/ m = 12) by lia.
  unfold dias_antes_de_mes, dias_en_mes.
  repeat (destruct C as [->|C];
          [destruct (bisiesto y); vm_compute; split; discriminate|]).
  subst. destruct (bisiesto y); vm_compute; split; discriminate.
Qed.

(** The two sides of a window agree when the series agree up to its last
    position. *)
Lemma ventana_prefijo (w : nat) (xs ys : list num) (i : nat) :
  firstn (S i) xs = firstn (S i) ys -> ventana w xs i = ventana w ys i.
Proof.
  intros H. unfold ventana.
  destruct (Nat.ltb_spec (i + 1) w); [reflexivity|].
  assert (E : firstn w (skipn (i + 1 - w) (preparar xs)) =
              firstn w (skipn (i + 1 - w) (preparar ys))).
  { rewrite !firstn_skipn_comm.
    replace (i + 1 - w + w)%nat with (S i) by lia.
    unfold preparar. now rewrite !firstn_map, H. }
  now rewrite E.
Qed.

Lemma nth_por_nth_error {A : Type} (l : list A) (j : nat) (d : A) :
  nth j l d = match nth_error l j with Some x => x | None => d end.
Proof.
  revert j. induction l as [|x l IH]; intros [|j]; simpl; auto.
Qed.

Lemma nth_prefijo {A : Type} (xs ys : list A) (i j : nat) (d : A) :
  firstn (S i) xs = firstn (S i) ys -> (j <= i)%nat -> nth j xs d = nth j ys d.
Proof.
  intros H Hj.
  assert (E : nth_error xs j = nth_error ys j).
  { pose proof (nth_error_firstn (S i) xs j) as X.
    pose proof (nth_error_firstn (S i) ys j) as Y.
    destruct (Nat.ltb_spec j (S i)); [|lia]. congruence. }
  now rewrite !nth_por_nth_error, E.
Qed.

End MarcoCaracteristicas.

(** X16: the first rows of the feature frame have no history to look at:
    [precio_lag1] and [precio_diff1] are missing at row 0, [precio_lag2],
    [precio_diff2], [precio_ma3] and [precio_std3] at rows 0 and 1,
    [precio_lag3] at rows 0 to 2, and [precio_ma6] at rows 0 to 4. *)
Theorem caracteristicas_sin_historia :
  forall (np : Numpy) (df : list fila) (i : nat) (r : FilaCaracteristicas),
    nth_error (crear_caracteristicas_temporales np df) i = Some r ->
    ((i < 1)%nat -> precio_lag1 r = NaN /\ precio_diff1 r = NaN) /\
    ((i < 2)%nat ->
       precio_lag2 r = NaN /\ precio_diff2 r = NaN /\
       precio_ma3 r = NaN /\ precio_std3 r = NaN) /\
    ((i < 3)%nat -> precio_lag3 r = NaN) /\
    ((i < 5)%nat -> precio_ma6 r = NaN).
Proof.
  intros np df i r Hr.
  destruct (fila_de_caracteristicas np df i r Hr) as (f & Hf & ->).
  simpl.
  assert (S : forall k xs, (i < k)%nat -> shift k xs i = NaN).
  { intros k xs H. unfold shift. destruct (Nat.ltb_spec i k); [reflexivity|lia]. }
  assert (D : forall k xs, (i < k)%nat -> diff k xs i = NaN).
  { intros k xs H. unfold diff. rewrite (S k xs H).
    destruct (nth i xs NaN); reflexivity. }
  assert (V : forall w xs, (i + 1 < w)%nat -> ventana w xs i = None).
  { intros w xs H. unfold ventana.
    destruct (Nat.ltb_spec (i + 1) w); [reflexivity|lia]. }
  repeat split; intros;
    try (apply S; lia); try (apply D; lia);
    unfold rolling_mean, rolling_std; rewrite V by lia; reflexivity.
Qed.

Lemma caracteristicas_sin_historia_testigo :
  ((1 < 1)%nat ->
     precio_lag1 (caracteristicas_de_fila numpy_racional
                    (minimo (map Fecha_Pub_DOF serie_ejemplo))
                    (map Precio_promedio serie_ejemplo) 1
                    (mk_fila (mk_fecha 2024 2 1) (Fin 55))) = NaN /\
     precio_diff1 (caracteristicas_de_fila numpy_racional
                     (minimo (map Fecha_Pub_DOF serie_ejemplo))
                     (map Precio_promedio serie_ejemplo) 1
                     (mk_fila (mk_fecha 2024 2 1) (Fin 55))) = NaN) /\
  ((1 < 2)%nat ->
     precio_lag2 (caracteristicas_de_fila numpy_racional
                    (minimo (map Fecha_Pub_DOF serie_ejemplo))
                    (map Precio_promedio serie_ejemplo) 1
                    (mk_fila (mk_fecha 2024 2 1) (Fin 55))) = NaN /\
     precio_diff2 (caracteristicas_de_fila numpy_racional
                     (minimo (map Fecha_Pub_DOF serie_ejemplo))
                     (map Precio_promedio serie_ejemplo) 1
                     (mk_fila (mk_fecha 2024 2 1) (Fin 55))) = NaN /\
     precio_ma3 (caracteristicas_de_fila numpy_racional
                   (minimo (map Fecha_Pub_DOF serie_ejemplo))
                   (map Precio_promedio serie_ejemplo) 1
                   (mk_fila (mk_fecha 2024 2 1) (Fin 55))) = NaN /\
     precio_std3 (caracteristicas_de_fila numpy_racional
                    (minimo (map Fecha_Pub_DOF serie_ejemplo))
                    (map Precio_promedio serie_ejemplo) 1
                    (mk_fila (mk_fecha 2024 2 1) (Fin 55))) = NaN) /\
  ((1 < 3)%nat ->
     precio_lag3 (caracteristicas_de_fila numpy_racional
                    (minimo (map Fecha_Pub_DOF serie_ejemplo))
                    (map Precio_promedio serie_ejemplo) 1
                    (mk_fila (mk_fecha 2024 2 1) (Fin 55))) = NaN) /\
  ((1 < 5)%nat ->
     precio_ma6 (caracteristicas_de_fila numpy_racional
                   (minimo (map Fecha_Pub_DOF serie_ejemplo))
                   (map Precio_promedio serie_ejemplo) 1
                   (mk_fila (mk_fecha 2024 2 1) (Fin 55))) = NaN).
Proof.
  apply (caracteristicas_sin_historia numpy_racional serie_ejemplo 1).
  reflexivity.
Defined.

(** X17: the price features are causal: if two series have the same rows up
    to position [i], then row [i] of their feature frames has the same
    lags, moving averages, moving deviation and differences (and the same
    date, price and calendar features), whatever follows in either
    series. *)
Theorem caracteristicas_causales :
  forall (np : Numpy) (df1 df2 : list fila) (i : nat)
         (r1 r2 : FilaCaracteristicas),
    firstn (S i) df1 = firstn (S i) df2 ->
    nth_error (crear_caracteristicas_temporales np df1) i = Some r1 ->
    nth_error (crear_caracteristicas_temporales np df2) i = Some r2 ->
    fc_fecha r1 = fc_fecha r2 /\ fc_precio r1 = fc_precio r2 /\
    year r1 = year r2 /\ month r1 = month r2 /\
    day_of_year r1 = day_of_year r2 /\ quarter_ r1 = quarter_ r2 /\
    month_sin r1 = month_sin r2 /\ month_cos r1 = month_cos r2 /\
    day_sin r1 = day_sin r2 /\ day_cos r1 = day_cos r2 /\
    precio_lag1 r1 = precio_lag1 r2 /\ precio_lag2 r1 = precio_lag2 r2 /\
    precio_lag3 r1 = precio_lag3 r2 /\
    precio_ma3 r1 = precio_ma3 r2 /\ precio_ma6 r1 = precio_ma6 r2 /\
    precio_std3 r1 = precio_std3 r2 /\
    precio_diff1 r1 = precio_diff1 r2 /\ precio_diff2 r1 = precio_diff2 r2.
Proof.
  intros np df1 df2 i r1 r2 H H1 H2.
  destruct (fila_de_caracteristicas np df1 i r1 H1) as (f1 & Hf1 & ->).
  destruct (fila_de_caracteristicas np df2 i r2 H2) as (f2 & Hf2 & ->).
  assert (Ef : f1 = f2).
  { pose proof (nth_error_firstn (S i) df1 i) as X.
    pose proof (nth_error_firstn (S i) df2 i) as Y.
    destruct (Nat.ltb_spec i (S i)); [|lia]. congruence. }
  subst f2.
  set (xs := map Precio_promedio df1). set (ys := map Precio_promedio df2).
  assert (P : firstn (S i) xs = firstn (S i) ys).
  { subst xs ys. now rewrite !firstn_map, H. }
  assert (N : forall j, (j <= i)%nat -> nth j xs NaN = nth j ys NaN).
  { intros j Hj. now apply (nth_prefijo xs ys i j). }
  assert (S : forall k, shift k xs i = shift k ys i).
  { intros k. unfold shift. destruct (Nat.ltb_spec i k); [reflexivity|].
    apply N. lia. }
  assert (D : forall k, diff k xs i = diff k ys i).
  { intros k. unfold diff. now rewrite S, (N i (le_n i)). }
  assert (V : forall w, ventana w xs i = ventana w ys i).
  { intros w. now apply ventana_prefijo. }
  simpl. unfold rolling_mean, rolling_std. rewrite !V, !S, !D.
  repeat split.
Qed.

Lemma caracteristicas_causales_testigo :
  fc_fecha fila_ejemplo_completa = fc_fecha fila_ejemplo_prefijo /\
  fc_precio fila_ejemplo_completa = fc_precio fila_ejemplo_prefijo /\
  year fila_ejemplo_completa = year fila_ejemplo_prefijo /\
  month fila_ejemplo_completa = month fila_ejemplo_prefijo /\
  day_of_year fila_ejemplo_completa = day_of_year fila_ejemplo_prefijo /\
  quarter_ fila_ejemplo_completa = quarter_ fila_ejemplo_prefijo /\
  month_sin fila_ejemplo_completa = month_sin fila_ejemplo_prefijo /\
  month_cos fila_ejemplo_completa = month_cos fila_ejemplo_prefijo /\
  day_sin fila_ejemplo_completa = day_sin fila_ejemplo_prefijo /\
  day_cos fila_ejemplo_completa = day_cos fila_ejemplo_prefijo /\
  precio_lag1 fila_ejemplo_completa = precio_lag1 fila_ejemplo_prefijo /\
  precio_lag2 fila_ejemplo_completa = precio_lag2 fila_ejemplo_prefijo /\
  precio_lag3 fila_ejemplo_completa = precio_lag3 fila_ejemplo_prefijo /\
  precio_ma3 fila_ejemplo_completa = precio_ma3 fila_ejemplo_prefijo /\
  precio_ma6 fila_ejemplo_completa = precio_ma6 fila_ejemplo_prefijo /\
  precio_std3 fila_ejemplo_completa = precio_std3 fila_ejemplo_prefijo /\
  precio_diff1 fila_ejemplo_completa = precio_diff1 fila_ejemplo_prefijo /\
  precio_diff2 fila_ejemplo_completa = precio_diff2 fila_ejemplo_prefijo.
Proof.
  apply (caracteristicas_causales numpy_racional serie_ejemplo
           (firstn 4 serie_ejemplo) 3).
  - reflexivity.
  - reflexivity.
  - reflexivity.
Defined.

(** ** Missing prices in the windows *)

Section Faltantes.

Variable np : Numpy.

(** A window that covers a position whose price is missing or infinite has
    no statistic. *)
Lemma ventana_con_faltante (w : nat) (xs : list num) (i j : nat) (x : num) :
  nth_error xs j = Some x -> es_finito x = false ->
  (j <= i)%nat -> (i < j + w)%nat ->
  ventana w xs i = None.
Proof.
  intros Hx Hnf Hji Hiw. unfold ventana.
  destruct (Nat.ltb_spec (i + 1) w); [reflexivity|].
  set (k := (i + 1 - w)%nat).
  assert (E : nth_error (firstn w (skipn k (preparar xs))) (j - k) = Some NaN).
  { rewrite nth_error_firstn.
    destruct (Nat.ltb_spec (j - k) w); [|lia].
    rewrite nth_error_skipn. replace (k + (j - k))%nat with j by lia.
    unfold preparar. rewrite nth_error_map, Hx. simpl.
    destruct x; try reflexivity; discriminate. }
  assert (X : existsb es_nan (firstn w (skipn k (preparar xs))) = true).
  { apply existsb_exists. exists NaN. split; [|reflexivity].
    eapply nth_error_In. exact E. }
  now rewrite X.
Qed.

Lemma insertar_al_final (h x : fila) (l : list fila) :
  Fechas.leb (Fecha_Pub_DOF h) (Fecha_Pub_DOF x) = true ->
  insertar h (l ++ [x]) = insertar h l ++ [x].
Proof.
  intros H. induction l as [|y l IH]; simpl.
  - now rewrite H.
  - destruct (Fechas.leb (Fecha_Pub_DOF h) (Fecha_Pub_DOF y)); [reflexivity|].
    now rewrite IH.
Qed.

(** A row dated on or after all the others goes last, and the rest is
    sorted as without it. *)
Lemma sort_values_con_fila_final (hist : list fila) (x : fila) :
  cota_superior x hist ->
  sort_values (hist ++ [x]) = sort_values hist ++ [x].
Proof.
  induction hist as [|h hist IH]; intros C; [reflexivity|].
  simpl. rewrite IH.
  - apply insertar_al_final. apply C. now left.
  - intros y Hy. apply C. now right.
Qed.

Lemma ultimo_app_uno {A : Type} (l : list A) (x : A) : ultimo (l ++ [x]) = Some x.
Proof.
  induction l as [|a l IH]; [reflexivity|].
  simpl app. destruct (l ++ [x]) eqn:E.
  - destruct l; discriminate.
  - exact IH.
Qed.

Lemma nth_error_ultimo {A : Type} (l : list A) (u : A) :
  ultimo l = Some u -> nth_error l (List.length l - 1) = Some u.
Proof.
  induction l as [|a l IH]; [discriminate|].
  destruct l as [|b l].
  - simpl. now intros [= ->].
  - intros H. specialize (IH H). simpl in *.
    now rewrite Nat.sub_0_r in IH.
Qed.

End Faltantes.

(** X18: a row whose price is missing or infinite leaves [precio_ma3] and
    [precio_std3] missing at its own position and at the two that follow,
    and [precio_ma6] missing at its own position and at the five that
    follow. *)
Theorem precio_faltante_en_ventana :
  forall (np : Numpy) (df : list fila) (j i : nat) (f : fila)
         (r : FilaCaracteristicas),
    nth_error df j = Some f ->
    es_finito (Precio_promedio f) = false ->
    nth_error (crear_caracteristicas_temporales np df) i = Some r ->
    ((j <= i < j + 3)%nat -> precio_ma3 r = NaN /\ precio_std3 r = NaN) /\
    ((j <= i < j + 6)%nat -> precio_ma6 r = NaN).
Proof.
  intros np df j i f r Hf Hn Hr.
  destruct (fila_de_caracteristicas np df i r Hr) as (g & Hg & ->).
  assert (Hx : nth_error (map Precio_promedio df) j = Some (Precio_promedio f)).
  { now rewrite nth_error_map, Hf. }
  simpl. unfold rolling_mean, rolling_std.
  split; intros [A B].
  - rewrite (ventana_con_faltante 3 _ i j _ Hx Hn A B). split; reflexivity.
  - now rewrite (ventana_con_faltante 6 _ i j _ Hx Hn A B).
Qed.

Lemma precio_faltante_en_ventana_testigo :
  ((1 <= 3 < 1 + 3)%nat ->
     precio_ma3 fila_con_hueco = NaN /\ precio_std3 fila_con_hueco = NaN) /\
  ((1 <= 3 < 1 + 6)%nat -> precio_ma6 fila_con_hueco = NaN).
Proof.
  apply (precio_faltante_en_ventana numpy_racional serie_con_hueco 1 3
           (mk_fila (mk_fecha 2024 2 1) NaN)).
  - reflexivity.
  - reflexivity.
  - reflexivity.
Defined.

(** ** The model input for a date after the series *)

Section EntradaFutura.

Variable np : Numpy.

Lemma valor_columna_de_precios (r : FilaCaracteristicas) :
  valor_columna r "precio_lag1" = Some (CNum (precio_lag1 r)) /\
  valor_columna r "precio_ma3" = Some (CNum (precio_ma3 r)) /\
  valor_columna r "precio_ma6" = Some (CNum (precio_ma6 r)) /\
  valor_columna r "precio_std3" = Some (CNum (precio_std3 r)) /\
  valor_columna r "precio_diff1" = Some (CNum (precio_diff1 r)) /\
  valor_columna r "precio_diff2" = Some (CNum (precio_diff2 r)).
Proof. repeat split. Qed.

(** The frame built for a date on or after the last date of a sorted
    series is the series followed by the placeholder row. *)
Lemma marco_para_fecha_futura (hist : list fila) (u : fila)
    (fecha_obj : fecha) :
  ordenada_por_fecha hist ->
  ultimo hist = Some u -> cota_superior u hist ->
  Fechas.leb (Fecha_Pub_DOF u) fecha_obj = true ->
  df_features_para np hist fecha_obj =
    crear_caracteristicas_temporales np (hist ++ [mk_fila fecha_obj NaN]).
Proof.
  intros Ho Hu Hc Hl. unfold df_features_para. cbv zeta.
  rewrite sort_values_con_fila_final.
  - now rewrite (sort_values_de_ordenada hist Ho).
  - intros y Hy. simpl.
    apply leb_trans with (b := Fecha_Pub_DOF u); [now apply Hc|exact Hl].
Qed.

(** The last row of the feature frame of a series that ends with a missing
    price. *)
Lemma ultima_fila_con_precio_faltante (hist : list fila) (u x : fila)
    (r : FilaCaracteristicas) :
  ultimo hist = Some u ->
  Precio_promedio x = NaN ->
  iloc_ultimo (crear_caracteristicas_temporales np (hist ++ [x])) = Retorna r ->
  fc_fecha r = Fecha_Pub_DOF x /\ fc_precio r = NaN /\
  precio_lag1 r = Precio_promedio u /\
  precio_ma3 r = NaN /\ precio_ma6 r = NaN /\ precio_std3 r = NaN /\
  precio_diff1 r = NaN /\ precio_diff2 r = NaN.
Proof.
  intros Hu Hx Hr. unfold iloc_ultimo in Hr.
  destruct (ultimo (crear_caracteristicas_temporales np (hist ++ [x])))
    as [r'|] eqn:U; [|discriminate].
  injection Hr as ->.
  apply nth_error_ultimo in U.
  rewrite crear_caracteristicas_longitud, length_app in U. simpl in U.
  replace (List.length hist + 1 - 1)%nat with (List.length hist) in U by lia.
  destruct (fila_de_caracteristicas np _ _ _ U) as (f & Hf & ->).
  rewrite nth_error_app2 in Hf by lia.
  rewrite Nat.sub_diag in Hf. simpl in Hf. injection Hf as <-.
  set (n := List.length hist) in *.
  set (precios := map Precio_promedio (hist ++ [x])).
  assert (Hn : nth_error precios n = Some NaN).
  { subst precios n. rewrite nth_error_map, nth_error_app2 by lia.
    rewrite Nat.sub_diag. simpl. now rewrite Hx. }
  assert (Hpos : (1 <= n)%nat).
  { subst n. destruct hist; [discriminate|simpl; lia]. }
  assert (Hprev : nth (n - 1) precios NaN = Precio_promedio u).
  { apply nth_error_nth. subst precios n.
    rewrite nth_error_map, nth_error_app1 by lia.
    now rewrite (nth_error_ultimo hist u Hu). }
  assert (V : forall w, (1 <= w)%nat -> ventana w precios n = None).
  { intros w Hw.
    apply (ventana_con_faltante w precios n n NaN Hn); [reflexivity|lia|lia]. }
  assert (Hnn : nth n precios NaN = NaN).
  { now apply nth_error_nth. }
  simpl. fold precios. fold n.
  unfold rolling_mean, rolling_std, diff. rewrite !V by lia. rewrite Hnn.
  repeat split; try exact Hx.
  unfold shift. destruct (Nat.ltb_spec n 1); [lia|exact Hprev].
Qed.

End EntradaFutura.

(** X19: for a predictor built by [__init__] on a series in which no two
    rows share a date, and a requested date after the last date of the
    series, the row handed to the model is the placeholder row of that date,
    whose price is missing; its cells under [precio_lag1], [precio_ma3],
    [precio_ma6], [precio_std3], [precio_diff1] and [precio_diff2] all hold
    the last historical price.  (With dates all different the order of the
    sorted frame does not depend on how the sort treats ties.) *)
Theorem entrada_para_fecha_futura :
  forall (np : Numpy) (d : DirectorioModelos) (ruta_datos : string)
         (csv : archivo (list fila)) (fecha_obj : fecha)
         (hist : list fila) (u : fila) (X : list celda),
    let self := __init__ d ruta_datos csv in
    datos_historicos self = Some hist ->
    NoDup (map Fecha_Pub_DOF hist) ->
    ultimo hist = Some u ->
    comparar (Fecha_Pub_DOF u) fecha_obj = Lt ->
    X_pred_de np self hist fecha_obj = Retorna X ->
    exists cols r,
      columnas_caracteristicas self = Some cols /\
      iloc_ultimo (df_features_para np hist fecha_obj) = Retorna r /\
      fc_fecha r = fecha_obj /\ fc_precio r = NaN /\
      forall j c,
        nth_error cols j = Some c ->
        In c [ "precio_lag1"; "precio_ma3"; "precio_ma6"; "precio_std3";
               "precio_diff1"; "precio_diff2" ]%string ->
        nth_error X j = Some (CNum (Precio_promedio u)).
Proof.
  intros np d ruta csv fecha_obj hist u X self Hh _ Hu Hlt HX.
  assert (Hl : Fechas.leb (Fecha_Pub_DOF u) fecha_obj = true)
    by (unfold Fechas.leb; now rewrite Hlt).
  destruct (cargar_datos_historicos_ordena ruta csv hist
              (__init__datos d ruta csv hist Hh)) as (rows & _ & Hs).
  assert (Ho : ordenada_por_fecha hist).
  { subst hist. apply sort_values_ordenada. }
  assert (Hc : cota_superior u hist).
  { subst hist. now apply sort_values_ultimo. }
  rewrite (marco_para_fecha_futura np hist u fecha_obj Ho Hu Hc Hl).
  unfold X_pred_de in HX.
  rewrite (marco_para_fecha_futura np hist u fecha_obj Ho Hu Hc Hl) in HX.
  destruct (columnas_caracteristicas self) as [cols|]; [|discriminate].
  cbn [de_opcion ligar] in HX.
  destruct (iloc_ultimo
              (crear_caracteristicas_temporales np
                 (hist ++ [mk_fila fecha_obj NaN]))) as [r|e] eqn:R;
    [|discriminate].
  cbn [ligar] in HX.
  destruct (seleccionar r cols) as [sel|e] eqn:S; [|discriminate].
  cbn [ligar] in HX.
  unfold iloc_ultimo in HX. rewrite ultimo_map, Hu in HX.
  cbn [option_map ligar] in HX. injection HX as <-.
  destruct (ultima_fila_con_precio_faltante np hist u (mk_fila fecha_obj NaN)
              r Hu eq_refl R)
    as (F1 & F2 & L1 & M3 & M6 & S3 & D1 & D2).
  destruct (seleccionar_posicional r cols sel S) as [_ P].
  destruct (valor_columna_de_precios r) as (V1 & V2 & V3 & V4 & V5 & V6).
  exists cols, r. repeat (split; [reflexivity || assumption|]).
  intros j c Hj Hin. destruct (P j c Hj) as (v & Hv & Hn).
  rewrite nth_error_map, Hn. simpl. f_equal.
  assert (K : v = CNum NaN \/ v = CNum (Precio_promedio u)).
  { simpl in Hin.
    destruct Hin as [<-|[<-|[<-|[<-|[<-|[<-|[]]]]]]];
      [right|left|left|left|left|left]; congruence. }
  destruct K as [-> | ->]; unfold fillna; simpl; [reflexivity|].
  destruct (es_nan (Precio_promedio u)); reflexivity.
Qed.

Lemma entrada_para_fecha_futura_testigo :
  exists cols r,
    columnas_caracteristicas predictor_ejemplo = Some cols /\
    iloc_ultimo (df_features_para numpy_racional serie_ejemplo
                   (mk_fecha 2024 7 1)) = Retorna r /\
    fc_fecha r = mk_fecha 2024 7 1 /\ fc_precio r = NaN /\
    forall j c,
      nth_error cols j = Some c ->
      In c [ "precio_lag1"; "precio_ma3"; "precio_ma6"; "precio_std3";
             "precio_diff1"; "precio_diff2" ]%string ->
      nth_error [CEntero 7; CEntero 183; CNum (Fin 65); CNum (Fin 65);
                 CNum (Fin 65)] j =
        Some (CNum (Precio_promedio (mk_fila (mk_fecha 2024 6 1) (Fin 65)))).
Proof.
  apply (entrada_para_fecha_futura numpy_racional directorio_ejemplo
           "data/aguacate.csv" (Contiene serie_ejemplo) (mk_fecha 2024 7 1)
           serie_ejemplo (mk_fila (mk_fecha 2024 6 1) (Fin 65))).
  - reflexivity.
  - repeat constructor; simpl; intuition discriminate.
  - reflexivity.
  - reflexivity.
  - vm_compute. reflexivity.
Defined.

(** ** The streak counters and the volatility level *)

Section InvarianteRachas.

Lemma paso_alternan (e : estado_rachas) (c : num) :
  alternan e -> alternan (paso e c).
Proof.
  unfold alternan, paso.
  destruct (gtb c (Fin 0)); [|destruct (Num.ltb c (Fin 0))];
    destruct (tipo_racha e) as [[|]|] eqn:T; simpl; rewrite ?T; simpl; lia.
Qed.

Lemma bucle_alternan (cs : list num) :
  forall e, alternan e -> alternan (fold_left paso cs e).
Proof.
  induction cs as [|c cs IH]; intros e H; simpl; [exact H|].
  apply IH. now apply paso_alternan.
Qed.

Lemma tramos_longitud (l : list signo) :
  (List.length (tramos l) <= List.length l)%nat.
Proof.
  induction l as [|s l IH]; simpl; [lia|].
  destruct (tramos l) as [|[s' n] t]; simpl in *; [lia|].
  destruct (signo_eqb s s'); simpl; lia.
Qed.

Lemma cuenta_total (l : list signo) :
  (cuenta Positivo l + cuenta Negativo l = List.length (tramos l))%nat.
Proof.
  unfold cuenta. induction (tramos l) as [|[s n] t IH]; simpl; [reflexivity|].
  destruct s; simpl in *; lia.
Qed.

Lemma signos_longitud (cs : list num) :
  (List.length (signos cs) <= List.length cs)%nat.
Proof.
  induction cs as [|c cs IH]; simpl; [lia|].
  destruct (signo_de c); simpl; lia.
Qed.

Lemma signos_diferencias (precios : list num) :
  (List.length (signos (diferencias precios)) <= List.length precios - 1)%nat.
Proof.
  unfold diferencias. destruct precios as [|p precios]; [simpl; lia|].
  cbn [List.length seq map].
  assert (E : signo_de (diff 1 (p :: precios) 0) = None).
  { unfold diff, shift. simpl. destruct p; reflexivity. }
  cbn [signos]. rewrite E.
  etransitivity; [apply signos_longitud|].
  rewrite length_map, length_seq. lia.
Qed.

End InvarianteRachas.

(** X20: bullish and bearish streaks alternate, so the two counts the
    volatility report shows never differ by more than one. *)
Theorem rachas_alternadas :
  forall precios : list num,
    (fst (rachas_de_precios precios) <= S (snd (rachas_de_precios precios)))%nat /\
    (snd (rachas_de_precios precios) <= S (fst (rachas_de_precios precios)))%nat.
Proof.
  intros precios. unfold rachas_de_precios, contar_rachas. cbn [fst snd].
  pose proof (bucle_alternan (dropna (diferencias precios)) estado_inicial)
    as H.
  unfold alternan in H at 2.
  destruct (tipo_racha (fold_left paso (dropna (diferencias precios))
                          estado_inicial)) as [[|]|];
    (destruct H; [unfold alternan; simpl; auto|..]); lia.
Qed.

(** X21: the two streak counts together never exceed the number of price
    differences, which is one less than the number of prices; a series of
    fewer than two prices has no streak. *)
Theorem rachas_acotadas :
  forall precios : list num,
    (fst (rachas_de_precios precios) + snd (rachas_de_precios precios)
     <= List.length precios - 1)%nat.
Proof.
  intros precios. unfold rachas_de_precios.
  rewrite contar_rachas_tramos. cbn [fst snd]. unfold numero_de_rachas.
  fold (cuenta Positivo (signos (diferencias precios))).
  fold (cuenta Negativo (signos (diferencias precios))).
  rewrite cuenta_total.
  etransitivity; [apply tramos_longitud|apply signos_diferencias].
Qed.

(** X22: with fewer than two prices present the standard deviation is
    missing, so is the coefficient of variation, and the report gives the
    level 'Muy alta': a missing coefficient fails all three comparisons. *)
Theorem nivel_con_pocos_precios :
  forall (np : Numpy) (precios : list num),
    np_sqrt np NaN = NaN ->
    (List.length (dropna precios) < 2)%nat ->
    coeficiente_variacion np precios = NaN /\
    nivel_volatilidad (coeficiente_variacion np precios)
      = "Muy alta.. Mercado extremadamente volátil"%string.
Proof.
  intros np precios Hs Hl.
  assert (E : coeficiente_variacion np precios = NaN).
  { unfold coeficiente_variacion, std.
    assert (V : varianza_muestral (dropna precios) = NaN).
    { destruct (dropna precios) as [|x [|y l]]; simpl in *; try reflexivity; lia. }
    now rewrite V, Hs. }
  split; [exact E|]. now rewrite E.
Qed.

Lemma nivel_con_pocos_precios_testigo :
  coeficiente_variacion numpy_racional [Fin 50; NaN] = NaN /\
  nivel_volatilidad (coeficiente_variacion numpy_racional [Fin 50; NaN])
    = "Muy alta.. Mercado extremadamente volátil"%string.
Proof.
  apply (nivel_con_pocos_precios numpy_racional [Fin 50; NaN]).
  - reflexivity.
  - simpl. lia.
Defined.

(** ** Validation of the data file *)

(** X23: [validar_archivo_datos] accepts a file exactly when it exists,
    parses, has both required columns, has at least one row and at least one
    price that is not missing, and then says 'Archivo válido'; a missing
    column is reported before the number of rows is looked at. *)
Theorem validar_archivo_datos_acepta :
  forall (ruta : string) (csv : archivo DataFrame),
    (fst (validar_archivo_datos ruta csv) = true <->
       exists df,
         csv = Contiene df /\
         tiene_columna df "Fecha_Pub_DOF" = true /\
         tiene_columna df "Precio promedio" = true /\
         filas df <> [] /\
         exists f, In f (filas df) /\ es_nan (Precio_promedio f) = false) /\
    (fst (validar_archivo_datos ruta csv) = true ->
       snd (validar_archivo_datos ruta csv) = "Archivo válido"%string) /\
    (forall df,
       csv = Contiene df ->
       tiene_columna df "Fecha_Pub_DOF" = true ->
       tiene_columna df "Precio promedio" = false ->
       validar_archivo_datos ruta csv =
         (false, "Faltan las columnas: Precio promedio"%string)).
Proof.
  intros ruta csv.
  assert (N : forall l : list fila,
             forallb es_nan (map Precio_promedio l) = false <->
             exists f, In f l /\ es_nan (Precio_promedio f) = false).
  { induction l as [|x l IH]; simpl.
    - split; [discriminate|intros (f & [] & _)].
    - rewrite andb_false_iff, IH. split.
      + intros [H|(f & Hf & Hn)]; [exists x; auto|exists f; auto].
      + intros (f & [<-|Hf] & Hn); [now left|right; now exists f]. }
  assert (T : forall df,
             csv = Contiene df ->
             tiene_columna df "Fecha_Pub_DOF" = true ->
             tiene_columna df "Precio promedio" = false ->
             validar_archivo_datos ruta csv =
               (false, "Faltan las columnas: Precio promedio"%string)).
  { intros df -> A B. unfold validar_archivo_datos. cbn [filter].
    rewrite A, B. reflexivity. }
  split; [|split; [|exact T]]; clear T.
  - destruct csv as [|e|df].
    + split; [discriminate|intros (df & H & _); discriminate].
    + split; [discriminate|intros (df & H & _); discriminate].
    + unfold validar_archivo_datos. cbn [filter].
      split.
      * intros H. exists df. split; [reflexivity|].
        destruct (tiene_columna df "Fecha_Pub_DOF"),
                 (tiene_columna df "Precio promedio");
          cbn [negb fst] in H; try discriminate H.
        destruct (filas df) as [|r l] eqn:F;
          cbn [List.length Nat.eqb fst] in H; try discriminate H.
        destruct (forallb es_nan (map Precio_promedio (r :: l))) eqn:P;
          try discriminate H.
        repeat split; try discriminate. now apply (N (r :: l)).
      * intros (df' & E & A & B & F & P). injection E as <-.
        rewrite A, B. cbn [negb].
        destruct (filas df) as [|r l]; [congruence|].
        apply (N (r :: l)) in P. cbn [List.length Nat.eqb].
        rewrite P. reflexivity.
  - destruct csv as [|e|df]; try discriminate.
    unfold validar_archivo_datos. cbn [filter].
    destruct (tiene_columna df "Fecha_Pub_DOF"),
             (tiene_columna df "Precio promedio");
      cbn [negb fst snd]; try discriminate.
    destruct (filas df) as [|r l]; cbn [List.length Nat.eqb];
      try discriminate.
    destruct (forallb es_nan (map Precio_promedio (r :: l)));
      try discriminate. reflexivity.
Qed.

(** ** Calendar arithmetic *)

Section Calendario.

Lemma dias_en_mes_cota (y m : Z) : 28 <= dias_en_mes y m <= 31.
Proof.
  unfold dias_en_mes.
  destruct (m =? 2); [destruct (bisiesto y); lia|].
  destruct ((m =? 4) || (m =? 6) || (m =? 9) || (m =? 11)); lia.
Qed.

Lemma dias_antes_de_anio_siguiente (y : Z) :
  dias_antes_de_anio (y + 1) =
    dias_antes_de_anio y + 365 + (if bisiesto y then 1 else 0).
Proof.
  unfold dias_antes_de_anio, bisiesto.
  replace (y + 1 - 1) with y by lia.
  destruct (Z.eqb_spec (y mod 4) 0), (Z.eqb_spec (y mod 100) 0),
           (Z.eqb_spec (y mod 400) 0); simpl;
    Z.div_mod_to_equations; lia.
Qed.

Lemma dias_antes_de_mes_siguiente (y m : Z) :
  1 <= m < 12 ->
  dias_antes_de_mes y (m + 1) = dias_antes_de_mes y m + dias_en_mes y m.
Proof.
  intros H.
  assert (C : m = 1 \/ m = 2 \/ m = 3 \/ m = 4 \/ m = 5 \/ m = 6 \/ m = 7 \/
              m = 8 \/ m = 9 \/ m = 10 \/ m = 11) by lia.
  unfold dias_antes_de_mes, dias_en_mes.
  repeat (destruct C as [->|C];
          [destruct (bisiesto y); vm_compute; reflexivity|]).
  subst. destruct (bisiesto y); vm_compute; reflexivity.
Qed.

Lemma dias_antes_de_diciembre (y : Z) :
  dias_antes_de_mes y 12 + 31 = 365 + (if bisiesto y then 1 else 0) /\
  dias_antes_de_mes y 1 = 0.
Proof.
  unfold dias_antes_de_mes, dias_en_mes.
  destruct (bisiesto y); vm_compute; split; reflexivity.
Qed.

(** The day after a calendar date is a calendar date, one day later by the
    ordinal, in the same year or the next. *)
Lemma siguiente_dia_correcto (f : fecha) :
  fecha_civil f ->
  fecha_civil (siguiente_dia f) /\
  toordinal (siguiente_dia f) = toordinal f + 1 /\
  anio f <= anio (siguiente_dia f).
Proof.
  unfold fecha_civil, siguiente_dia, toordinal, dayofyear.
  intros [Hm Hd].
  destruct (Z.ltb_spec (dia f) (dias_en_mes (anio f) (mes f)));
    cbn [anio mes dia].
  - repeat split; lia.
  - destruct (Z.ltb_spec (mes f) 12); cbn [anio mes dia].
    + pose proof (dias_en_mes_cota (anio f) (mes f + 1)).
      rewrite dias_antes_de_mes_siguiente by lia.
      repeat split; lia.
    + assert (E : mes f = 12) by lia. rewrite E in *.
      pose proof (dias_en_mes_cota (anio f + 1) 1).
      rewrite dias_antes_de_anio_siguiente.
      destruct (dias_antes_de_diciembre (anio f)) as [A _].
      destruct (dias_antes_de_diciembre (anio f + 1)) as [_ B].
      rewrite B.
      assert (D : dias_en_mes (anio f) 12 = 31) by reflexivity.
      repeat split; lia.
Qed.

Lemma sumar_dias_correcto (n : nat) :
  forall f,
    fecha_civil f ->
    fecha_civil (sumar_dias f n) /\
    toordinal (sumar_dias f n) = toordinal f + Z.of_nat n /\
    anio f <= anio (sumar_dias f n).
Proof.
  induction n as [|n IH]; intros f H; simpl sumar_dias.
  - split; [assumption|split; lia].
  - destruct (siguiente_dia_correcto f H) as (C & O & Y).
    destruct (IH _ C) as (C' & O' & Y').
    split; [assumption|split; lia].
Qed.

End Calendario.

(** ** Parsing and printing dates *)

Section FechasComoTexto.

Lemma es_digito_cota (c : ascii) :
  es_digito c = true -> 0 <= valor_digito c <= 9.
Proof.
  unfold es_digito, valor_digito.
  rewrite andb_true_iff, !Nat.leb_le. lia.
Qed.

Lemma entre_cota (a b : Z) (c : ascii) :
  entre a b c = true -> a <= valor_digito c <= b.
Proof.
  unfold entre. rewrite !andb_true_iff, !Z.leb_le. tauto.
Qed.

Opaque Z.mul Z.add.

Lemma leer_mes_cota (l r : list ascii) (m : Z) :
  leer_mes l = Some (m, r) -> 1 <= m <= 12.
Proof.
  unfold leer_mes.
  repeat match goal with
         | |- context [if ?b then _ else _] => destruct b eqn:?
         | |- context [match ?x with _ => _ end] => destruct x
         end;
    try discriminate; intros [= <- <-];
    repeat match goal with
           | H : orb _ _ = true |- _ => apply orb_true_iff in H; destruct H
           | H : andb _ _ = true |- _ => apply andb_true_iff in H; destruct H
           | H : entre _ _ _ = true |- _ => apply entre_cota in H
           end; lia.
Qed.

Lemma leer_dia_cota (l r : list ascii) (d : Z) :
  leer_dia l = Some (d, r) -> 1 <= d <= 31.
Proof.
  unfold leer_dia.
  repeat match goal with
         | |- context [if ?b then _ else _] => destruct b eqn:?
         | |- context [match ?x with _ => _ end] => destruct x
         end;
    try discriminate; intros [= <- <-];
    repeat match goal with
           | H : orb _ _ = true |- _ => apply orb_true_iff in H; destruct H
           | H : andb _ _ = true |- _ => apply andb_true_iff in H; destruct H
           | H : entre _ _ _ = true |- _ => apply entre_cota in H
           | H : es_digito _ = true |- _ => apply es_digito_cota in H
           end; lia.
Qed.

Transparent Z.mul Z.add.

(** What [strptime] accepts is a date of the calendar in the years 1 to
    9999. *)
Lemma strptime_fecha_valida (s : string) (f : fecha) :
  strptime s = Retorna f -> fecha_civil f /\ 1 <= anio f <= 9999.
Proof.
  unfold strptime.
  destruct (list_ascii_of_string s) as [|y1 [|y2 [|y3 [|y4 [|c r]]]]];
    try discriminate.
  destruct c as [[] [] [] [] [] [] [] []]; try discriminate.
  destruct (es_digito y1 && es_digito y2 && es_digito y3 && es_digito y4)
    eqn:D; [|discriminate].
  destruct (leer_mes r) as [[m r']|] eqn:M; [|discriminate].
  destruct (leer_dia r') as [[d [|]]|] eqn:E; try discriminate.
  set (y := 1000 * valor_digito y1 + 100 * valor_digito y2
            + 10 * valor_digito y3 + valor_digito y4).
  destruct (Z.eqb_spec y 0); [discriminate|].
  destruct (Z.leb_spec d (dias_en_mes y m)); [|discriminate].
  intros [= <-]. unfold fecha_civil. cbn [anio mes dia].
  apply leer_mes_cota in M. apply leer_dia_cota in E.
  rewrite !andb_true_iff in D. destruct D as [[[D1 D2] D3] D4].
  apply es_digito_cota in D1, D2, D3, D4.
  subst y. lia.
Qed.

Lemma digito_de_cifra (z : Z) :
  0 <= z <= 9 ->
  es_digito (ascii_of_nat (48 + Z.to_nat z)) = true /\
  valor_digito (ascii_of_nat (48 + Z.to_nat z)) = z.
Proof.
  intros H.
  assert (C : z = 0 \/ z = 1 \/ z = 2 \/ z = 3 \/ z = 4 \/ z = 5 \/ z = 6 \/
              z = 7 \/ z = 8 \/ z = 9) by lia.
  repeat (destruct C as [->|C]; [split; reflexivity|]).
  subst. split; reflexivity.
Qed.

Lemma leer_mes_dos_digitos (m : Z) (r : list ascii) :
  1 <= m <= 12 ->
  leer_mes (ascii_of_nat (48 + Z.to_nat (m / 10 mod 10))
            :: ascii_of_nat (48 + Z.to_nat (m mod 10))
            :: "-"%char :: r) = Some (m, r).
Proof.
  intros H.
  assert (C : m = 1 \/ m = 2 \/ m = 3 \/ m = 4 \/ m = 5 \/ m = 6 \/ m = 7 \/
              m = 8 \/ m = 9 \/ m = 10 \/ m = 11 \/ m = 12) by lia.
  repeat (destruct C as [->|C]; [reflexivity|]).
  subst. reflexivity.
Qed.

Lemma leer_dia_dos_digitos (d : Z) :
  1 <= d <= 31 ->
  leer_dia [ascii_of_nat (48 + Z.to_nat (d / 10 mod 10));
            ascii_of_nat (48 + Z.to_nat (d mod 10))] = Some (d, []).
Proof.
  intros H.
  assert (C : exists k : nat, (k < 31)%nat /\ d = 1 + Z.of_nat k).
  { exists (Z.to_nat (d - 1)). lia. }
  destruct C as (k & Hk & ->).
  do 31 (destruct k as [|k]; [reflexivity|]). lia.
Qed.

(** A date of the years 1000 to 9999 printed by [strftime] is read back by
    [strptime]. *)
Lemma strptime_strftime (g : fecha) :
  fecha_civil g -> 1000 <= anio g <= 9999 ->
  strptime (strftime g) = Retorna g.
Proof.
  destruct g as [y m d]. unfold fecha_civil. cbn [anio mes dia].
  intros [Hm Hd] Hy.
  pose proof (dias_en_mes_cota y m) as Hc.
  unfold strptime, strftime, dos_digitos.
  cbn [append list_ascii_of_string anio mes dia].
  destruct (digito_de_cifra (y / 100 / 10 mod 10)) as [A1 V1];
    [Z.div_mod_to_equations; lia|].
  destruct (digito_de_cifra (y / 100 mod 10)) as [A2 V2];
    [Z.div_mod_to_equations; lia|].
  destruct (digito_de_cifra (y / 10 mod 10)) as [A3 V3];
    [Z.div_mod_to_equations; lia|].
  destruct (digito_de_cifra (y mod 10)) as [A4 V4];
    [Z.div_mod_to_equations; lia|].
  rewrite A1, A2, A3, A4, V1, V2, V3, V4. cbn [andb].
  rewrite leer_mes_dos_digitos by lia.
  rewrite leer_dia_dos_digitos by lia.
  assert (Y : 1000 * (y / 100 / 10 mod 10) + 100 * (y / 100 mod 10)
              + 10 * (y / 10 mod 10) + y mod 10 = y)
    by (Z.div_mod_to_equations; lia).
  rewrite Y.
  destruct (Z.eqb_spec y 0); [lia|].
  destruct (Z.leb_spec d (dias_en_mes y m)); [reflexivity|lia].
Qed.

End FechasComoTexto.

(** ** Future dates *)

Section FechasFuturas.

Variable fecha_base : fecha.

(** The date the loop computes for the index [i]. *)
Let fecha_de (i : nat) : fecha :=
  sumar_dias fecha_base (Z.to_nat (30 * (Z.of_nat i + 1))).

Lemma sumar_dias_suma (a b : nat) (f : fecha) :
  sumar_dias f (a + b) = sumar_dias (sumar_dias f a) b.
Proof.
  revert f. induction a as [|a IH]; intros f; simpl; [reflexivity|apply IH].
Qed.

Lemma anio_sumar_dias_monotono (f : fecha) (a b : nat) :
  fecha_civil f -> (a <= b)%nat ->
  anio (sumar_dias f a) <= anio (sumar_dias f b).
Proof.
  intros Hf Hab. replace b with (a + (b - a))%nat by lia.
  rewrite sumar_dias_suma.
  destruct (sumar_dias_correcto a f Hf) as (C & _ & _).
  apply (sumar_dias_correcto (b - a) _ C).
Qed.

Lemma bucle_futuras_retorna (indices : list nat) :
  forall acc,
    Forall (fun i => anio (fecha_de i) <= 9999) indices ->
    bucle_futuras fecha_base indices acc =
      Retorna (acc ++ map (fun i => strftime (fecha_de i)) indices).
Proof.
  induction indices as [|i indices IH]; intros acc H;
    cbn [bucle_futuras map].
  - now rewrite app_nil_r.
  - inversion H as [|? ? Hi Hr]; subst.
    unfold mas_dias. cbv zeta. fold (fecha_de i).
    destruct (Z.leb_spec (anio (fecha_de i)) 9999); [|lia].
    cbn [ligar]. fold (fecha_de i). rewrite IH by assumption.
    now rewrite <- app_assoc.
Qed.

Lemma bucle_futuras_desborda (indices : list nat) :
  forall acc i,
    In i indices -> 9999 < anio (fecha_de i) ->
    bucle_futuras fecha_base indices acc =
      Lanza (mk_excepcion Exception_ "date value out of range").
Proof.
  induction indices as [|j indices IH]; intros acc i Hin Hi;
    cbn [bucle_futuras].
  - destruct Hin.
  - unfold mas_dias. cbv zeta. fold (fecha_de j).
    destruct (Z.leb_spec (anio (fecha_de j)) 9999) as [Hj|Hj];
      [|reflexivity].
    cbn [ligar]. fold (fecha_de j). destruct Hin as [->|Hin]; [lia|].
    now apply IH with (i := i).
Qed.

End FechasFuturas.

(** X24: [generar_fechas_futuras] hands a parse error of the start date on
    as a [ValueError] whose message is prefixed; with a number of months
    that is not positive it returns the empty list; and when the last date
    asked for lies past the year 9999 the overflow error of the date
    addition leaves the function as it is, not wrapped. *)
Theorem generar_fechas_futuras_errores :
  forall (fecha_inicio : string) (num_meses : Z),
    (forall e,
       strptime fecha_inicio = Lanza e ->
       generar_fechas_futuras fecha_inicio num_meses =
         Lanza (mk_excepcion ValueError
                  ("Formato de fecha inválido. Use 'YYYY-MM-DD': "
                     ++ mensaje e)%string)) /\
    (forall f,
       strptime fecha_inicio = Retorna f ->
       num_meses <= 0 ->
       generar_fechas_futuras fecha_inicio num_meses = Retorna []) /\
    (forall f,
       strptime fecha_inicio = Retorna f ->
       0 < num_meses ->
       9999 < anio (sumar_dias f (Z.to_nat (30 * num_meses))) ->
       generar_fechas_futuras fecha_inicio num_meses =
         Lanza (mk_excepcion Exception_ "date value out of range")).
Proof.
  intros s n. unfold generar_fechas_futuras. split; [|split].
  - intros e He. rewrite He. cbn [ligar intentar despachar].
    rewrite (strptime_lanza_ValueError s e He). reflexivity.
  - intros f Hf Hn. rewrite Hf. cbn [ligar].
    replace (Z.to_nat n) with 0%nat by lia. reflexivity.
  - intros f Hf Hn Hy. rewrite Hf. cbn [ligar].
    rewrite (bucle_futuras_desborda f _ [] (Z.to_nat n - 1)).
    + reflexivity.
    + apply in_seq. lia.
    + replace (30 * (Z.of_nat (Z.to_nat n - 1) + 1)) with (30 * n) by lia.
      exact Hy.
Qed.

(** X25: from a start date of the years 1000 and later, and as long as the
    last date asked for is not past the year 9999, [generar_fechas_futuras]
    returns [num_meses] strings; the [i]-th one (from 0) is the date
    [30 * (i + 1)] days after the start, and [strptime] reads it back. *)
Theorem generar_fechas_futuras_cada_30_dias :
  forall (fecha_inicio : string) (num_meses : Z) (f : fecha),
    strptime fecha_inicio = Retorna f ->
    1000 <= anio f ->
    anio (sumar_dias f (Z.to_nat (30 * num_meses))) <= 9999 ->
    exists fechas,
      generar_fechas_futuras fecha_inicio num_meses = Retorna fechas /\
      List.length fechas = Z.to_nat num_meses /\
      forall i s,
        nth_error fechas i = Some s ->
        exists g,
          s = strftime g /\
          strptime s = Retorna g /\
          toordinal g = toordinal f + 30 * (Z.of_nat i + 1).
Proof.
  intros s n f Hf Hy Hfin.
  destruct (strptime_fecha_valida s f Hf) as [Hc Hr].
  set (fecha_de := fun i : nat =>
         sumar_dias f (Z.to_nat (30 * (Z.of_nat i + 1)))).
  assert (Hcota : forall i, (i < Z.to_nat n)%nat -> anio (fecha_de i) <= 9999).
  { intros i Hi. unfold fecha_de.
    etransitivity; [|exact Hfin].
    apply anio_sumar_dias_monotono; [exact Hc|lia]. }
  exists (map (fun i => strftime (fecha_de i)) (seq 0 (Z.to_nat n))).
  split; [|split].
  - unfold generar_fechas_futuras. rewrite Hf. cbn [ligar].
    rewrite bucle_futuras_retorna.
    + reflexivity.
    + apply Forall_forall. intros i Hi. apply in_seq in Hi.
      apply Hcota. lia.
  - now rewrite length_map, length_seq.
  - intros i s' Hi.
    assert (Hlt : (i < Z.to_nat n)%nat).
    { assert (L : (i < List.length
                         (map (fun i => strftime (fecha_de i))
                            (seq 0 (Z.to_nat n))))%nat)
        by (apply nth_error_Some; congruence).
      now rewrite length_map, length_seq in L. }
    rewrite nth_error_map, nth_error_seq in Hi.
    destruct (Nat.ltb_spec i (Z.to_nat n)); [|lia].
    cbn [option_map Nat.add] in Hi. injection Hi as <-.
    exists (fecha_de i).
    destruct (sumar_dias_correcto (Z.to_nat (30 * (Z.of_nat i + 1))) f Hc)
      as (C & O & Y).
    fold (fecha_de i) in C, O, Y.
    split; [reflexivity|]. split.
    + apply strptime_strftime; [exact C|]. specialize (Hcota i Hlt). lia.
    + rewrite O. lia.
Qed.

Lemma generar_fechas_futuras_cada_30_dias_testigo :
  strptime "2024-01-15" = Retorna (mk_fecha 2024 1 15) /\
  exists fechas,
    generar_fechas_futuras "2024-01-15" 2 = Retorna fechas /\
    List.length fechas = Z.to_nat 2 /\
    forall i s,
      nth_error fechas i = Some s ->
      exists g,
        s = strftime g /\
        strptime s = Retorna g /\
        toordinal g = toordinal (mk_fecha 2024 1 15) + 30 * (Z.of_nat i + 1).
Proof.
  split; [reflexivity|].
  apply (generar_fechas_futuras_cada_30_dias "2024-01-15" 2
           (mk_fecha 2024 1 15)).
  - reflexivity.
  - vm_compute. discriminate.
  - vm_compute. discriminate.
Defined.

(** ** Days since the first date *)

Section OrdenYOrdinal.

Lemma dias_antes_de_anio_monotono (y : Z) (n : nat) :
  dias_antes_de_anio y <= dias_antes_de_anio (y + Z.of_nat n).
Proof.
  induction n as [|n IH].
  - replace (y + Z.of_nat 0) with y by lia. lia.
  - replace (y + Z.of_nat (S n)) with (y + Z.of_nat n + 1) by lia.
    rewrite dias_antes_de_anio_siguiente.
    destruct (bisiesto (y + Z.of_nat n)); lia.
Qed.

Lemma dias_antes_de_mes_monotono (y m : Z) (n : nat) :
  1 <= m -> m + Z.of_nat n <= 12 ->
  dias_antes_de_mes y m <= dias_antes_de_mes y (m + Z.of_nat n).
Proof.
  intros Hm. induction n as [|n IH]; intros Hn.
  - replace (m + Z.of_nat 0) with m by lia. lia.
  - replace (m + Z.of_nat (S n)) with (m + Z.of_nat n + 1) by lia.
    rewrite dias_antes_de_mes_siguiente by lia.
    pose proof (dias_en_mes_cota y (m + Z.of_nat n)). lia.
Qed.

Lemma dayofyear_cota (f : fecha) :
  fecha_civil f ->
  1 <= dayofyear f <= 365 + (if bisiesto (anio f) then 1 else 0).
Proof.
  unfold fecha_civil, dayofyear. intros [Hm Hd].
  destruct (dias_antes_de_diciembre (anio f)) as [A B].
  assert (L : 0 <= dias_antes_de_mes (anio f) (mes f)).
  { pose proof (dias_antes_de_mes_monotono (anio f) 1
                  (Z.to_nat (mes f - 1)) ltac:(lia) ltac:(lia)) as M.
    replace (1 + Z.of_nat (Z.to_nat (mes f - 1))) with (mes f) in M by lia.
    lia. }
  split; [lia|].
  destruct (Z.eq_dec (mes f) 12) as [E|E].
  - rewrite E in *.
    assert (D : dias_en_mes (anio f) 12 = 31) by reflexivity. lia.
  - pose proof (dias_antes_de_mes_siguiente (anio f) (mes f) ltac:(lia)) as S.
    pose proof (dias_antes_de_mes_monotono (anio f) (mes f + 1)
                  (Z.to_nat (12 - (mes f + 1))) ltac:(lia) ltac:(lia)) as M.
    replace (mes f + 1 + Z.of_nat (Z.to_nat (12 - (mes f + 1)))) with 12
      in M by lia.
    lia.
Qed.

(** The ordinal of a calendar date grows with the date. *)
Lemma toordinal_creciente (a b : fecha) :
  fecha_civil a -> fecha_civil b ->
  comparar a b = Lt -> toordinal a < toordinal b.
Proof.
  intros Ha Hb. unfold comparar, toordinal.
  pose proof (dayofyear_cota a Ha) as Da.
  pose proof (dayofyear_cota b Hb) as Db.
  destruct (Z.compare_spec (anio a) (anio b)) as [Ey|Ly|Gy];
    [|intros _|discriminate].
  - unfold dayofyear in *. destruct Ha as [Ma Dia], Hb as [Mb Dib].
    rewrite Ey in *.
    destruct (Z.compare_spec (mes a) (mes b)) as [Em|Lm|Gm];
      [|intros _|discriminate].
    + rewrite Em. rewrite Z.compare_lt_iff. lia.
    + pose proof (dias_antes_de_mes_siguiente (anio b) (mes a) ltac:(lia)).
      pose proof (dias_antes_de_mes_monotono (anio b) (mes a + 1)
                    (Z.to_nat (mes b - (mes a + 1))) ltac:(lia) ltac:(lia))
        as M.
      replace (mes a + 1 + Z.of_nat (Z.to_nat (mes b - (mes a + 1))))
        with (mes b) in M by lia.
      lia.
  - pose proof (dias_antes_de_anio_siguiente (anio a)) as S.
    pose proof (dias_antes_de_anio_monotono (anio a + 1)
                  (Z.to_nat (anio b - (anio a + 1)))) as M.
    replace (anio a + 1 + Z.of_nat (Z.to_nat (anio b - (anio a + 1))))
      with (anio b) in M by lia.
    lia.
Qed.

Lemma comparar_Eq (a b : fecha) : comparar a b = Eq -> a = b.
Proof.
  destruct a as [ya ma da], b as [yb mb db]. unfold comparar; simpl.
  destruct (Z.compare_spec ya yb); try discriminate.
  destruct (Z.compare_spec ma mb); try discriminate.
  destruct (Z.compare_spec da db); try discriminate.
  intros _. congruence.
Qed.

Lemma minimo_desde_cota (l : list fecha) :
  forall m,
    (minimo_desde m l = m \/ In (minimo_desde m l) l) /\
    Fechas.leb (minimo_desde m l) m = true /\
    forall x, In x l -> Fechas.leb (minimo_desde m l) x = true.
Proof.
  induction l as [|f l IH]; intros m; simpl.
  - split; [now left|]. split; [apply leb_refl|intros x []].
  - destruct (IH (if Fechas.leb f m then f else m)) as (A & B & C).
    destruct (Fechas.leb f m) eqn:E.
    + split; [destruct A as [->|A]; auto|].
      split; [now apply leb_trans with (b := f)|].
      intros x [<-|Hx]; auto.
    + apply leb_total in E.
      split; [destruct A as [A|A]; auto|].
      split; [exact B|].
      intros x [<-|Hx]; auto. now apply leb_trans with (b := m).
Qed.

Lemma minimo_cota (l : list fecha) (f0 : fecha) :
  minimo l = Some f0 ->
  In f0 l /\ forall x, In x l -> Fechas.leb f0 x = true.
Proof.
  destruct l as [|f l]; [discriminate|]. simpl. intros [= <-].
  destruct (minimo_desde_cota l f) as (A & B & C).
  split; [destruct A as [->|A]; auto|].
  intros x [<-|Hx]; auto.
Qed.

End OrdenYOrdinal.

(** X26: on a frame of calendar dates the feature 'days_since_start' is
    never negative, and it is 0 exactly on the rows that carry the earliest
    date of the frame. *)
Theorem dias_desde_el_inicio :
  forall (np : Numpy) (df : list fila),
    Forall (fun f => fecha_civil (Fecha_Pub_DOF f)) df ->
    forall i r,
      nth_error (crear_caracteristicas_temporales np df) i = Some r ->
      0 <= days_since_start r /\
      (days_since_start r = 0 <->
         minimo (map Fecha_Pub_DOF df) = Some (fc_fecha r)).
Proof.
  intros np df Hciv i r Hr.
  destruct (fila_de_caracteristicas np df i r Hr) as (f & Hf & ->).
  cbn [days_since_start fc_fecha caracteristicas_de_fila].
  assert (Hin : In f df) by (eapply nth_error_In; eauto).
  rewrite Forall_forall in Hciv.
  destruct (minimo (map Fecha_Pub_DOF df)) as [f0|] eqn:M.
  - destruct (minimo_cota _ _ M) as [H0 Hle].
    apply in_map_iff in H0. destruct H0 as (r0 & E0 & Hr0).
    pose proof (Hciv _ Hr0) as C0. rewrite E0 in C0.
    pose proof (Hciv _ Hin) as C.
    specialize (Hle (Fecha_Pub_DOF f) (in_map _ _ _ Hin)).
    unfold Fechas.leb in Hle.
    cbv beta iota.
    destruct (comparar f0 (Fecha_Pub_DOF f)) eqn:Cmp; [| |discriminate].
    + apply comparar_Eq in Cmp. rewrite Cmp. split; [lia|].
      split; [reflexivity|lia].
    + pose proof (toordinal_creciente _ _ C0 C Cmp). split; [lia|].
      split; [lia|]. intros [= ->].
      unfold comparar in Cmp. rewrite !Z.compare_refl in Cmp. discriminate.
  - destruct df; [destruct Hin|discriminate].
Qed.

Lemma dias_desde_el_inicio_testigo :
  0 <= days_since_start
         (caracteristicas_de_fila numpy_racional
            (Some (mk_fecha 2024 1 15)) [Fin 50; Fin 52] 1%nat
            (mk_fila (mk_fecha 2024 2 15) (Fin 52))) /\
  (days_since_start
     (caracteristicas_de_fila numpy_racional
        (Some (mk_fecha 2024 1 15)) [Fin 50; Fin 52] 1%nat
        (mk_fila (mk_fecha 2024 2 15) (Fin 52))) = 0 <->
   minimo (map Fecha_Pub_DOF
             [mk_fila (mk_fecha 2024 1 15) (Fin 50);
              mk_fila (mk_fecha 2024 2 15) (Fin 52)]) =
     Some (fc_fecha
             (caracteristicas_de_fila numpy_racional
                (Some (mk_fecha 2024 1 15)) [Fin 50; Fin 52] 1%nat
                (mk_fila (mk_fecha 2024 2 15) (Fin 52))))).
Proof.
  apply (dias_desde_el_inicio numpy_racional
           [mk_fila (mk_fecha 2024 1 15) (Fin 50);
            mk_fila (mk_fecha 2024 2 15) (Fin 52)]) with (i := 1%nat).
  - repeat constructor; vm_compute; discriminate.
  - reflexivity.
Defined.

(** ** The model report and the historical frame *)

(** X27: with the model loaded, what [obtener_info_modelo] says about the
    data depends on the historical frame alone.  Without a frame the report
    counts 0 records and has no date keys and no error; with an empty frame
    the whole report is replaced by the error record 'Error al obtener
    información del modelo: ...'; with a frame that has rows the report
    counts them and gives under 'fecha_inicio_datos' and 'fecha_fin_datos'
    two dates of the frame that bound all the others. *)
Theorem info_modelo_segun_los_datos :
  forall self : PredictorAguacate,
    modelo_cargado self = true ->
    match datos_historicos self with
    | None =>
        exists d,
          obtener_info_modelo self = Retorna d /\
          obtener d "datos_historicos_disponibles" = Some (PInt 0) /\
          tiene_clave d "fecha_inicio_datos" = false /\
          tiene_clave d "fecha_fin_datos" = false /\
          tiene_clave d "error" = false
    | Some [] =>
        exists m,
          obtener_info_modelo self =
            Retorna (registro_error
                       ("Error al obtener información del modelo: " ++ m)%string)
    | Some (r :: h) =>
        exists d inicio fin,
          obtener_info_modelo self = Retorna d /\
          tiene_clave d "error" = false /\
          obtener d "datos_historicos_disponibles" =
            Some (PInt (Z.of_nat (List.length (r :: h)))) /\
          obtener d "fecha_inicio_datos" = Some (PStr (strftime inicio)) /\
          obtener d "fecha_fin_datos" = Some (PStr (strftime fin)) /\
          In inicio (map Fecha_Pub_DOF (r :: h)) /\
          In fin (map Fecha_Pub_DOF (r :: h)) /\
          forall x, In x (map Fecha_Pub_DOF (r :: h)) ->
                    Fechas.leb inicio x = true /\ Fechas.leb x fin = true
    end.
Proof.
  intros self Hc. unfold obtener_info_modelo. rewrite Hc. cbn [negb].
  destruct (datos_historicos self) as [[|r h]|].
  - eexists. reflexivity.
  - destruct (minimo (map Fecha_Pub_DOF (r :: h))) as [inicio|] eqn:Mi;
      [|discriminate].
    destruct (maximo (map Fecha_Pub_DOF (r :: h))) as [fin|] eqn:Ma;
      [|discriminate].
    destruct (minimo_cota _ _ Mi) as [Ii Li].
    pose proof (maximo_In _ _ Ma) as If.
    pose proof (maximo_cota _ _ Ma) as Lf.
    eexists _, inicio, fin.
    split; [cbn [de_opcion ligar intentar]; reflexivity|].
    repeat (split; [reflexivity || assumption|]).
    intros x Hx. split; auto.
  - eexists. split; [reflexivity|]. repeat split; reflexivity.
Qed.

Lemma info_modelo_segun_los_datos_testigo :
  exists d inicio fin,
    obtener_info_modelo predictor_ejemplo = Retorna d /\
    tiene_clave d "error" = false /\
    obtener d "datos_historicos_disponibles" = Some (PInt 6) /\
    obtener d "fecha_inicio_datos" = Some (PStr (strftime inicio)) /\
    obtener d "fecha_fin_datos" = Some (PStr (strftime fin)) /\
    In inicio (map Fecha_Pub_DOF serie_ejemplo) /\
    In fin (map Fecha_Pub_DOF serie_ejemplo) /\
    forall x, In x (map Fecha_Pub_DOF serie_ejemplo) ->
              Fechas.leb inicio x = true /\ Fechas.leb x fin = true.
Proof.
  exact (info_modelo_segun_los_datos predictor_ejemplo eq_refl).
Defined.
